(** * The profile-delta engine of ant-sf ([py/profile_delta.py])

    A shallow embedding of [profile_delta.py] and of the parts of
    [tools_lxml.py] it calls, with the properties the specification
    states about pruning, fetching, diffing and extracting permission
    elements.

    lxml elements are mutable objects with identity: [remove] unlinks an
    element from its parent, and [append] MOVES an element that already
    has a parent.  The program relies on both ([deepcopy] before
    [append], [SubElement] followed by [append]), so documents live in a
    store of cells.  A document root keeps the ordered list of the
    identities of its children; a child keeps its parent link and its
    content.  The program never changes anything below a root's child,
    so the content of a child is an immutable tree value. *)

From Stdlib Require Import ZArith String Ascii List.
From stdpp Require Import base list strings gmap.

Open Scope string_scope.
Open Scope list_scope.

(** ** Data model *)

(** What every lxml element carries besides its children. *)
Record header := Header {
  h_tag : string;
  h_attrib : list (string * string);
  h_text : option string;
  h_tail : option string
}.

(** An element as a value: the content of a subtree. *)
#[local] Unset Elimination Schemes.
Inductive element := Element (hd : header) (children : list element).
#[local] Set Elimination Schemes.

Definition hd (e : element) : header := let 'Element a _ := e in a.
Definition children (e : element) : list element := let 'Element _ cs := e in cs.
Definition tag (e : element) : string := h_tag (hd e).
Definition text (e : element) : option string := h_text (hd e).

(** Object identities. *)
Abbreviation loc := nat (only parsing).

(** A store cell: a document root with the identities of its children in
    document order, or a child of a root (or a detached element) with its
    content and its parent link ([getparent()]). *)
Inductive cell :=
| Root (a : header) (kids : list loc)
| Elem (e : element) (parent : option loc).

Abbreviation heap := (list cell) (only parsing).

(** Python exceptions the program can meet.  [OutOfModel] has no Python
    counterpart: it marks a use of the store that the program never makes
    (a reference to no object, a tree operation on the wrong kind of
    cell). *)
Inductive exn :=
| AttributeError | TypeError | IndexError | KeyError | ValueError
| SyntaxError | NotImplementedError
| IOError | XMLSyntaxError
| SystemExit (code : Z)
| OutOfModel.

Inductive result (A : Type) :=
| Ok (a : A)
| Raise (e : exn).
Arguments Ok {A} a.
Arguments Raise {A} e.

(** Tree code: reads and writes the store, may raise. *)
Definition M (A : Type) : Type := heap -> result (A * heap).

Definition ret {A} (a : A) : M A := fun h => Ok (a, h).
Definition raise {A} (e : exn) : M A := fun _ => Raise e.
Definition bind {A B} (m : M A) (k : A -> M B) : M B :=
  fun h => match m h with
           | Ok (a, h') => k a h'
           | Raise e => Raise e
           end.

Notation "x <- c ;; k" := (bind c (fun x => k))
  (at level 100, c at next level, right associativity).
Notation "c ;;; k" := (bind c (fun _ => k))
  (at level 100, right associativity).

(** A [for x in xs:] loop whose body updates a loop-carried value. *)
Fixpoint for_each {A S} (xs : list A) (s : S) (body : S -> A -> M S) : M S :=
  match xs with
  | [] => ret s
  | x :: xs' => s' <- body s x ;; for_each xs' s' body
  end.

(** ** tools_lxml.py *)

Definition SF_URI : string := "http://soap.sforce.com/2006/04/metadata".
Definition SF_PREFIX : string := "md".

Definition namespace_declare (test_mode : bool) : option (gmap string string) :=
  if test_mode then None else Some {[ SF_PREFIX := SF_URI ]}.

Definition namespace_prepend (match_string : string) (test_mode : bool) : string :=
  if test_mode then match_string else SF_PREFIX +:+ ":" +:+ match_string.

(** lxml's tag of a namespaced element, [{uri}local]. *)
Definition clark (uri local : string) : string := "{" +:+ uri +:+ "}" +:+ local.

(** [sforce_root]: a fresh root in the Salesforce namespace. *)
Definition sforce_root (root_name : string) : M loc :=
  fun h => Ok (List.length h, h ++ [Root (Header (clark SF_URI root_name) [] None None) []]).

(** ** The lxml operations the program uses *)

(** [s.split(":", 1)] when [s] holds a colon. *)
Fixpoint split_colon (s : string) : option (string * string) :=
  match s with
  | EmptyString => None
  | String c s' =>
      if Ascii.eqb c ":" then Some (EmptyString, s')
      else match split_colon s' with
           | Some (p, u) => Some (String c p, u)
           | None => None
           end
  end.

(** The characters that the tokenizer of ElementPath reads as path
    syntax, or that end a tag token, by their codes: slash, brackets,
    parentheses, at sign, equals sign, exclamation mark, star, colon,
    braces, both quotes and white space. *)
Definition path_syntax (c : ascii) : bool :=
  existsb (Nat.eqb (nat_of_ascii c))
          [47; 91; 93; 40; 41; 64; 61; 33; 42; 58; 123; 125; 39; 34; 32; 9; 10; 11; 12; 13]%nat.

Fixpoint no_path_syntax (s : string) : bool :=
  match s with
  | EmptyString => true
  | String c s' => negb (path_syntax c) && no_path_syntax s'
  end.

(** A name that ElementPath reads as one literal tag: not empty, not
    starting with a dot ([.] and [..] are steps to the element itself
    and to its parent) and free of path syntax. *)
Definition plain (s : string) : bool :=
  match s with
  | EmptyString => false
  | String c _ => negb (Ascii.eqb c ".") && no_path_syntax s
  end.

(** How ElementPath reads a one-step path made of a literal tag: a
    prefixed tag is resolved in the prefix map ([SyntaxError] when the
    prefix is unknown or there is no map), a plain tag is kept.  Every
    other path (a wildcard, [.], [..], several steps, a predicate, Clark
    notation) is outside the model: the program passes none. *)
Definition xpath_tag (path : string) (ns : option (gmap string string)) : result string :=
  match split_colon path with
  | None => if plain path then Ok path else Raise OutOfModel
  | Some (prefix, local) =>
      if plain prefix && plain local then
        match ns with
        | None => Raise SyntaxError
        | Some m =>
            match m !! prefix with
            | Some uri => Ok (clark uri local)
            | None => Raise SyntaxError
            end
        end
      else Raise OutOfModel
  end.

Definition has_tag (t : string) (e : element) : bool := String.eqb (tag e) t.

(** The content of the element at [k], when [k] is a child cell. *)
Definition elem_at (h : heap) (k : loc) : option element :=
  match h !! k with
  | Some (Elem e _) => Some e
  | _ => None
  end.

Definition kid_has_tag (h : heap) (t : string) (k : loc) : bool :=
  match elem_at h k with
  | Some e => has_tag t e
  | None => false
  end.

(** [root.findall(path, ns)]: the children of the root with that tag, in
    document order, as a list. *)
Definition findall (r : loc) (path : string) (ns : option (gmap string string))
  : M (list loc) :=
  fun h =>
    match xpath_tag path ns with
    | Raise e => Raise e
    | Ok t =>
        match h !! r with
        | Some (Root _ ks) => Ok (List.filter (kid_has_tag h t) ks, h)
        | _ => Raise OutOfModel
        end
    end.

(** [parent.find(path, ns)]: the first child with that tag, or None. *)
Definition find (p : loc) (path : string) (ns : option (gmap string string))
  : M (option element) :=
  fun h =>
    match xpath_tag path ns with
    | Raise e => Raise e
    | Ok t =>
        match h !! p with
        | Some (Elem e _) => Ok (List.find (has_tag t) (children e), h)
        | _ => Raise OutOfModel
        end
    end.

(** [element.getparent()]. *)
Definition getparent (p : loc) : M (option loc) :=
  fun h =>
    match h !! p with
    | Some (Elem _ par) => Ok (par, h)
    | Some (Root _ _) => Ok (None, h)
    | None => Raise OutOfModel
    end.

Definition drop_kid (p : loc) (ks : list loc) : list loc :=
  List.filter (fun k => negb (Nat.eqb k p)) ks.

(** Unlinking an element from its parent, as [remove] and [append] do. *)
Definition unlink (p : loc) (h : heap) : heap :=
  match h !! p with
  | Some (Elem e (Some q)) =>
      let h1 := match h !! q with
                | Some (Root a ks) => <[q := Root a (drop_kid p ks)]> h
                | _ => h
                end in
      <[p := Elem e None]> h1
  | _ => h
  end.

(** [r.remove(p)]: [ValueError] unless [p] is a child of [r]. *)
Definition remove (r p : loc) : M unit :=
  fun h =>
    match h !! p with
    | Some (Elem _ (Some q)) =>
        if Nat.eqb q r then Ok (tt, unlink p h) else Raise ValueError
    | Some _ => Raise ValueError
    | None => Raise OutOfModel
    end.

(** [r.append(c)]: [c] becomes the last child of [r]; an element that has
    a parent is moved. *)
Definition append (r c : loc) : M unit :=
  fun h =>
    match h !! c with
    | Some (Elem e _) =>
        let h1 := unlink c h in
        match h1 !! r with
        | Some (Root a ks) =>
            Ok (tt, <[c := Elem e (Some r)]> (<[r := Root a (ks ++ [c])]> h1))
        | _ => Raise OutOfModel
        end
    | _ => Raise OutOfModel
    end.

(** [deepcopy(p)]: a new element with the same content and no parent. *)
Definition deepcopy (p : loc) : M loc :=
  fun h =>
    match h !! p with
    | Some (Elem e _) => Ok (List.length h, h ++ [Elem e None])
    | _ => Raise OutOfModel
    end.

(** [etree.SubElement(r, tag)]: a new empty last child of [r]. *)
Definition SubElement (r : loc) (t : string) : M loc :=
  fun h =>
    match h !! r with
    | Some (Root a ks) =>
        let c := List.length h in
        Ok (c, <[r := Root a (ks ++ [c])]> h
                 ++ [Elem (Element (Header t [] None None) []) (Some r)])
    | _ => Raise OutOfModel
    end.

(** [element.text = s]. *)
Definition set_text (p : loc) (s : string) : M unit :=
  fun h =>
    match h !! p with
    | Some (Elem (Element a cs) par) =>
        Ok (tt, <[p := Elem (Element (Header (h_tag a) (h_attrib a) (Some s) (h_tail a)) cs) par]> h)
    | Some (Root a ks) =>
        Ok (tt, <[p := Root (Header (h_tag a) (h_attrib a) (Some s) (h_tail a)) ks]> h)
    | None => Raise OutOfModel
    end.

(** ** profile_delta.py: the schema registry *)

(** [PARENTS]: element family -> [extract/fetch child, prune child].
    A Python dict; the entries are listed in the order of the source
    literal.  The order in which Python iterates over the dict only
    decides the order of the families in the output; the loops below go
    through [dict_keys PARENTS]. *)
Definition PARENTS : list (string * list string) :=
  [ ("applicationVisibilities", ["application"; "visible"]);
    ("classAccesses", ["apexClass"; "enabled"]);
    ("fieldPermissions", ["field"; "readable"]);
    ("layoutAssignments", ["layout"; "None"]);
    ("objectPermissions", ["object"; "allowRead"]);
    ("pageAccesses", ["apexPage"; "enabled"]);
    ("recordTypeVisibilities", ["recordType"; "visible"]);
    ("tabVisibilities", ["tab"; "visibility"]) ].
Definition EXTRACT_CHILD : nat := 0.
Definition FETCH_CHILD : nat := 0.
Definition PRUNE_CHILD : nat := 1.

Definition dict_keys {V} (d : list (string * V)) : list string := map fst d.

(** [d.get(key)]. *)
Fixpoint dict_get {V} (d : list (string * V)) (key : string) : option V :=
  match d with
  | [] => None
  | (k, v) :: d' => if String.eqb k key then Some v else dict_get d' key
  end.

(** [children[i]] where [children] may be None. *)
Definition subscript (children : option (list string)) (i : nat) : M string :=
  match children with
  | None => raise TypeError
  | Some cs => match cs !! i with
               | Some c => ret c
               | None => raise IndexError
               end
  end.

(** ** profile_delta.py: the traversal strategies *)

(** The instance attributes of a [FindElements] object.  [do] assigns
    [my_source], [my_target] and [my_names] on entry, so no earlier value of
    them is ever read; [my_test_mode] is set by the caller. *)
Record self := Self {
  my_source : loc;
  my_target : option loc;
  my_names : option (gset string);
  my_test_mode : bool
}.

(** The two methods a subclass overrides. *)
Record FindElements (R : Type) := {
  do_yield : self -> loc -> string -> M self;
  do_return : self -> M R
}.
Arguments do_yield {R} _ _ _ _.
Arguments do_return {R} _ _.

(** The base class: both methods raise. *)
Definition FindElementsBase : FindElements unit :=
  {| do_yield := fun _ _ _ => raise NotImplementedError;
     do_return := fun _ => raise NotImplementedError |}.

(** The body of the loop of [do]. *)
Definition do_step {R} (strategy : FindElements R) (child_name_match : string)
    (ns : option (gmap string string)) (me : self) (parent : loc) : M self :=
  child <- find parent child_name_match ns ;;
  match child with
  | Some c =>
      match text c with
      | Some child_text => do_yield strategy me parent child_text
      | None => ret me
      end
  | None => ret me
  end.

Definition do {R} (strategy : FindElements R) (test_mode : bool)
    (source : loc) (target : option loc) (parent_name child_name : string)
    (names : option (gset string)) : M R :=
  let me := Self source target names test_mode in
  let ns := namespace_declare (my_test_mode me) in
  let parent_name_match := namespace_prepend parent_name (my_test_mode me) in
  pv <- findall (my_source me) parent_name_match ns ;;
  let child_name_match := namespace_prepend child_name (my_test_mode me) in
  me' <- for_each pv me (do_step strategy child_name_match ns) ;;
  do_return strategy me'.

Definition ExtractElements : FindElements (option loc) :=
  {| do_yield := fun me parent child_text =>
       match my_names me with
       | None => raise TypeError
       | Some names =>
           if bool_decide (child_text ∈ names) then
             match my_target me with
             | None => raise AttributeError
             | Some target => c <- deepcopy parent ;; append target c ;;; ret me
             end
           else ret me
       end;
     do_return := fun me => ret (my_target me) |}.

Definition FetchElements : FindElements (option (gset string)) :=
  {| do_yield := fun me parent child_text =>
       match my_names me with
       | None => raise AttributeError
       | Some names =>
           ret (Self (my_source me) (my_target me) (Some ({[ child_text ]} ∪ names))
                     (my_test_mode me))
       end;
     do_return := fun me => ret (my_names me) |}.

(** [child_text in ('false', 'None')]. *)
Definition in_false_None (child_text : string) : bool :=
  String.eqb child_text "false" || String.eqb child_text "None".

Definition PruneFalseElements : FindElements loc :=
  {| do_yield := fun me parent child_text =>
       if in_false_None child_text then
         gp <- getparent parent ;;
         match gp with
         | None => raise AttributeError
         | Some r => remove r parent ;;; ret me
         end
       else ret me;
     do_return := fun me => ret (my_source me) |}.

(** ** profile_delta.py: prune, fetch, diff, extract *)

Definition prune_elements (root : loc) (test_mode : bool) : M loc :=
  for_each (dict_keys PARENTS) root (fun root parent_name =>
    let children := dict_get PARENTS parent_name in
    child_name <- subscript children PRUNE_CHILD ;;
    do PruneFalseElements test_mode root None parent_name child_name None).

Definition fetch_elements (root : loc) (parent_name : string) (test_mode : bool)
  : M (gset string) :=
  let names : gset string := ∅ in
  let children := dict_get PARENTS parent_name in
  child_name <- subscript children FETCH_CHILD ;;
  names' <- do FetchElements test_mode root None parent_name child_name (Some names) ;;
  ret (match names' with None => ∅ | Some s => s end).

Definition diff_elements (source target : loc) (parent_name : string)
    (test_mode : bool) : M (gset string) :=
  source_names <- fetch_elements source parent_name test_mode ;;
  target_names <- fetch_elements target parent_name test_mode ;;
  let names := target_names ∖ source_names in
  ret names.

Definition extract_elements (source_root target_root : loc) (root_name : string)
    (test_mode : bool) : M (option loc) :=
  root <- sforce_root root_name ;;
  for_each (dict_keys PARENTS) (Some root) (fun root parent_name =>
    let children := dict_get PARENTS parent_name in
    names <- diff_elements source_root target_root parent_name test_mode ;;
    child_name <- subscript children EXTRACT_CHILD ;;
    do ExtractElements test_mode target_root root parent_name child_name (Some names)).

(** [needle in haystack] on strings. *)
Fixpoint str_in (needle haystack : string) : bool :=
  String.prefix needle haystack ||
  match haystack with
  | EmptyString => false
  | String _ rest => str_in needle rest
  end.

Definition is_profile (profile_path_output : string) : bool :=
  str_in ".profile" profile_path_output.

Definition root_name (profile_path_output : string) : string :=
  if is_profile profile_path_output then "Profile" else "PermissionSet".

(** ** The file boundary *)

(** What a path holds: a well-formed XML document (given by the root
    element that parsing it yields), bytes that are not well-formed XML,
    or what [save_tree] wrote: the pretty-printed serialisation of a tree,
    given by that tree.  The serialisation is kept apart from the
    document that parsing it would yield: pretty-printing adds white
    space, and a child with a bare tag is written under the root's
    default namespace.  A path that does not resolve to a readable file
    holds nothing. *)
Inductive file :=
| WellFormed (d : element)
| Malformed
| Written (d : element).

(** The files, and the paths that [open(path, 'w')] accepts. *)
Record filesystem := Files {
  fs_content : gmap string file;
  fs_writable : string -> bool
}.

#[global] Instance filesystem_lookup : Lookup string file filesystem :=
  fun path fs => fs_content fs !! path.

#[global] Instance filesystem_insert : Insert string file filesystem :=
  fun path f fs => Files (<[path := f]> (fs_content fs)) (fs_writable fs).

Record world := World {
  w_heap : heap;
  w_files : filesystem;
  w_stdout : list string
}.

(** Code that also reads and writes files and prints.  What was printed
    and written before an exception stays. *)
Definition IO (A : Type) : Type := world -> result A * world.

Definition io_ret {A} (a : A) : IO A := fun w => (Ok a, w).
Definition io_raise {A} (e : exn) : IO A := fun w => (Raise e, w).
Definition io_bind {A B} (m : IO A) (k : A -> IO B) : IO B :=
  fun w => match m w with
           | (Ok a, w') => k a w'
           | (Raise e, w') => (Raise e, w')
           end.

Notation "x <~ c ;; k" := (io_bind c (fun x => k))
  (at level 100, c at next level, right associativity).

(** Tree code run on the heap of the world. *)
Definition lift {A} (m : M A) : IO A :=
  fun w => match m (w_heap w) with
           | Ok (a, h') => (Ok a, World h' (w_files w) (w_stdout w))
           | Raise e => (Raise e, w)
           end.

(** [try: body except IOError: handler]. *)
Definition try_except_IOError {A} (body handler : IO A) : IO A :=
  fun w => match body w with
           | (Raise IOError, w') => handler w'
           | r => r
           end.

(** Python 2's [print s]. *)
Definition print (s : string) : IO unit :=
  fun w => (Ok tt, World (w_heap w) (w_files w) (w_stdout w ++ [s])).

(** [sys.exit(code)]. *)
Definition exit {A} (code : Z) : IO A := io_raise (SystemExit code).

(** The tree of a parsed document: a new root and a new child cell for
    each child of the document's root. *)
Definition load (d : element) : M loc :=
  fun h =>
    let r := List.length h in
    Ok (r, h ++ Root (hd d) (seq (S r) (List.length (children d)))
             :: map (fun e => Elem e (Some r)) (children d)).

(** [etree.parse(path).getroot()], as lxml documents it: [IOError] when
    the file cannot be read, [XMLSyntaxError] (which is not an [IOError])
    when it is not well-formed.  Reading back what [save_tree] wrote is
    outside the model: the program never does. *)
Definition etree_parse (path : string) : IO loc :=
  fun w =>
    match w_files w !! path with
    | None => (Raise IOError, w)
    | Some Malformed => (Raise XMLSyntaxError, w)
    | Some (WellFormed d) => lift (load d) w
    | Some (Written _) => (Raise OutOfModel, w)
    end.

(** The tree under a root, as a value: what [etree.tostring] is given. *)
Definition document_of (h : heap) (r : loc) : option element :=
  match h !! r with
  | Some (Root a ks) => Some (Element a (omap (elem_at h) ks))
  | _ => None
  end.

(** [save_tree]: [open(filename, 'w')] raises [IOError] when the path
    cannot be opened for writing, and nothing is written; otherwise the
    file holds the serialisation of the tree under [root]. *)
Definition save_tree (root : loc) (filename : string) : IO unit :=
  fun w =>
    if fs_writable (w_files w) filename then
      match document_of (w_heap w) root with
      | Some d => (Ok tt, World (w_heap w) (<[filename := Written d]> (w_files w)) (w_stdout w))
      | None => (Raise OutOfModel, w)
      end
    else (Raise IOError, w).

(** ** profile_delta.py: the command-line flow *)

Definition prune_tree (profile_path : string) : IO loc :=
  profile_root <~ etree_parse profile_path ;;
  lift (prune_elements profile_root false).

Definition main_check_values (profile_path_source profile_path_target
    profile_path_output : option string) : IO unit :=
  match profile_path_source, profile_path_target, profile_path_output with
  | Some _, Some _, Some _ => io_ret tt
  | _, _, _ => io_raise ValueError
  end.

Definition main_prune_source (profile_path_source : string) : IO loc :=
  try_except_IOError (prune_tree profile_path_source)
    (_ <~ print (profile_path_source +:+ " is not available.") ;; exit 1).

Definition main_prune_target (profile_path_target : string) : IO loc :=
  try_except_IOError (prune_tree profile_path_target)
    (_ <~ print (profile_path_target +:+ " is not available.") ;; exit 1).

Definition main (profile_path_source profile_path_target profile_path_output
    : option string) : IO Z :=
  _ <~ main_check_values profile_path_source profile_path_target profile_path_output ;;
  match profile_path_source, profile_path_target, profile_path_output with
  | Some path_source, Some path_target, Some path_output =>
      source_root <~ main_prune_source path_source ;;
      target_root <~ main_prune_target path_target ;;
      let output_name := root_name path_output in
      root <~ lift (extract_elements source_root target_root output_name false) ;;
      match root with
      | None => io_raise TypeError
      | Some root =>
          _ <~ (if negb (is_profile path_output) then
                  lift (my_element <- SubElement root "label" ;;
                        set_text my_element "Community Hub Guest" ;;;
                        append root my_element)
                else io_ret tt) ;;
          _ <~ save_tree root path_output ;;
          io_ret 0%Z
      end
  | _, _, _ => io_raise TypeError
  end.

(** How the interpreter ends: a [SystemExit] gives its code, any other
    exception that nobody caught gives a traceback and status 1. *)
Definition exit_status {A} (r : result A) : Z :=
  match r with
  | Ok _ => 0
  | Raise (SystemExit code) => code
  | Raise _ => 1
  end.

(** The exception reached the interpreter: nobody caught it. *)
Definition unhandled {A} (r : result A) : bool :=
  match r with
  | Ok _ => false
  | Raise (SystemExit _) => false
  | Raise _ => true
  end.

(** ** The example documents of the doctests *)

Definition leaf (t s : string) : element :=
  Element (Header t [] (Some s) None) [].

(** The net effect of [example_class_access_element]: a new
    [classAccesses] child of [root] with an [apexClass] and an [enabled]
    child. *)
Definition example_class_access_element (root : loc) (class_name is_enabled : string)
  : M loc :=
  fun h =>
    match h !! root with
    | Some (Root a ks) =>
        let c := List.length h in
        Ok (root, <[root := Root a (ks ++ [c])]> h
                    ++ [Elem (Element (Header "classAccesses" [] None None)
                                [leaf "apexClass" class_name; leaf "enabled" is_enabled])
                             (Some root)])
    | _ => Raise OutOfModel
    end.

Definition example_profile_metadata_source : M loc :=
  root <- sforce_root "Profile" ;;
  example_class_access_element root "ARTransactionsTest" "false" ;;;
  example_class_access_element root "AccountAddressManager" "true" ;;;
  ret root.

Definition example_profile_metadata_target : M loc :=
  root <- example_profile_metadata_source ;;
  example_class_access_element root "AccountHierarchyBuilder" "true" ;;;
  example_class_access_element root "TransactionTestData" "false" ;;;
  ret root.

(** The documents the doctests print. *)
Definition class_access (class_name is_enabled : string) : element :=
  Element (Header "classAccesses" [] None None)
    [leaf "apexClass" class_name; leaf "enabled" is_enabled].

Definition profile_of (cs : list element) : element :=
  Element (Header (clark SF_URI "Profile") [] None None) cs.

(** Runs tree code on the empty store and reads off the document under
    the root it returns. *)
Definition printed (m : M loc) : option element :=
  match m [] with
  | Ok (r, h) => document_of h r
  | Raise _ => None
  end.

(** ** Observations on the store *)

(** The tag that a registry name is matched against in each mode: the
    bare name in test mode, the name in the Salesforce namespace
    otherwise. *)
Definition qualify (test_mode : bool) (name : string) : string :=
  if test_mode then name else clark SF_URI name.

(** The text of the first child with tag [t]: what [do] reads. *)
Definition field_text (t : string) (e : element) : option string :=
  match List.find (has_tag t) (children e) with
  | Some c => text c
  | None => None
  end.

(** The identities of the children of the root at [r]. *)
Definition kids_of (h : heap) (r : loc) : list loc :=
  match h !! r with
  | Some (Root _ ks) => ks
  | _ => []
  end.

(** Their contents, in document order. *)
Definition children_of (h : heap) (r : loc) : list element :=
  omap (elem_at h) (kids_of h r).

Definition parent_of (h : heap) (k : loc) : option loc :=
  match h !! k with
  | Some (Elem _ par) => par
  | _ => None
  end.

Definition is_root (h : heap) (r : loc) : bool :=
  match h !! r with
  | Some (Root _ _) => true
  | _ => false
  end.

(** The root at [r] is a sound lxml tree: its children are distinct
    elements that name [r] as their parent. *)
Definition kid_ok (h : heap) (r k : loc) : bool :=
  match h !! k with
  | Some (Elem _ (Some q)) => Nat.eqb q r
  | _ => false
  end.

Definition doc_ok (h : heap) (r : loc) : bool :=
  match h !! r with
  | Some (Root _ ks) => bool_decide (NoDup ks) && forallb (kid_ok h r) ks
  | _ => false
  end.

(** The first child with tag [t] reads "false" or "None". *)
Definition gate_closed (t : string) (e : element) : bool :=
  match field_text t e with
  | Some s => in_false_None s
  | None => false
  end.

(** An element of family [fam] whose child [gate] reads "false" or
    "None": what the pass of [fam] removes. *)
Definition pruned_by (test_mode : bool) (fam gate : string) (e : element) : bool :=
  has_tag (qualify test_mode fam) e && gate_closed (qualify test_mode gate) e.

(** The registry entries as (family, child) pairs, for the child at
    index [i]. *)
Definition registry (i : nat) : list (string * string) :=
  omap (fun '(fam, children) => pair fam <$> (children : list string) !! i) PARENTS.

(** What [prune_elements] removes. *)
Definition pruned (test_mode : bool) (e : element) : bool :=
  existsb (fun '(fam, gate) => pruned_by test_mode fam gate e) (registry PRUNE_CHILD).

(** An element of family [fam] whose child [key] reads [name]. *)
Definition keyed (test_mode : bool) (fam key : string) (name : string) (e : element) : bool :=
  has_tag (qualify test_mode fam) e &&
  bool_decide (field_text (qualify test_mode key) e = Some name).

(** The names [fetch_elements] harvests from a list of children. *)
Definition names_of (test_mode : bool) (fam key : string) (es : list element) : gset string :=
  list_to_set (omap (field_text (qualify test_mode key))
                 (List.filter (has_tag (qualify test_mode fam)) es)).

(** What one pass of [extract_elements] copies: the elements of the
    family whose key child reads a name in [names]. *)
Definition selected (test_mode : bool) (fam key : string) (names : gset string)
    (e : element) : bool :=
  has_tag (qualify test_mode fam) e &&
  match field_text (qualify test_mode key) e with
  | Some s => bool_decide (s ∈ names)
  | None => false
  end.

(** The children of the output of [extract_elements], from the children
    of the source and of the target. *)
Definition delta_children (test_mode : bool) (fams : list (string * string))
    (src tgt : list element) : list element :=
  flat_map (fun '(fam, key) =>
              List.filter (selected test_mode fam key
                             (names_of test_mode fam key tgt ∖ names_of test_mode fam key src))
                          tgt) fams.

(** [s.endswith(suffix)]. *)
Fixpoint ends_with (suffix s : string) : bool :=
  String.eqb s suffix ||
  match s with
  | EmptyString => false
  | String _ rest => ends_with suffix rest
  end.

(** The label that [main] adds to a permission set. *)
Definition label_element : element :=
  Element (Header "label" [] (Some "Community Hub Guest") None) [].

(** Runs tree code on the empty store and gives its value. *)
Definition value_of {A} (m : M A) : option A :=
  match m [] with
  | Ok (a, _) => Some a
  | Raise _ => None
  end.

(** ** Relations between stores used in the proofs *)

(** [f] is a registry family whose child at index [i] is [c]. *)
Definition entry_ok (i : nat) (fc : string * string) : Prop :=
  (dict_get PARENTS (fst fc) ≫= fun children => children !! i) = Some (snd fc)
  ∧ plain (fst fc) = true ∧ plain (snd fc) = true.

(** A test on the content of the element at [l]. *)
Definition at_elem (P : element -> bool) (h : heap) (l : loc) : bool :=
  match elem_at h l with
  | Some e => P e
  | None => false
  end.

(** An unlinked cell. *)
Definition strip (c : cell) : cell :=
  match c with
  | Elem e _ => Elem e None
  | Root _ _ => c
  end.

(** [h'] is [h] with the children of [r] that satisfy [D] unlinked, and
    nothing else changed. *)
Definition pruned_to (r : loc) (D : loc -> bool) (h h' : heap) : Prop :=
  List.length h' = List.length h
  ∧ h' !! r = match h !! r with
              | Some (Root a ks) => Some (Root a (List.filter (fun k => negb (D k)) ks))
              | c => c
              end
  ∧ ∀ l, l ≠ r -> h' !! l = if D l then strip <$> h !! l else h !! l.

(** [h'] is [h] with new cells holding [es] appended as the last children
    of [out], and nothing else changed. *)
Definition extracted_to (out : loc) (es : list element) (h h' : heap) : Prop :=
  List.length h' = List.length h + List.length es
  ∧ (∀ l, l ≠ out -> l < List.length h -> h' !! l = h !! l)
  ∧ h' !! out = match h !! out with
                | Some (Root a ks) =>
                    Some (Root a (ks ++ seq (List.length h) (List.length es)))
                | c => c
                end
  ∧ ∀ i e, es !! i = Some e -> h' !! (List.length h + i) = Some (Elem e (Some out)).

(** The families that [prune_elements] removes from, by the children
    they are tested on. *)
Definition pruned_in (test_mode : bool) (fg : list (string * string)) (e : element) : bool :=
  existsb (fun '(fam, gate) => pruned_by test_mode fam gate e) fg.

(** The test of [ExtractElements.do_yield] on the content of an
    element. *)
Definition named_in (t : string) (names : gset string) (e : element) : bool :=
  match field_text t e with
  | Some s => bool_decide (s ∈ names)
  | None => false
  end.

(** The named child is absent, or it is there and has no text: the two
    cases in which [do] does not call [do_yield]. *)
Definition child_missing (t : string) (e : element) : Prop :=
  List.find (has_tag t) (children e) = None.

Definition child_null (t : string) (e : element) : Prop :=
  ∃ c, List.find (has_tag t) (children e) = Some c ∧ text c = None.

(** The gate child reads "false" or "None". *)
Definition reads_false_or_None (t : string) (e : element) : Prop :=
  field_text t e = Some "false" ∨ field_text t e = Some "None".

(** What [prune_elements] leaves of the children of a document. *)
Definition pruned_children (test_mode : bool) (d : element) : list element :=
  List.filter (fun e => negb (pruned test_mode e)) (children d).

(** The tree that [main] builds and hands to [save_tree], from the
    output path and the two documents it reads. *)
Definition main_document (path_output : string) (ds dt : element) : element :=
  Element (Header (clark SF_URI (root_name path_output)) [] None None)
    (delta_children false (registry EXTRACT_CHILD)
       (pruned_children false ds) (pruned_children false dt)
     ++ if is_profile path_output then [] else [label_element]).

(** ** Concrete stores and worlds *)

(** Runs tree code on the empty store and gives the store it leaves. *)
Definition store_of {A} (m : M A) : heap :=
  match m [] with
  | Ok (_, h) => h
  | Raise _ => []
  end.

(** The source example (root 0, children 1 and 2) and the target example
    (root 3, children 4 to 7) of the doctests, not yet pruned, in one
    store.  Their tags are bare: they are read in test mode. *)
Definition example_store : heap :=
  Eval vm_compute in
    store_of (example_profile_metadata_source ;;; example_profile_metadata_target).

Definition ns_leaf (name s : string) : element := leaf (clark SF_URI name) s.

(** A namespaced profile with two [layoutAssignments]: an ordinary one,
    and one that carries a child named [None] reading "None". *)
Definition layout_document : element :=
  profile_of
    [ Element (Header (clark SF_URI "layoutAssignments") [] None None)
        [ns_leaf "layout" "Account-Account Layout";
         ns_leaf "recordType" "Account.Business_Account"];
      Element (Header (clark SF_URI "layoutAssignments") [] None None)
        [ns_leaf "layout" "Case-Case Layout"; ns_leaf "None" "None"] ].

(** [layout_document] parsed: root 0, children 1 and 2. *)
Definition layout_store : heap :=
  Eval vm_compute in store_of (load layout_document).

Definition layout_assignment (layout record_type : string) : element :=
  Element (Header "layoutAssignments" [] None None)
    [leaf "layout" layout; leaf "recordType" record_type].

(** An empty source (root 0) and a target (root 1) that assigns one
    layout to two record types (children 2 and 3), as profiles do: two
    elements with the same key. *)
Definition duplicate_store : heap :=
  Eval vm_compute in
    store_of (load (profile_of []) ;;;
              load (profile_of
                      [layout_assignment "Account-Account Layout" "Account.Business_Account";
                       layout_assignment "Account-Account Layout" "Account.Person_Account"])).

(** A document (root 0) whose first [classAccesses] (child 1) has no
    [apexClass] and an [enabled] without text, next to an ordinary one
    (child 2). *)
Definition keyless_store : heap :=
  Eval vm_compute in
    store_of (load (profile_of
                [ Element (Header "classAccesses" [] None None)
                    [Element (Header "enabled" [] None None) []];
                  class_access "AccountAddressManager" "true" ])).

Definition ns_class_access (class_name is_enabled : string) : element :=
  Element (Header (clark SF_URI "classAccesses") [] None None)
    [ns_leaf "apexClass" class_name; ns_leaf "enabled" is_enabled].

(** A file system with the two profiles of the doctests, namespaced as
    retrieved metadata is, and a file that is not XML.  Every path can be
    opened for writing but those under [missing/], a directory that does
    not exist. *)
Definition example_world : world :=
  World []
    (Files
    {[ "8/Admin.profile" :=
         WellFormed (profile_of [ns_class_access "ARTransactionsTest" "false";
                                 ns_class_access "AccountAddressManager" "true"]);
       "9/Admin.profile" :=
         WellFormed (profile_of [ns_class_access "ARTransactionsTest" "false";
                                 ns_class_access "AccountAddressManager" "true";
                                 ns_class_access "AccountHierarchyBuilder" "true";
                                 ns_class_access "TransactionTestData" "false"]);
       "broken/Admin.profile" := Malformed ]}
    (fun path => negb (String.prefix "missing/" path)))
    [].

(** ** profile_delta.py: the script *)

(** The loops of [prune_elements] and [extract_elements] for an arbitrary
    order [keys] of iteration over the dict: Python 2 leaves the order of
    [for parent_name in PARENTS] to the implementation. *)
Definition prune_elements_over (keys : list string) (root : loc) (test_mode : bool)
  : M loc :=
  for_each keys root (fun root parent_name =>
    let children := dict_get PARENTS parent_name in
    child_name <- subscript children PRUNE_CHILD ;;
    do PruneFalseElements test_mode root None parent_name child_name None).

Definition extract_elements_over (keys : list string) (source_root target_root : loc)
    (root_name : string) (test_mode : bool) : M (option loc) :=
  root <- sforce_root root_name ;;
  for_each keys (Some root) (fun root parent_name =>
    let children := dict_get PARENTS parent_name in
    names <- diff_elements source_root target_root parent_name test_mode ;;
    child_name <- subscript children EXTRACT_CHILD ;;
    do ExtractElements test_mode target_root root parent_name child_name (Some names)).

(** [environ[key]]. *)
Definition environ_get (environ : gmap string string) (key : string) : IO string :=
  match environ !! key with
  | Some v => io_ret v
  | None => io_raise KeyError
  end.

(** [try: body except KeyError: handler]. *)
Definition try_except_KeyError {A} (body handler : IO A) : IO A :=
  fun w => match body w with
           | (Raise KeyError, w') => handler w'
           | r => r
           end.

(** The message of the script, with the spaces that the continuation
    lines of the source literal carry. *)
Definition USAGE : string :=
  "Requires profile_path_source, profile_path_target, and             profile_path_output as parameters or system properties, where              source is the profile with the lower major version number.             The upgrade profile document is saved to profile_path_output.".

(** The [if __name__ == '__main__':] block: the value that [main]
    returns is dropped. *)
Definition script (argv : list string) (environ : gmap string string) : IO unit :=
  if Nat.eqb (List.length argv) 4 then
    match argv !! 1, argv !! 2, argv !! 3 with
    | Some a1, Some a2, Some a3 => _ <~ main (Some a1) (Some a2) (Some a3) ;; io_ret tt
    | _, _, _ => io_raise IndexError
    end
  else
    paths <~ try_except_KeyError
               (s <~ environ_get environ "profile_path_source" ;;
                t <~ environ_get environ "profile_path_target" ;;
                o <~ environ_get environ "profile_path_output" ;;
                io_ret (s, t, o))
               (_ <~ print USAGE ;; exit 1) ;;
    _ <~ main (Some paths.1.1) (Some paths.1.2) (Some paths.2) ;;
    io_ret tt.

(** ** profile_prune.py *)

Module profile_prune.

(** [main]: the handler of the [try] returns 1 from the function; the
    [option] carries that early return out of the [try]. *)
Definition main (profile_path_source profile_path_target : string) : IO Z :=
  source_root <~ try_except_IOError
                   (r <~ prune_tree profile_path_source ;; io_ret (Some r))
                   (_ <~ print (profile_path_source +:+ " is not available.") ;;
                    io_ret None) ;;
  match source_root with
  | None => io_ret 1%Z
  | Some source_root =>
      _ <~ save_tree source_root profile_path_target ;;
      io_ret 0%Z
  end.

Definition USAGE : string :=
  "Requires profile_path_source and profile_path_target as             parameters or system properties.".

Definition script (argv : list string) (environ : gmap string string) : IO unit :=
  if Nat.eqb (List.length argv) 3 then
    match argv !! 1, argv !! 2 with
    | Some a1, Some a2 => _ <~ main a1 a2 ;; io_ret tt
    | _, _ => io_raise IndexError
    end
  else
    paths <~ try_except_KeyError
               (s <~ environ_get environ "profile_path_source" ;;
                t <~ environ_get environ "profile_path_target" ;;
                io_ret (s, t))
               (_ <~ print USAGE ;; exit 1) ;;
    _ <~ main paths.1 paths.2 ;;
    io_ret tt.

End profile_prune.

(** The document that [profile_prune.main] writes for the document [d]. *)
Definition pruned_document (test_mode : bool) (d : element) : element :=
  Element (hd d) (pruned_children test_mode d).

(** A profile (root 0) with a revoked [userPermissions] (child 1), a
    family that [PARENTS] does not list, and a granted class (child 2). *)
Definition user_permission : element :=
  Element (Header "userPermissions" [] None None)
    [leaf "enabled" "false"; leaf "name" "ViewSetup"].

Definition user_permission_store : heap :=
  Eval vm_compute in
    store_of (load (profile_of [user_permission;
                                class_access "AccountAddressManager" "true"])).


Definition example_target_document : element :=
  profile_of [ns_class_access "ARTransactionsTest" "false";
              ns_class_access "AccountAddressManager" "true";
              ns_class_access "AccountHierarchyBuilder" "true";
              ns_class_access "TransactionTestData" "false"].

(** * Properties *)

(** Settles a decidable statement about concrete data by evaluating its
    decision procedure. *)
Ltac by_computation := apply (bool_decide_unpack _); vm_compute; exact I.

(** ** The monad and list helpers *)

Lemma bind_ok {A B} (m : M A) (k : A -> M B) h a h' :
  m h = Ok (a, h') -> bind m k h = k a h'.
Proof. intros E. unfold bind. rewrite E. reflexivity. Qed.

Lemma filter_all {A} (P : A -> bool) (l : list A) :
  (∀ x, x ∈ l -> P x = true) -> List.filter P l = l.
Proof.
  induction l as [|x l IH]; intros H; [reflexivity|]. simpl.
  rewrite (H x) by constructor. f_equal. apply IH.
  intros y Hy. apply H. by constructor.
Qed.

Lemma filter_none {A} (P : A -> bool) (l : list A) :
  (∀ x, x ∈ l -> P x = false) -> List.filter P l = [].
Proof.
  induction l as [|x l IH]; intros H; [reflexivity|]. simpl.
  rewrite (H x) by constructor. apply IH.
  intros y Hy. apply H. by constructor.
Qed.

Lemma filter_and {A} (P Q : A -> bool) (l : list A) :
  List.filter Q (List.filter P l) = List.filter (fun x => P x && Q x) l.
Proof.
  induction l as [|x l IH]; [reflexivity|]. simpl.
  destruct (P x); simpl; [destruct (Q x)|]; by rewrite IH.
Qed.

Lemma filter_same {A} (P Q : A -> bool) (l : list A) :
  (∀ x, x ∈ l -> P x = Q x) -> List.filter P l = List.filter Q l.
Proof.
  induction l as [|x l IH]; intros H; [reflexivity|]. simpl.
  rewrite (H x) by constructor. rewrite IH; [reflexivity|].
  intros y Hy. apply H. by constructor.
Qed.

Lemma elem_of_filter {A} (P : A -> bool) (l : list A) x :
  x ∈ List.filter P l <-> x ∈ l ∧ P x = true.
Proof. rewrite !list_elem_of_In. rewrite filter_In. reflexivity. Qed.

Lemma NoDup_filter' {A} (P : A -> bool) (l : list A) :
  NoDup l -> NoDup (List.filter P l).
Proof.
  induction 1 as [|x l Hx Hl IH]; simpl; [constructor|].
  destruct (P x); [|assumption]. constructor; [|assumption].
  rewrite elem_of_filter. tauto.
Qed.

Lemma omap_filter {A B} (f : A -> option B) (P : B -> bool) (l : list A) :
  List.filter P (omap f l)
  = omap f (List.filter (fun x => match f x with Some y => P y | None => false end) l).
Proof.
  induction l as [|x l IH]; [reflexivity|]. csimpl.
  destruct (f x) as [y|] eqn:E; csimpl.
  - destruct (P y); csimpl; rewrite ?E; csimpl; by rewrite IH.
  - exact IH.
Qed.

Lemma omap_same {A B} (f g : A -> option B) (l : list A) :
  (∀ x, x ∈ l -> f x = g x) -> omap f l = omap g l.
Proof.
  induction l as [|x l IH]; intros H; [reflexivity|]. csimpl.
  rewrite (H x) by constructor. rewrite IH; [reflexivity|].
  intros y Hy. apply H. by constructor.
Qed.

(** ** Reading tags *)

Lemma no_path_syntax_colon s : no_path_syntax s = true -> split_colon s = None.
Proof.
  induction s as [|c s IH]; simpl; [done|].
  intros [Hc Hs]%andb_true_iff. rewrite (IH Hs).
  destruct (Ascii.eqb c ":") eqn:E; [|reflexivity].
  apply Ascii.eqb_eq in E. subst c. discriminate.
Qed.

Lemma plain_no_path_syntax s : plain s = true -> no_path_syntax s = true.
Proof. destruct s; [done|]. unfold plain. by intros [_ H]%andb_true_iff. Qed.

Lemma plain_colon s : plain s = true -> split_colon s = None.
Proof. intros H. by apply no_path_syntax_colon, plain_no_path_syntax. Qed.

Lemma xpath_tag_prepend tm s :
  plain s = true ->
  xpath_tag (namespace_prepend s tm) (namespace_declare tm) = Ok (qualify tm s).
Proof.
  intros Hs. destruct tm; unfold xpath_tag.
  - change (namespace_prepend s true) with s.
    by rewrite (plain_colon s Hs), Hs.
  - change (split_colon (namespace_prepend s false)) with (Some (SF_PREFIX, s)).
    cbv beta iota. change (plain SF_PREFIX) with true. cbn [andb]. rewrite Hs.
    unfold namespace_declare. by rewrite lookup_singleton_eq.
Qed.

Lemma clark_inj uri s t : clark uri s = clark uri t -> s = t.
Proof.
  unfold clark. intros H. simpl in H. injection H as H.
  induction uri as [|c uri IH]; simpl in H.
  - by injection H.
  - injection H as H. by apply IH.
Qed.

Lemma qualify_inj tm s t : qualify tm s = qualify tm t -> s = t.
Proof. destruct tm; simpl; [done|apply clark_inj]. Qed.

Lemma has_tag_eq t e : has_tag t e = true <-> tag e = t.
Proof. unfold has_tag. apply String.eqb_eq. Qed.

Lemma elem_at_Some h k e : elem_at h k = Some e <-> ∃ par, h !! k = Some (Elem e par).
Proof.
  unfold elem_at. destruct (h !! k) as [[a ks|e' par]|]; split.
  all: try (intros [? ?]); try discriminate; try congruence.
  intros [= ->]. eauto.
Qed.

Lemma find_elem tm c h p e :
  plain c = true -> elem_at h p = Some e ->
  find p (namespace_prepend c tm) (namespace_declare tm) h
  = Ok (List.find (has_tag (qualify tm c)) (children e), h).
Proof.
  intros Hc [par Hp]%elem_at_Some. unfold find.
  rewrite xpath_tag_prepend by done. by rewrite Hp.
Qed.

(** The loop body of [do]: the callback runs exactly when the named child
    exists and has a text. *)
Lemma do_step_elem {R} (S : FindElements R) tm c me h p e :
  plain c = true -> elem_at h p = Some e ->
  do_step S (namespace_prepend c tm) (namespace_declare tm) me p h
  = match field_text (qualify tm c) e with
    | Some s => do_yield S me p s h
    | None => Ok (me, h)
    end.
Proof.
  intros Hc He. unfold do_step.
  rewrite (bind_ok _ _ _ _ _ (find_elem tm c h p e Hc He)).
  unfold field_text. destruct (List.find _ _) as [ch|]; [|reflexivity].
  destruct (text ch); reflexivity.
Qed.

Lemma findall_root tm fam h r a ks :
  plain fam = true -> h !! r = Some (Root a ks) ->
  findall r (namespace_prepend fam tm) (namespace_declare tm) h
  = Ok (List.filter (at_elem (has_tag (qualify tm fam)) h) ks, h).
Proof.
  intros Hf Hr. unfold findall. rewrite xpath_tag_prepend by done.
  rewrite Hr. reflexivity.
Qed.

Lemma doc_ok_inv h r :
  doc_ok h r = true ->
  ∃ a ks, h !! r = Some (Root a ks) ∧ NoDup ks
          ∧ ∀ k, k ∈ ks -> ∃ e, h !! k = Some (Elem e (Some r)).
Proof.
  unfold doc_ok. destruct (h !! r) as [[a ks|]|] eqn:Hr; try discriminate.
  intros [Hnd Hall]%andb_prop. exists a, ks. split; [done|].
  split; [by apply bool_decide_eq_true in Hnd|].
  intros k Hk. rewrite forallb_forall in Hall.
  specialize (Hall k (proj1 (list_elem_of_In _ _) Hk)).
  unfold kid_ok in Hall. destruct (h !! k) as [[|e [q|]]|]; try discriminate.
  apply Nat.eqb_eq in Hall as ->. eauto.
Qed.

Lemma doc_ok_intro h r a ks :
  h !! r = Some (Root a ks) -> NoDup ks ->
  (∀ k, k ∈ ks -> ∃ e, h !! k = Some (Elem e (Some r))) ->
  doc_ok h r = true.
Proof.
  intros Hr Hnd Hall. unfold doc_ok. rewrite Hr.
  apply andb_true_intro. split; [by apply bool_decide_eq_true|].
  apply forallb_forall. intros k Hk%list_elem_of_In.
  destruct (Hall k Hk) as [e He]. unfold kid_ok. rewrite He.
  apply Nat.eqb_refl.
Qed.

(** ** Pruning *)

Lemma pruned_to_elem_at r D h h' l :
  pruned_to r D h h' -> elem_at h' l = elem_at h l.
Proof.
  intros (_ & Hr & Hl). unfold elem_at. destruct (decide (l = r)) as [->|Hne].
  - rewrite Hr. destruct (h !! r) as [[]|]; reflexivity.
  - rewrite (Hl l Hne). destruct (D l); [|reflexivity].
    destruct (h !! l) as [[]|]; reflexivity.
Qed.

Lemma pruned_to_at_elem r D h h' P l :
  pruned_to r D h h' -> at_elem P h' l = at_elem P h l.
Proof. intros H. unfold at_elem. by rewrite (pruned_to_elem_at r D h h' l H). Qed.

Lemma pruned_to_kids r D h h' :
  pruned_to r D h h' ->
  kids_of h' r = List.filter (fun k => negb (D k)) (kids_of h r).
Proof.
  intros (_ & Hr & _). unfold kids_of. rewrite Hr.
  destruct (h !! r) as [[]|]; reflexivity.
Qed.

Lemma pruned_to_doc_ok r D h h' :
  doc_ok h r = true -> pruned_to r D h h' -> doc_ok h' r = true.
Proof.
  intros (a & ks & Hr & Hnd & Hall)%doc_ok_inv (Hlen & Hr' & Hl).
  rewrite Hr in Hr'.
  eapply doc_ok_intro; [exact Hr'|by apply NoDup_filter'|].
  intros k [Hk HD]%elem_of_filter. destruct (Hall k Hk) as [e He].
  exists e. rewrite Hl; [|congruence].
  apply negb_true_iff in HD. by rewrite HD.
Qed.

Lemma pruned_to_id r D h :
  (∀ l, D l = false) -> pruned_to r D h h.
Proof.
  intros HD. split; [reflexivity|]. split.
  - destruct (h !! r) as [[a ks|]|] eqn:E; try reflexivity.
    rewrite filter_all; [done|]. intros k _. by rewrite HD.
  - intros l _. by rewrite HD.
Qed.

Lemma pruned_to_ext r D D' h h' :
  (∀ l, D l = D' l) -> pruned_to r D h h' -> pruned_to r D' h h'.
Proof.
  intros HD (Hlen & Hr & Hl). split; [done|]. split.
  - rewrite Hr. destruct (h !! r) as [[a ks|]|]; try reflexivity.
    do 2 f_equal. apply filter_same. intros k _. by rewrite HD.
  - intros l Hne. rewrite <- HD. by apply Hl.
Qed.

Lemma pruned_to_trans r D1 D2 h h1 h2 :
  pruned_to r D1 h h1 -> pruned_to r D2 h1 h2 ->
  pruned_to r (fun l => D1 l || D2 l) h h2.
Proof.
  intros (Hlen1 & Hr1 & Hl1) (Hlen2 & Hr2 & Hl2). split; [congruence|]. split.
  - rewrite Hr2, Hr1. destruct (h !! r) as [[a ks|]|]; try reflexivity.
    rewrite filter_and. do 2 f_equal. apply filter_same.
    intros k _. by rewrite negb_orb.
  - intros l Hne. rewrite (Hl2 l Hne), (Hl1 l Hne).
    destruct (D1 l), (D2 l); simpl; try reflexivity.
    destruct (h !! l) as [[]|]; reflexivity.
Qed.

(** What one [remove] does to a sound document. *)
Lemma unlink_pruned_to h r a ks p e :
  h !! r = Some (Root a ks) -> h !! p = Some (Elem e (Some r)) ->
  pruned_to r (fun k => Nat.eqb k p) h (unlink p h).
Proof.
  intros Hr Hp. unfold unlink. rewrite Hp, Hr.
  assert (p ≠ r) as Hne by congruence.
  pose proof (lookup_lt_Some _ _ _ Hr) as Hrlt.
  pose proof (lookup_lt_Some _ _ _ Hp) as Hplt.
  split; [by rewrite !length_insert|]. split.
  - rewrite list_lookup_insert_ne by done.
    rewrite list_lookup_insert_eq by done. rewrite Hr. reflexivity.
  - intros l Hl. destruct (Nat.eqb l p) eqn:E.
    + apply Nat.eqb_eq in E as ->.
      rewrite list_lookup_insert_eq by (by rewrite length_insert).
      by rewrite Hp.
    + apply Nat.eqb_neq in E.
      rewrite !list_lookup_insert_ne by done. reflexivity.
Qed.

Lemma prune_yield h r a ks p e me s :
  h !! r = Some (Root a ks) -> h !! p = Some (Elem e (Some r)) ->
  in_false_None s = true ->
  do_yield PruneFalseElements me p s h = Ok (me, unlink p h).
Proof.
  intros Hr Hp Hs. simpl. rewrite Hs. unfold bind, getparent, remove.
  rewrite Hp. rewrite Hp. rewrite Nat.eqb_refl. reflexivity.
Qed.

(** The loop of one pruning pass over a list [ps] of distinct children
    of [r]. *)
Lemma prune_loop tm gate r me :
  plain gate = true ->
  ∀ ps h,
    doc_ok h r = true -> NoDup ps -> (∀ p, p ∈ ps -> p ∈ kids_of h r) ->
    ∃ h', for_each ps me (do_step PruneFalseElements (namespace_prepend gate tm)
                            (namespace_declare tm)) h = Ok (me, h')
          ∧ pruned_to r (fun l => bool_decide (l ∈ ps)
                                  && at_elem (gate_closed (qualify tm gate)) h l) h h'.
Proof.
  intros Hg. induction ps as [|p ps IH]; intros h Hok Hnd Hin.
  - exists h. split; [reflexivity|]. apply pruned_to_id. intros l.
    rewrite bool_decide_eq_false_2; [done|]. apply not_elem_of_nil.
  - apply NoDup_cons in Hnd as [Hp Hnd].
    destruct (doc_ok_inv _ _ Hok) as (a & ks & Hr & Hndk & Hall).
    assert (p ∈ ks) as Hpk.
    { specialize (Hin p ltac:(constructor)). unfold kids_of in Hin. by rewrite Hr in Hin. }
    destruct (Hall p Hpk) as [e He].
    assert (elem_at h p = Some e) as Hea by (apply elem_at_Some; eauto).
    simpl. unfold bind at 1. rewrite (do_step_elem _ tm gate me h p e Hg Hea).
    destruct (at_elem (gate_closed (qualify tm gate)) h p) eqn:Hc.
    + (* the gate is closed: the element is removed *)
      pose proof Hc as Hc'.
      unfold at_elem in Hc. rewrite Hea in Hc. unfold gate_closed in Hc.
      destruct (field_text _ e) as [s|]; [|discriminate].
      rewrite (prune_yield h r a ks p e me s Hr He Hc).
      pose proof (unlink_pruned_to h r a ks p e Hr He) as H1.
      destruct (IH (unlink p h)) as (h' & Hrun & H2).
      * by eapply pruned_to_doc_ok.
      * done.
      * intros q Hq. rewrite (pruned_to_kids _ _ _ _ H1).
        apply elem_of_filter. split; [apply Hin; by constructor|].
        apply negb_true_iff, Nat.eqb_neq. intros ->. done.
      * exists h'. split; [done|].
        eapply pruned_to_ext; [|exact (pruned_to_trans _ _ _ _ _ _ H1 H2)].
        intros l. simpl. rewrite (pruned_to_at_elem _ _ _ _ _ l H1).
        destruct (Nat.eqb l p) eqn:E.
        -- apply Nat.eqb_eq in E as ->. simpl.
           rewrite bool_decide_eq_true_2 by constructor.
           by rewrite Hc'.
        -- apply Nat.eqb_neq in E. simpl. f_equal.
           apply bool_decide_ext. rewrite elem_of_cons. tauto.
    + (* the gate is absent, has no text, or reads something else *)
      assert (match field_text (qualify tm gate) e with
              | Some s => do_yield PruneFalseElements me p s h
              | None => Ok (me, h)
              end = Ok (me, h)) as ->.
      { unfold at_elem in Hc. rewrite Hea in Hc. unfold gate_closed in Hc.
        destruct (field_text _ e) as [s|]; [|reflexivity].
        simpl. by rewrite Hc. }
      destruct (IH h Hok Hnd) as (h' & Hrun & H2).
      { intros q Hq. apply Hin. by constructor. }
      exists h'. split; [done|].
      eapply pruned_to_ext; [|exact H2].
      intros l. simpl. destruct (decide (l = p)) as [->|Hne].
      * rewrite Hc, !andb_false_r. reflexivity.
      * f_equal. apply bool_decide_ext. rewrite elem_of_cons. tauto.
Qed.

Lemma subscript_entry i fc h :
  entry_ok i fc -> subscript (dict_get PARENTS (fst fc)) i h = Ok (snd fc, h).
Proof.
  intros (Hget & _ & _). unfold subscript.
  destruct (dict_get PARENTS (fst fc)) as [cs|]; [|discriminate].
  simpl in Hget. by rewrite Hget.
Qed.

(** One pass of [prune_elements]: the [do] of [PruneFalseElements]. *)
Lemma prune_pass tm fam gate r h :
  plain fam = true -> plain gate = true -> doc_ok h r = true ->
  ∃ h', do PruneFalseElements tm r None fam gate None h = Ok (r, h')
        ∧ pruned_to r (fun l => bool_decide (l ∈ kids_of h r)
                                && at_elem (pruned_by tm fam gate) h l) h h'.
Proof.
  intros Hf Hg Hok.
  destruct (doc_ok_inv _ _ Hok) as (a & ks & Hr & Hnd & Hall).
  unfold do. cbn [my_test_mode my_source].
  rewrite (bind_ok _ _ _ _ _ (findall_root tm fam h r a ks Hf Hr)).
  destruct (prune_loop tm gate r (Self r None None tm) Hg
              (List.filter (at_elem (has_tag (qualify tm fam)) h) ks) h Hok)
    as (h' & Hrun & Hp).
  { by apply NoDup_filter'. }
  { intros p [Hp _]%elem_of_filter. unfold kids_of. by rewrite Hr. }
  rewrite (bind_ok _ _ _ _ _ Hrun). exists h'. split; [reflexivity|].
  eapply pruned_to_ext; [|exact Hp].
  intros l. cbn beta. apply eq_true_iff_eq.
  rewrite !andb_true_iff, !bool_decide_eq_true, elem_of_filter.
  unfold kids_of. rewrite Hr. unfold at_elem, pruned_by.
  destruct (elem_at h l) as [e|]; [|intuition congruence].
  rewrite andb_true_iff. tauto.
Qed.

(** The passes of [prune_elements] over a list of registry families. *)
Lemma prune_passes tm r :
  ∀ fg h,
    Forall (entry_ok PRUNE_CHILD) fg -> doc_ok h r = true ->
    ∃ h', for_each (map fst fg) r (fun root parent_name =>
            child_name <- subscript (dict_get PARENTS parent_name) PRUNE_CHILD ;;
            do PruneFalseElements tm root None parent_name child_name None) h
          = Ok (r, h')
          ∧ pruned_to r (fun l => bool_decide (l ∈ kids_of h r)
                                  && at_elem (pruned_in tm fg) h l) h h'.
Proof.
  induction fg as [|[fam gate] fg IH]; intros h Hfg Hok.
  - exists h. split; [reflexivity|]. apply pruned_to_id. intros l.
    unfold at_elem, pruned_in. simpl. destruct (elem_at h l); apply andb_false_r.
  - apply Forall_cons in Hfg as [Hent Hfg].
    pose proof Hent as (_ & Hpf & Hpg). simpl in Hpf, Hpg.
    destruct (prune_pass tm fam gate r h Hpf Hpg Hok) as (h1 & Hrun1 & H1).
    destruct (IH h1 Hfg (pruned_to_doc_ok _ _ _ _ Hok H1)) as (h2 & Hrun2 & H2).
    exists h2. split.
    + pose proof (subscript_entry _ _ h Hent) as Hsub. cbn [fst snd] in Hsub.
      cbn [map fst for_each]. unfold bind at 1. unfold bind at 1.
      rewrite Hsub, Hrun1. exact Hrun2.
    + eapply pruned_to_ext; [|exact (pruned_to_trans _ _ _ _ _ _ H1 H2)].
      intros l. cbn beta.
      rewrite (pruned_to_at_elem _ _ _ _ _ l H1), (pruned_to_kids _ _ _ _ H1).
      apply eq_true_iff_eq.
      rewrite !orb_true_iff, !andb_true_iff, !bool_decide_eq_true, elem_of_filter.
      rewrite negb_true_iff, andb_false_iff, bool_decide_eq_false.
      unfold at_elem, pruned_in. destruct (elem_at h l) as [e|]; simpl.
      * rewrite orb_true_iff.
        destruct (pruned_by tm fam gate e); intuition congruence.
      * intuition congruence.
Qed.

Lemma registry_prune_ok : Forall (entry_ok PRUNE_CHILD) (registry PRUNE_CHILD).
Proof. repeat constructor. Qed.

Lemma registry_fetch_ok : Forall (entry_ok FETCH_CHILD) (registry FETCH_CHILD).
Proof. repeat constructor. Qed.

(** [prune_elements] on a sound document: it returns the same root, and
    the store differs only by the unlinked children of that root, which
    are those that [pruned] holds of. *)
Lemma prune_elements_spec tm r h :
  doc_ok h r = true ->
  ∃ h', prune_elements r tm h = Ok (r, h')
        ∧ pruned_to r (fun l => bool_decide (l ∈ kids_of h r)
                                && at_elem (pruned tm) h l) h h'.
Proof.
  intros Hok.
  destruct (prune_passes tm r (registry PRUNE_CHILD) h registry_prune_ok Hok)
    as (h' & Hrun & Hp).
  exists h'. split; [exact Hrun|exact Hp].
Qed.

(** ** Fetching and diffing *)

Lemma keyed_spec tm fam key name e :
  keyed tm fam key name e = true
  <-> has_tag (qualify tm fam) e = true ∧ field_text (qualify tm key) e = Some name.
Proof. unfold keyed. by rewrite andb_true_iff, bool_decide_eq_true. Qed.

(** A name is harvested exactly when some element of the family has it
    as the text of its key child. *)
Lemma elem_of_names_of tm fam key es x :
  x ∈ names_of tm fam key es <-> ∃ e, e ∈ es ∧ keyed tm fam key x e = true.
Proof.
  unfold names_of. rewrite elem_of_list_to_set, list_elem_of_omap.
  split.
  - intros (e & [He Ht]%elem_of_filter & Hx). exists e. split; [done|].
    by apply keyed_spec.
  - intros (e & He & [Ht Hx]%keyed_spec). exists e. split; [|done].
    by apply elem_of_filter.
Qed.

Lemma fetch_loop tm key r tgt :
  plain key = true ->
  ∀ ps names h,
    (∀ p, p ∈ ps -> is_Some (elem_at h p)) ->
    for_each ps (Self r tgt (Some names) tm)
      (do_step FetchElements (namespace_prepend key tm) (namespace_declare tm)) h
    = Ok (Self r tgt
            (Some (list_to_set (omap (field_text (qualify tm key)) (omap (elem_at h) ps))
                   ∪ names)) tm, h).
Proof.
  intros Hk. induction ps as [|p ps IH]; intros names h Hall.
  - csimpl. unfold ret. by rewrite (left_id_L ∅ (∪)).
  - destruct (Hall p ltac:(constructor)) as [e He].
    cbn [for_each]. unfold bind at 1.
    rewrite (do_step_elem _ tm key _ h p e Hk He).
    assert (∀ q, q ∈ ps -> is_Some (elem_at h q)) as Hall'.
    { intros q Hq. apply Hall. by constructor. }
    csimpl. rewrite He. csimpl.
    destruct (field_text (qualify tm key) e) as [s|]; csimpl.
    + rewrite (IH _ h Hall'). by rewrite (assoc_L (∪)), (comm_L (∪) _ {[s]}).
    + apply (IH _ h Hall').
Qed.

Lemma is_root_inv h r : is_root h r = true -> ∃ a ks, h !! r = Some (Root a ks).
Proof. unfold is_root. destruct (h !! r) as [[a ks|]|]; try discriminate. eauto. Qed.

Lemma doc_ok_is_root h r : doc_ok h r = true -> is_root h r = true.
Proof.
  intros (a & ks & Hr & _)%doc_ok_inv. unfold is_root. by rewrite Hr.
Qed.

(** [fetch_elements] reads the store and leaves it as it is. *)
Lemma fetch_elements_spec tm fam key r h :
  entry_ok FETCH_CHILD (fam, key) -> is_root h r = true ->
  fetch_elements r fam tm h = Ok (names_of tm fam key (children_of h r), h).
Proof.
  intros Hent (a & ks & Hr)%is_root_inv.
  pose proof Hent as (_ & Hpf & Hpk). simpl in Hpf, Hpk.
  pose proof (subscript_entry _ _ h Hent) as Hsub. cbn [fst snd] in Hsub.
  unfold fetch_elements. unfold bind at 1. rewrite Hsub.
  unfold bind at 1. unfold do. cbn [my_test_mode my_source].
  rewrite (bind_ok _ _ _ _ _ (findall_root tm fam h r a ks Hpf Hr)).
  assert (∀ p, p ∈ List.filter (at_elem (has_tag (qualify tm fam)) h) ks
               -> is_Some (elem_at h p)) as Hall.
  { intros p [_ Hp]%elem_of_filter. unfold at_elem in Hp.
    destruct (elem_at h p); [eauto|discriminate]. }
  rewrite (bind_ok _ _ _ _ _ (fetch_loop tm key r None Hpk _ ∅ h Hall)).
  cbn. unfold ret, names_of, children_of, kids_of. rewrite Hr.
  rewrite omap_filter. by rewrite (right_id_L ∅ (∪)).
Qed.

Lemma diff_elements_spec tm fam key s t h :
  entry_ok FETCH_CHILD (fam, key) -> is_root h s = true -> is_root h t = true ->
  diff_elements s t fam tm h
  = Ok (names_of tm fam key (children_of h t) ∖ names_of tm fam key (children_of h s), h).
Proof.
  intros Hent Hs Ht. unfold diff_elements.
  rewrite (bind_ok _ _ _ _ _ (fetch_elements_spec tm fam key s h Hent Hs)).
  rewrite (bind_ok _ _ _ _ _ (fetch_elements_spec tm fam key t h Hent Ht)).
  reflexivity.
Qed.

(** ** Extracting *)

Lemma extracted_to_nil out h : extracted_to out [] h h.
Proof.
  split; [simpl; lia|]. split; [done|]. split.
  - destruct (h !! out) as [[a ks|]|]; try reflexivity.
    simpl. by rewrite app_nil_r.
  - intros i e Hi. by rewrite lookup_nil in Hi.
Qed.

Lemma extracted_to_lookup_elem out es h h' l e par :
  extracted_to out es h h' ->
  h !! l = Some (Elem e par) -> h' !! l = Some (Elem e par).
Proof.
  intros (_ & Hl & Ho & _) He. destruct (decide (l = out)) as [->|Hne].
  - rewrite Ho, He. reflexivity.
  - rewrite Hl; [done|done|]. by eapply lookup_lt_Some.
Qed.

Lemma extracted_to_lookup_root out es h h' l a ks :
  extracted_to out es h h' -> l ≠ out ->
  h !! l = Some (Root a ks) -> h' !! l = Some (Root a ks).
Proof.
  intros (_ & Hl & _ & _) Hne Hr.
  rewrite Hl; [done|done|]. by eapply lookup_lt_Some.
Qed.

Lemma extracted_to_is_root out es h h' r :
  extracted_to out es h h' -> is_root h r = true -> is_root h' r = true.
Proof.
  intros H (a & ks & Hr)%is_root_inv. unfold is_root.
  destruct (decide (r = out)) as [->|Hne].
  - destruct H as (_ & _ & Ho & _). rewrite Ho, Hr. reflexivity.
  - by rewrite (extracted_to_lookup_root _ _ _ _ _ _ _ H Hne Hr).
Qed.

Lemma extracted_to_elem_at out es h h' l :
  extracted_to out es h h' -> is_Some (elem_at h l) -> elem_at h' l = elem_at h l.
Proof.
  intros H [e He]. rewrite He. apply elem_at_Some in He as [par He].
  apply elem_at_Some. exists par. by eapply extracted_to_lookup_elem.
Qed.

(** An extraction leaves every other sound document as it is. *)
Lemma extracted_to_doc_ok out es h h' r :
  extracted_to out es h h' -> r ≠ out -> doc_ok h r = true ->
  doc_ok h' r = true ∧ children_of h' r = children_of h r.
Proof.
  intros H Hne (a & ks & Hr & Hnd & Hall)%doc_ok_inv.
  pose proof (extracted_to_lookup_root _ _ _ _ _ _ _ H Hne Hr) as Hr'.
  split.
  - eapply doc_ok_intro; [exact Hr'|done|].
    intros k Hk. destruct (Hall k Hk) as [e He]. exists e.
    by eapply extracted_to_lookup_elem.
  - unfold children_of, kids_of. rewrite Hr, Hr'. apply omap_same.
    intros k Hk. destruct (Hall k Hk) as [e He].
    eapply extracted_to_elem_at; [done|].
    exists e. apply elem_at_Some. eauto.
Qed.

Lemma extracted_to_trans out es1 es2 h h1 h2 :
  out < List.length h ->
  extracted_to out es1 h h1 -> extracted_to out es2 h1 h2 ->
  extracted_to out (es1 ++ es2) h h2.
Proof.
  intros Hout (Hlen1 & Hl1 & Ho1 & Hn1) (Hlen2 & Hl2 & Ho2 & Hn2).
  split; [rewrite length_app; lia|]. split; [|split].
  - intros l Hne Hl. rewrite Hl2, Hl1; [done|done|done|done|lia].
  - rewrite Ho2, Ho1. destruct (h !! out) as [[a ks|]|]; try reflexivity.
    rewrite Hlen1, length_app, <- app_assoc, <- seq_app. reflexivity.
  - intros i e Hi. destruct (decide (i < List.length es1)) as [Hlt|Hge].
    + rewrite lookup_app_l in Hi by done.
      rewrite Hl2; [by apply Hn1|lia|lia].
    + rewrite lookup_app_r in Hi by lia.
      specialize (Hn2 _ _ Hi). rewrite Hlen1 in Hn2.
      replace (List.length h + i)
        with (List.length h + List.length es1 + (i - List.length es1)) by lia.
      exact Hn2.
Qed.

(** [target.append(deepcopy(parent))]: a new cell with the content of
    [parent] becomes the last child of [target]; [parent] stays where it
    is. *)
Lemma copy_step h out a ks p e par (me : self) :
  h !! out = Some (Root a ks) -> h !! p = Some (Elem e par) ->
  ∃ h', (c <- deepcopy p ;; append out c ;;; ret me) h = Ok (me, h')
        ∧ extracted_to out [e] h h'.
Proof.
  intros Ho Hp.
  pose proof (lookup_lt_Some _ _ _ Ho) as Holt.
  set (n := List.length h).
  assert ((h ++ [Elem e None]) !! n = Some (Elem e None)) as Hn.
  { by rewrite list_lookup_middle. }
  assert ((h ++ [Elem e None]) !! out = Some (Root a ks)) as Ho'.
  { by rewrite lookup_app_l. }
  eexists. split.
  - unfold bind, deepcopy. rewrite Hp. fold n.
    unfold append. rewrite Hn. unfold unlink. rewrite Hn, Ho'. reflexivity.
  - split; [|split; [|split]].
    + rewrite !length_insert, length_app. reflexivity.
    + intros l Hne Hl. rewrite !list_lookup_insert_ne by (fold n; lia || done).
      by rewrite lookup_app_l.
    + rewrite list_lookup_insert_ne by (fold n; lia).
      rewrite list_lookup_insert_eq by (rewrite length_app; simpl; lia).
      rewrite Ho. reflexivity.
    + intros [|i] e' Hi; [|by rewrite lookup_cons, lookup_nil in Hi].
      injection Hi as <-. fold n. rewrite Nat.add_0_r.
      rewrite list_lookup_insert_eq; [done|].
      rewrite length_insert, length_app. simpl. lia.
Qed.

Lemma extract_loop tm key tgt out names :
  plain key = true ->
  ∀ ps h,
    is_root h out = true -> (∀ p, p ∈ ps -> is_Some (elem_at h p)) ->
    ∃ h', for_each ps (Self tgt (Some out) (Some names) tm)
            (do_step ExtractElements (namespace_prepend key tm) (namespace_declare tm)) h
          = Ok (Self tgt (Some out) (Some names) tm, h')
          ∧ extracted_to out
              (List.filter (named_in (qualify tm key) names) (omap (elem_at h) ps)) h h'.
Proof.
  intros Hk. induction ps as [|p ps IH]; intros h Hout Hall.
  - exists h. split; [reflexivity|]. apply extracted_to_nil.
  - destruct (Hall p ltac:(constructor)) as [e He].
    assert (∀ q, q ∈ ps -> is_Some (elem_at h q)) as Hall'.
    { intros q Hq. apply Hall. by constructor. }
    cbn [for_each]. unfold bind at 1.
    rewrite (do_step_elem _ tm key _ h p e Hk He).
    csimpl. rewrite He. csimpl. unfold named_in at 1.
    destruct (field_text (qualify tm key) e) as [s|]; [|by apply IH].
    cbn [do_yield ExtractElements my_names my_target].
    destruct (bool_decide (s ∈ names)); [|by apply IH].
    destruct (is_root_inv _ _ Hout) as (a & ks & Ho).
    destruct (proj1 (elem_at_Some _ _ _) He) as [par Hp].
    destruct (copy_step h out a ks p e par (Self tgt (Some out) (Some names) tm) Ho Hp)
      as (h1 & Hrun1 & H1).
    rewrite Hrun1.
    destruct (IH h1) as (h2 & Hrun2 & H2).
    { by eapply extracted_to_is_root. }
    { intros q Hq. rewrite (extracted_to_elem_at _ _ _ _ _ H1); auto. }
    exists h2. split; [done|].
    replace (omap (elem_at h1) ps) with (omap (elem_at h) ps) in H2.
    + apply (extracted_to_trans out [e] _ h h1 h2); [by eapply lookup_lt_Some|done|done].
    + apply omap_same. intros q Hq. symmetry.
      apply (extracted_to_elem_at _ _ _ _ _ H1). auto.
Qed.

(** One pass of [extract_elements]: the [do] of [ExtractElements]. *)
Lemma extract_pass tm fam key tgt out names h :
  plain fam = true -> plain key = true ->
  is_root h tgt = true -> is_root h out = true ->
  ∃ h', do ExtractElements tm tgt (Some out) fam key (Some names) h = Ok (Some out, h')
        ∧ extracted_to out
            (List.filter (selected tm fam key names) (children_of h tgt)) h h'.
Proof.
  intros Hf Hk (a & ks & Hr)%is_root_inv Hout.
  unfold do. cbn [my_test_mode my_source].
  rewrite (bind_ok _ _ _ _ _ (findall_root tm fam h tgt a ks Hf Hr)).
  destruct (extract_loop tm key tgt out names Hk
              (List.filter (at_elem (has_tag (qualify tm fam)) h) ks) h Hout)
    as (h' & Hrun & H).
  { intros p [_ Hp]%elem_of_filter. unfold at_elem in Hp.
    destruct (elem_at h p); [eauto|discriminate]. }
  rewrite (bind_ok _ _ _ _ _ Hrun). exists h'. split; [reflexivity|].
  unfold children_of, kids_of. rewrite Hr.
  replace (List.filter (selected tm fam key names) (omap (elem_at h) ks))
    with (List.filter (named_in (qualify tm key) names)
            (List.filter (has_tag (qualify tm fam)) (omap (elem_at h) ks)))
    by apply filter_and.
  rewrite omap_filter. exact H.
Qed.

Lemma children_of_app h h2 r :
  doc_ok h r = true ->
  doc_ok (h ++ h2) r = true ∧ children_of (h ++ h2) r = children_of h r.
Proof.
  intros (a & ks & Hr & Hnd & Hall)%doc_ok_inv.
  assert ((h ++ h2) !! r = Some (Root a ks)) as Hr'.
  { rewrite lookup_app_l; [done|]. by eapply lookup_lt_Some. }
  assert (∀ k, k ∈ ks -> (h ++ h2) !! k = h !! k) as Hk.
  { intros k Hk. destruct (Hall k Hk) as [e He].
    rewrite lookup_app_l; [done|]. by eapply lookup_lt_Some. }
  split.
  - eapply doc_ok_intro; [exact Hr'|done|].
    intros k Hin. rewrite (Hk k Hin). auto.
  - unfold children_of, kids_of. rewrite Hr, Hr'. apply omap_same.
    intros k Hin. unfold elem_at. by rewrite (Hk k Hin).
Qed.

(** The passes of [extract_elements] over a list of registry families. *)
Lemma extract_passes tm src tgt out :
  src ≠ out -> tgt ≠ out ->
  ∀ fg h,
    Forall (entry_ok EXTRACT_CHILD) fg ->
    doc_ok h src = true -> doc_ok h tgt = true -> is_root h out = true ->
    ∃ h', for_each (map fst fg) (Some out) (fun root parent_name =>
            names <- diff_elements src tgt parent_name tm ;;
            child_name <- subscript (dict_get PARENTS parent_name) EXTRACT_CHILD ;;
            do ExtractElements tm tgt root parent_name child_name (Some names)) h
          = Ok (Some out, h')
          ∧ extracted_to out
              (delta_children tm fg (children_of h src) (children_of h tgt)) h h'.
Proof.
  intros Hso Hto. induction fg as [|[fam key] fg IH]; intros h Hfg Hs Ht Hout.
  - exists h. split; [reflexivity|]. apply extracted_to_nil.
  - apply Forall_cons in Hfg as [Hent Hfg].
    pose proof Hent as (_ & Hpf & Hpk). simpl in Hpf, Hpk.
    pose proof (subscript_entry _ _ h Hent) as Hsub. cbn [fst snd] in Hsub.
    pose proof (diff_elements_spec tm fam key src tgt h Hent
                  (doc_ok_is_root _ _ Hs) (doc_ok_is_root _ _ Ht)) as Hdiff.
    destruct (extract_pass tm fam key tgt out
                (names_of tm fam key (children_of h tgt)
                 ∖ names_of tm fam key (children_of h src)) h Hpf Hpk
                (doc_ok_is_root _ _ Ht) Hout) as (h1 & Hrun1 & H1).
    destruct (extracted_to_doc_ok _ _ _ _ _ H1 Hso Hs) as [Hs1 Hcs].
    destruct (extracted_to_doc_ok _ _ _ _ _ H1 Hto Ht) as [Ht1 Hct].
    destruct (IH h1 Hfg Hs1 Ht1 (extracted_to_is_root _ _ _ _ _ H1 Hout))
      as (h2 & Hrun2 & H2).
    exists h2. split.
    + cbn [map fst for_each]. unfold bind at 1. unfold bind at 1.
      rewrite Hdiff. unfold bind at 1. rewrite Hsub, Hrun1. exact Hrun2.
    + rewrite Hcs, Hct in H2. cbn [delta_children flat_map].
      eapply extracted_to_trans; [|exact H1|exact H2].
      apply is_root_inv in Hout as (a & ks & Ho). by eapply lookup_lt_Some.
Qed.

Lemma registry_extract_ok : Forall (entry_ok EXTRACT_CHILD) (registry EXTRACT_CHILD).
Proof. repeat constructor. Qed.

(** The contents of freshly appended cells, read back. *)
Lemma omap_elem_at_seq (h : heap) :
  ∀ es start,
    (∀ i e, es !! i = Some e -> ∃ par, h !! (start + i) = Some (Elem e par)) ->
    omap (elem_at h) (seq start (List.length es)) = es.
Proof.
  induction es as [|e es IH]; intros start H; [reflexivity|].
  cbn [List.length seq]. csimpl.
  destruct (H 0 e eq_refl) as [par Hp]. rewrite Nat.add_0_r in Hp.
  unfold elem_at at 1. rewrite Hp. csimpl. f_equal.
  apply IH. intros i e' Hi. destruct (H (S i) e' Hi) as [par' Hp'].
  exists par'. by replace (S start + i) with (start + S i) by lia.
Qed.

(** [extract_elements] on two sound documents: it returns a new root;
    the cells of the new store are those of the old one, unchanged, then
    the new root, then one new cell for each element of
    [delta_children], in that order, all children of the new root. *)
Lemma extract_elements_spec tm name src tgt h :
  doc_ok h src = true -> doc_ok h tgt = true ->
  ∃ h', extract_elements src tgt name tm h = Ok (Some (List.length h), h')
        ∧ extracted_to (List.length h)
            (delta_children tm (registry EXTRACT_CHILD) (children_of h src) (children_of h tgt))
            (h ++ [Root (Header (clark SF_URI name) [] None None) []]) h'.
Proof.
  intros Hs Ht.
  set (h0 := h ++ [Root (Header (clark SF_URI name) [] None None) []]).
  destruct (children_of_app h [Root (Header (clark SF_URI name) [] None None) []] src Hs)
    as [Hs0 Hcs].
  destruct (children_of_app h [Root (Header (clark SF_URI name) [] None None) []] tgt Ht)
    as [Ht0 Hct].
  fold h0 in Hs0, Ht0, Hcs, Hct.
  assert (src ≠ List.length h) as Hso.
  { apply doc_ok_is_root, is_root_inv in Hs as (a & ks & Hr).
    apply lookup_lt_Some in Hr. lia. }
  assert (tgt ≠ List.length h) as Hto.
  { apply doc_ok_is_root, is_root_inv in Ht as (a & ks & Hr).
    apply lookup_lt_Some in Hr. lia. }
  assert (is_root h0 (List.length h) = true) as Hout.
  { unfold is_root, h0. by rewrite list_lookup_middle. }
  destruct (extract_passes tm src tgt (List.length h) Hso Hto
              (registry EXTRACT_CHILD) h0 registry_extract_ok Hs0 Ht0 Hout)
    as (h' & Hrun & H).
  exists h'. split.
  - unfold extract_elements, bind, sforce_root. fold h0. exact Hrun.
  - by rewrite Hcs, Hct in H.
Qed.

(** ** What pruning keeps and what it removes *)

Lemma in_false_None_spec s :
  in_false_None s = true <-> s = "false" ∨ s = "None".
Proof.
  unfold in_false_None. rewrite orb_true_iff, !String.eqb_eq. reflexivity.
Qed.

Lemma gate_closed_spec t e :
  gate_closed t e = true <-> reads_false_or_None t e.
Proof.
  unfold gate_closed, reads_false_or_None.
  destruct (field_text t e) as [s|].
  - rewrite in_false_None_spec. split; intros [H|H]; try (injection H as H); subst; auto.
  - split; [discriminate|]. intros [H|H]; discriminate.
Qed.

Lemma field_text_None t e :
  field_text t e = None <-> child_missing t e ∨ child_null t e.
Proof.
  unfold field_text, child_missing, child_null.
  destruct (List.find _ _) as [c|]; split.
  - intros H. right. eauto.
  - intros [H|(c' & [= <-] & H)]; [discriminate|done].
  - auto.
  - done.
Qed.

(** The registry, as pairs of a family and its gate or key. *)
Example registry_gates :
  registry PRUNE_CHILD
  = [ ("applicationVisibilities", "visible"); ("classAccesses", "enabled");
      ("fieldPermissions", "readable"); ("layoutAssignments", "None");
      ("objectPermissions", "allowRead"); ("pageAccesses", "enabled");
      ("recordTypeVisibilities", "visible"); ("tabVisibilities", "visibility") ].
Proof. reflexivity. Qed.

Example registry_keys :
  registry FETCH_CHILD = registry EXTRACT_CHILD
  ∧ registry EXTRACT_CHILD
    = [ ("applicationVisibilities", "application"); ("classAccesses", "apexClass");
        ("fieldPermissions", "field"); ("layoutAssignments", "layout");
        ("objectPermissions", "object"); ("pageAccesses", "apexPage");
        ("recordTypeVisibilities", "recordType"); ("tabVisibilities", "tab") ].
Proof. split; reflexivity. Qed.

Lemma registry_prune_keys : NoDup (map fst (registry PRUNE_CHILD)).
Proof. by_computation. Qed.

Lemma registry_extract_keys : NoDup (map fst (registry EXTRACT_CHILD)).
Proof. by_computation. Qed.

(** Among families with distinct names, an element of family [fam] is
    tested on the gate of [fam] and on no other. *)
Lemma pruned_in_family tm e fam gate :
  has_tag (qualify tm fam) e = true ->
  ∀ fg, NoDup (map fst fg) -> (fam, gate) ∈ fg ->
        pruned_in tm fg e = gate_closed (qualify tm gate) e.
Proof.
  intros Ht. induction fg as [|[f g] fg IH]; intros Hnd Hin.
  - by apply elem_of_nil in Hin.
  - cbn [map fst] in Hnd. apply NoDup_cons in Hnd as [Hf Hnd].
    unfold pruned_in. cbn [existsb]. fold (pruned_in tm fg e).
    apply elem_of_cons in Hin as [[= <- <-]|Hin].
    + unfold pruned_by at 1. rewrite Ht. cbn [andb].
      destruct (gate_closed (qualify tm gate) e); [reflexivity|]. cbn [orb].
      unfold pruned_in. apply not_true_is_false. intros Hex.
      apply existsb_exists in Hex as ([f' g'] & Hin' & Hp).
      unfold pruned_by in Hp. apply andb_prop in Hp as [Ht' _].
      apply has_tag_eq in Ht, Ht'. rewrite Ht in Ht'.
      apply qualify_inj in Ht' as <-. apply Hf.
      apply list_elem_of_In in Hin'. apply list_elem_of_fmap. by exists (fam, g').
    + rewrite (IH Hnd Hin). unfold pruned_by.
      destruct (has_tag (qualify tm f) e) eqn:Ht'; [|reflexivity].
      exfalso. apply has_tag_eq in Ht, Ht'. rewrite Ht in Ht'.
      apply qualify_inj in Ht' as <-. apply Hf.
      apply list_elem_of_fmap. by exists (fam, gate).
Qed.

Lemma pruned_family tm e fam gate :
  (fam, gate) ∈ registry PRUNE_CHILD -> has_tag (qualify tm fam) e = true ->
  pruned tm e = gate_closed (qualify tm gate) e.
Proof.
  intros Hin Ht.
  exact (pruned_in_family tm e fam gate Ht _ registry_prune_keys Hin).
Qed.

(** The fate of one child of a pruned document. *)
Lemma pruned_to_child r D h h' p e :
  doc_ok h r = true -> pruned_to r D h h' ->
  p ∈ kids_of h r -> elem_at h p = Some e ->
  elem_at h' p = Some e
  ∧ (if D p then ((p ∉ kids_of h' r) ∧ parent_of h' p = None)
     else (p ∈ kids_of h' r ∧ parent_of h' p = Some r ∧ h' !! p = h !! p)).
Proof.
  intros (a & ks & Hr & Hnd & Hall)%doc_ok_inv H Hp He.
  split; [by rewrite (pruned_to_elem_at _ _ _ _ p H)|].
  pose proof (pruned_to_kids _ _ _ _ H) as Hk.
  assert (p ∈ ks) as Hp' by (unfold kids_of in Hp; by rewrite Hr in Hp).
  destruct (Hall p Hp') as [e' Hpe].
  destruct H as (_ & _ & Hl). specialize (Hl p ltac:(congruence)).
  unfold parent_of. rewrite Hl, Hk. destruct (D p) eqn:HD; rewrite Hpe; simpl.
  - split; [|done]. intros [_ HD']%elem_of_filter. by rewrite HD in HD'.
  - split; [|done]. apply elem_of_filter. by rewrite HD.
Qed.

Lemma pruned_to_same r D h h' :
  pruned_to r D h h' -> (∀ l, D l = false) -> h' = h.
Proof.
  intros (Hlen & Hr & Hl) HD. apply list_eq. intros i.
  destruct (decide (i = r)) as [->|Hne].
  - rewrite Hr. destruct (h !! r) as [[a ks|]|]; try reflexivity.
    rewrite filter_all; [done|]. intros k _. by rewrite HD.
  - rewrite (Hl i Hne). by rewrite HD.
Qed.

(** The fate of one family element under [prune_elements], decided by
    the text of its gate child alone. *)
Lemma prune_child_fate tm h r fam gate p e :
  doc_ok h r = true ->
  (fam, gate) ∈ registry PRUNE_CHILD ->
  p ∈ kids_of h r -> elem_at h p = Some e -> has_tag (qualify tm fam) e = true ->
  ∃ h', prune_elements r tm h = Ok (r, h')
        ∧ (if gate_closed (qualify tm gate) e
           then ((p ∉ kids_of h' r) ∧ parent_of h' p = None)
           else (p ∈ kids_of h' r ∧ parent_of h' p = Some r ∧ h' !! p = h !! p)).
Proof.
  intros Hok Hin Hp He Ht.
  destruct (prune_elements_spec tm r h Hok) as (h' & Hrun & H).
  destruct (pruned_to_child _ _ _ _ p e Hok H Hp He) as [_ Hfate].
  cbn beta in Hfate. rewrite bool_decide_eq_true_2 in Hfate by done.
  unfold at_elem in Hfate. rewrite He in Hfate.
  rewrite (pruned_family tm e fam gate Hin Ht) in Hfate. cbn [andb] in Hfate.
  exists h'. split; [exact Hrun|exact Hfate].
Qed.

(** C3. For every document and every registry family, [prune_elements]
    unlinks an element of the family from the root exactly when its gate
    child exists and its text is the string "false" or the string
    "None"; with any other text, no text or no gate child the element
    stays where it is, as it is. *)
Theorem prune_exact_string_policy tm h r fam gate p e :
  doc_ok h r = true ->
  (fam, gate) ∈ registry PRUNE_CHILD ->
  p ∈ kids_of h r -> elem_at h p = Some e -> has_tag (qualify tm fam) e = true ->
  ∃ h', prune_elements r tm h = Ok (r, h')
        ∧ (reads_false_or_None (qualify tm gate) e
           -> (p ∉ kids_of h' r) ∧ parent_of h' p = None)
        ∧ (¬ reads_false_or_None (qualify tm gate) e
           -> p ∈ kids_of h' r ∧ parent_of h' p = Some r ∧ h' !! p = h !! p)
        ∧ (p ∉ kids_of h' r <-> reads_false_or_None (qualify tm gate) e).
Proof.
  intros Hok Hin Hp He Ht.
  destruct (prune_child_fate tm h r fam gate p e Hok Hin Hp He Ht)
    as (h' & Hrun & Hfate).
  pose proof (gate_closed_spec (qualify tm gate) e) as Hspec.
  exists h'. split; [done|].
  destruct (gate_closed (qualify tm gate) e).
  - assert (reads_false_or_None (qualify tm gate) e) as Hc by by apply Hspec.
    split; [done|]. split; [done|]. tauto.
  - assert (¬ reads_false_or_None (qualify tm gate) e) as Hc.
    { intros Hc. apply Hspec in Hc. discriminate. }
    split; [done|]. split; [done|]. tauto.
Qed.

(** The policy compares strings: "0" and "False" are not "false". *)
Example zero_and_False_are_kept t :
  ¬ reads_false_or_None t (Element (Header "classAccesses" [] None None) [leaf t "0"])
  ∧ ¬ reads_false_or_None t (Element (Header "classAccesses" [] None None) [leaf t "False"]).
Proof.
  unfold reads_false_or_None, field_text, leaf, has_tag, tag, text.
  cbn [children List.find hd h_tag]. rewrite String.eqb_refl.
  cbn [hd h_text]. split; intros [H|H]; discriminate.
Qed.

(** C5. Pruning a pruned document changes nothing: the second
    [prune_elements] returns the same root and the same store. *)
Theorem prune_idempotent tm h r :
  doc_ok h r = true ->
  ∃ h', prune_elements r tm h = Ok (r, h')
        ∧ prune_elements r tm h' = Ok (r, h').
Proof.
  intros Hok.
  destruct (prune_elements_spec tm r h Hok) as (h1 & Hrun1 & H1).
  pose proof (pruned_to_doc_ok _ _ _ _ Hok H1) as Hok1.
  destruct (prune_elements_spec tm r h1 Hok1) as (h2 & Hrun2 & H2).
  exists h1. split; [done|]. rewrite Hrun2. do 2 f_equal.
  apply (pruned_to_same _ _ _ _ H2). intros l. cbn beta.
  destruct (bool_decide (l ∈ kids_of h1 r)) eqn:Hl; [|reflexivity].
  apply bool_decide_eq_true in Hl.
  rewrite (pruned_to_kids _ _ _ _ H1) in Hl.
  apply elem_of_filter in Hl as [Hl HD]. cbn beta in HD.
  rewrite bool_decide_eq_true_2 in HD by done. cbn [andb] in HD.
  rewrite (pruned_to_at_elem _ _ _ _ _ l H1).
  by apply negb_true_iff in HD.
Qed.

(** C7, as the code has it. A [layoutAssignments] element survives
    [prune_elements], in place and unchanged, whenever it has no child
    named [None] (the name the registry gives as its gate), or its first
    such child has no text, or a text that is neither "false" nor "None";
    a [layoutAssignments] element whose first child named [None] reads
    "false" or "None" is removed, like an element of any other family. *)
Theorem layout_assignments_survive tm h r p e :
  doc_ok h r = true ->
  p ∈ kids_of h r -> elem_at h p = Some e ->
  has_tag (qualify tm "layoutAssignments") e = true ->
  ∃ h', prune_elements r tm h = Ok (r, h')
        ∧ (¬ reads_false_or_None (qualify tm "None") e ->
           p ∈ kids_of h' r ∧ parent_of h' p = Some r ∧ h' !! p = h !! p)
        ∧ (reads_false_or_None (qualify tm "None") e ->
           (p ∉ kids_of h' r) ∧ parent_of h' p = None).
Proof.
  intros Hok Hp He Ht.
  assert (("layoutAssignments", "None") ∈ registry PRUNE_CHILD) as Hin.
  { by_computation. }
  destruct (prune_child_fate tm h r _ _ p e Hok Hin Hp He Ht)
    as (h' & Hrun & Hfate).
  exists h'. split; [done|].
  destruct (gate_closed (qualify tm "None") e) eqn:Hc.
  - apply gate_closed_spec in Hc. split; [by intros Hgate|by intros _].
  - split; [by intros _|].
    intros Hgate%gate_closed_spec. congruence.
Qed.

(** ** What extraction copies *)

Lemma selected_spec tm fam key names e :
  selected tm fam key names e = true
  <-> has_tag (qualify tm fam) e = true
      ∧ ∃ s, field_text (qualify tm key) e = Some s ∧ s ∈ names.
Proof.
  unfold selected. rewrite andb_true_iff.
  destruct (field_text (qualify tm key) e) as [s|].
  - rewrite bool_decide_eq_true. split.
    + intros [Ht Hs]. eauto.
    + intros [Ht (s' & [= <-] & Hs)]. done.
  - split; [intros [_ H]|intros [_ (s & H & _)]]; discriminate.
Qed.

Lemma elem_of_delta_children tm fg S T e :
  e ∈ delta_children tm fg S T
  <-> ∃ fam key, (fam, key) ∈ fg ∧ e ∈ T
        ∧ selected tm fam key (names_of tm fam key T ∖ names_of tm fam key S) e = true.
Proof.
  unfold delta_children. rewrite list_elem_of_In, in_flat_map. split.
  - intros ([fam key] & Hin & He). exists fam, key.
    apply list_elem_of_In in Hin. apply list_elem_of_In, elem_of_filter in He.
    tauto.
  - intros (fam & key & Hin & He & Hsel). exists (fam, key).
    split; [by apply list_elem_of_In|].
    apply list_elem_of_In, elem_of_filter. done.
Qed.

(** Only the pass of a family copies elements of that family. *)
Lemma delta_children_family tm fg S T e fam :
  NoDup (map fst fg) ->
  e ∈ delta_children tm fg S T -> has_tag (qualify tm fam) e = true ->
  ∃ key, (fam, key) ∈ fg ∧ e ∈ T
         ∧ selected tm fam key (names_of tm fam key T ∖ names_of tm fam key S) e = true.
Proof.
  intros Hnd (f & key & Hin & He & Hsel)%elem_of_delta_children Ht.
  pose proof Hsel as [Ht' _]%selected_spec.
  apply has_tag_eq in Ht, Ht'. rewrite Ht in Ht'. apply qualify_inj in Ht' as <-.
  eauto.
Qed.

Lemma registry_key_unique (fg : list (string * string)) fam k1 k2 :
  NoDup (map fst fg) -> (fam, k1) ∈ fg -> (fam, k2) ∈ fg -> k1 = k2.
Proof.
  induction fg as [|[f k] fg IH]; intros Hnd H1 H2.
  - by apply elem_of_nil in H1.
  - cbn [map fst] in Hnd. apply NoDup_cons in Hnd as [Hf Hnd].
    apply elem_of_cons in H1 as [E1|H1]; apply elem_of_cons in H2 as [E2|H2].
    + by simplify_eq.
    + simplify_eq. exfalso. apply Hf. apply list_elem_of_fmap. by exists (f, k2).
    + simplify_eq. exfalso. apply Hf. apply list_elem_of_fmap. by exists (f, k1).
    + by apply IH.
Qed.

(** The copies of the elements keyed [x], for a name [x] of the delta
    set of the family: the elements of the target keyed [x], all of
    them, in the order of the target. *)
Lemma filter_delta_children tm fg S T fam key x :
  NoDup (map fst fg) -> (fam, key) ∈ fg ->
  x ∈ names_of tm fam key T ∖ names_of tm fam key S ->
  List.filter (keyed tm fam key x) (delta_children tm fg S T)
  = List.filter (keyed tm fam key x) T.
Proof.
  intros Hnd Hin Hx. revert Hnd Hin.
  induction fg as [|[f k] fg IH]; intros Hnd Hin.
  - by apply elem_of_nil in Hin.
  - pose proof Hnd as Hnd0.
    cbn [map fst] in Hnd. apply NoDup_cons in Hnd as [Hf Hnd].
    cbn [delta_children flat_map]. rewrite List.filter_app, filter_and.
    fold (delta_children tm fg S T).
    destruct (decide (f = fam)) as [->|Hne].
    + assert (k = key) as ->.
      { eapply (registry_key_unique _ fam); [exact Hnd0|by left|done]. }
      rewrite (filter_none _ (delta_children tm fg S T)).
      * rewrite app_nil_r. apply filter_same. intros e _.
        destruct (keyed tm fam key x e) eqn:Hk; [|apply andb_false_r].
        rewrite andb_true_r. apply keyed_spec in Hk as [Ht Hft].
        apply selected_spec. eauto.
      * intros e He. apply not_true_is_false. intros [Ht _]%keyed_spec.
        destruct (delta_children_family tm fg S T e fam Hnd He Ht) as (k' & Hk' & _).
        apply Hf. apply list_elem_of_fmap. by exists (fam, k').
    + apply elem_of_cons in Hin as [[= -> ->]|Hin]; [done|].
      rewrite (filter_none _ T).
      * by apply IH.
      * intros e _. apply not_true_is_false.
        intros [[Ht _]%selected_spec [Ht' _]%keyed_spec]%andb_prop.
        apply has_tag_eq in Ht, Ht'. rewrite Ht in Ht'.
        by apply qualify_inj in Ht'.
Qed.

(** A store that agrees with [h] on the cells of [h] holds the same
    sound documents. *)
Lemma doc_ok_same h h' r :
  (∀ l, l < List.length h -> h' !! l = h !! l) ->
  doc_ok h r = true ->
  doc_ok h' r = true ∧ children_of h' r = children_of h r ∧ kids_of h' r = kids_of h r.
Proof.
  intros Hsame (a & ks & Hr & Hnd & Hall)%doc_ok_inv.
  assert (h' !! r = Some (Root a ks)) as Hr'.
  { rewrite Hsame; [done|]. by eapply lookup_lt_Some. }
  assert (∀ k, k ∈ ks -> h' !! k = h !! k) as Hk.
  { intros k Hk. destruct (Hall k Hk) as [e He].
    apply Hsame. by eapply lookup_lt_Some. }
  split; [|split].
  - eapply doc_ok_intro; [exact Hr'|done|].
    intros k Hin. rewrite (Hk k Hin). auto.
  - unfold children_of, kids_of. rewrite Hr, Hr'. apply omap_same.
    intros k Hin. unfold elem_at. by rewrite (Hk k Hin).
  - unfold kids_of. by rewrite Hr, Hr'.
Qed.

(** [extract_elements], in full: the old cells are untouched; the new
    root follows them; the copies follow the new root. *)
Lemma extract_elements_result tm name src tgt h :
  doc_ok h src = true -> doc_ok h tgt = true ->
  let out := List.length h in
  let es := delta_children tm (registry EXTRACT_CHILD)
              (children_of h src) (children_of h tgt) in
  ∃ h', extract_elements src tgt name tm h = Ok (Some out, h')
        ∧ List.length h' = S out + List.length es
        ∧ (∀ l, l < out -> h' !! l = h !! l)
        ∧ h' !! out = Some (Root (Header (clark SF_URI name) [] None None)
                              (seq (S out) (List.length es)))
        ∧ (∀ i e, es !! i = Some e -> h' !! (S out + i) = Some (Elem e (Some out)))
        ∧ children_of h' out = es.
Proof.
  intros Hs Ht out es.
  destruct (extract_elements_spec tm name src tgt h Hs Ht)
    as (h' & Hrun & Hlen & Hl & Ho & Hn).
  fold out es in Hrun, Hlen, Hl, Ho, Hn.
  rewrite length_app in Hlen, Ho, Hn. cbn [List.length] in Hlen, Ho, Hn.
  replace (List.length h + 1) with (S out) in Hlen, Ho, Hn by (unfold out; lia).
  rewrite list_lookup_middle in Ho by done. cbn [app] in Ho.
  exists h'. split; [done|]. split; [lia|]. split; [|split; [done|split; [done|]]].
  - intros l Hlt. rewrite Hl; [|lia|rewrite length_app; simpl; lia].
    by rewrite lookup_app_l.
  - unfold children_of, kids_of. rewrite Ho. apply omap_elem_at_seq.
    intros i e Hi. eauto.
Qed.

Lemma registry_entry i fc :
  Forall (entry_ok i) (registry i) -> fc ∈ registry i -> entry_ok i fc.
Proof. intros Hall Hin. by apply (proj1 (Forall_forall _ _) Hall). Qed.

(** C4. For every pair of documents and every registry family,
    [diff_elements] returns the names fetched from the target minus the
    names fetched from the source, whether or not the target holds every
    name of the source: it raises nothing and checks nothing.  A name is
    in the result exactly when some element of the family in the target
    has it as key text and no element of the family in the source has.
    When the target's names include the source's, the result and the
    source's names split the target's names. *)
Theorem diff_is_set_difference tm h s t fam key :
  (fam, key) ∈ registry FETCH_CHILD ->
  is_root h s = true -> is_root h t = true ->
  ∃ S T : gset string,
    fetch_elements s fam tm h = Ok (S, h)
    ∧ fetch_elements t fam tm h = Ok (T, h)
    ∧ diff_elements s t fam tm h = Ok (T ∖ S, h)
    ∧ (∀ x, x ∈ T ∖ S
            <-> (∃ e, e ∈ children_of h t ∧ keyed tm fam key x e = true)
                ∧ ¬ (∃ e, e ∈ children_of h s ∧ keyed tm fam key x e = true))
    ∧ (S ⊆ T -> S ∪ (T ∖ S) = T ∧ S ## T ∖ S).
Proof.
  intros Hin Hs Ht.
  pose proof (registry_entry _ _ registry_fetch_ok Hin) as Hent.
  exists (names_of tm fam key (children_of h s)), (names_of tm fam key (children_of h t)).
  split; [by apply fetch_elements_spec|].
  split; [by apply fetch_elements_spec|].
  split; [by apply diff_elements_spec|]. split.
  - intros x. rewrite elem_of_difference, !elem_of_names_of. reflexivity.
  - intros Hsub. split; [|apply disjoint_difference_r1; reflexivity].
    apply set_eq. intros x. rewrite elem_of_union, elem_of_difference.
    split; [intros [Hx|[Hx _]]; auto|].
    intros Hx. destruct (decide (x ∈ names_of tm fam key (children_of h s))); auto.
Qed.

(** C2. For every registry family, no child of the output of
    [extract_elements] is an element of the family whose key text is in
    the set of names fetched from the source (which is the same set
    before and after the extraction). *)
Theorem extract_exclusivity tm name h src tgt fam key :
  doc_ok h src = true -> doc_ok h tgt = true ->
  (fam, key) ∈ registry EXTRACT_CHILD ->
  ∃ h' (S : gset string),
    extract_elements src tgt name tm h = Ok (Some (List.length h), h')
    ∧ fetch_elements src fam tm h = Ok (S, h)
    ∧ fetch_elements src fam tm h' = Ok (S, h')
    ∧ ∀ e x, e ∈ children_of h' (List.length h) ->
             keyed tm fam key x e = true -> x ∉ S.
Proof.
  intros Hs Ht Hin.
  pose proof (registry_entry _ _ registry_extract_ok Hin) as Hent.
  destruct (extract_elements_result tm name src tgt h Hs Ht)
    as (h' & Hrun & _ & Hsame & _ & _ & Hout).
  destruct (doc_ok_same h h' src Hsame Hs) as (Hs' & Hcs & _).
  exists h', (names_of tm fam key (children_of h src)).
  split; [done|]. split; [by apply fetch_elements_spec, doc_ok_is_root|]. split.
  - rewrite <- Hcs. by apply fetch_elements_spec, doc_ok_is_root.
  - intros e x He Hk. rewrite Hout in He.
    pose proof Hk as [Htag Hft]%keyed_spec.
    destruct (delta_children_family _ _ _ _ e fam registry_extract_keys He Htag)
      as (key' & Hin' & _ & Hsel).
    assert (key' = key) as -> by (by eapply registry_key_unique; [apply registry_extract_keys| |]).
    apply selected_spec in Hsel as (_ & s & Hs1 & Hs2).
    rewrite Hft in Hs1. injection Hs1 as <-.
    by apply elem_of_difference in Hs2 as [_ Hs2].
Qed.

(** C1, as the code has it. For every registry family and every name of
    its delta set, the children of the output that are elements of the
    family keyed by that name are the contents of the target's elements
    of the family keyed by that name: all of them (there is at least
    one; there is more than one when the target repeats the key), each
    whole, in the target's order.  They are new objects, and the target
    keeps its own. *)
Theorem extract_completeness tm name h src tgt fam key :
  doc_ok h src = true -> doc_ok h tgt = true ->
  (fam, key) ∈ registry EXTRACT_CHILD ->
  ∃ h' (delta : gset string),
    diff_elements src tgt fam tm h = Ok (delta, h)
    ∧ extract_elements src tgt name tm h = Ok (Some (List.length h), h')
    ∧ (∀ x, x ∈ delta ->
         List.filter (keyed tm fam key x) (children_of h' (List.length h))
         = List.filter (keyed tm fam key x) (children_of h tgt)
         ∧ (1 ≤ List.length (List.filter (keyed tm fam key x) (children_of h tgt)))%nat)
    ∧ (∀ k, k ∈ kids_of h' (List.length h) -> List.length h < k)
    ∧ kids_of h' tgt = kids_of h tgt
    ∧ children_of h' tgt = children_of h tgt.
Proof.
  intros Hs Ht Hin.
  pose proof (registry_entry _ _ registry_extract_ok Hin) as Hent.
  destruct (extract_elements_result tm name src tgt h Hs Ht)
    as (h' & Hrun & _ & Hsame & Hroot & _ & Hout).
  destruct (doc_ok_same h h' tgt Hsame Ht) as (_ & Hct & Hkt).
  exists h', (names_of tm fam key (children_of h tgt)
              ∖ names_of tm fam key (children_of h src)).
  split; [by apply diff_elements_spec; [|apply doc_ok_is_root..]|].
  split; [done|]. split; [|split; [|done]].
  - intros x Hx. split.
    + rewrite Hout. by apply filter_delta_children; [apply registry_extract_keys| |].
    + apply elem_of_difference in Hx as [Hx _].
      apply elem_of_names_of in Hx as (e & He & Hk).
      assert (e ∈ List.filter (keyed tm fam key x) (children_of h tgt)) as Hmem
        by by apply elem_of_filter.
      destruct (List.filter _ _); [by apply elem_of_nil in Hmem|simpl; lia].
  - intros k Hk. unfold kids_of in Hk. rewrite Hroot in Hk.
    apply list_elem_of_In, in_seq in Hk. lia.
Qed.

(** ** Elements that the traversal skips *)

(** C10. In the traversal shared by fetch, prune and extract, a child
    of the root whose named child is absent, or is there without text,
    is passed over: for the key and the gate name of every registry
    family the loop body returns without calling [do_yield], whatever
    [do_yield] is (the base class's raises).  Such an element
    adds no name to a fetched set, stays in place when pruned, is not
    copied by an extraction, and none of the three operations raises. *)
Theorem traversal_skips tm h r p e :
  doc_ok h r = true -> p ∈ kids_of h r -> elem_at h p = Some e ->
  (∀ R (strategy : FindElements R) fam c me,
     (fam, c) ∈ registry FETCH_CHILD ∨ (fam, c) ∈ registry PRUNE_CHILD ->
     child_missing (qualify tm c) e ∨ child_null (qualify tm c) e ->
     do_step strategy (namespace_prepend c tm) (namespace_declare tm) me p h = Ok (me, h))
  ∧ (∀ fam key,
       (fam, key) ∈ registry FETCH_CHILD ->
       child_missing (qualify tm key) e ∨ child_null (qualify tm key) e ->
       fetch_elements r fam tm h
       = Ok (names_of tm fam key (omap (elem_at h) (drop_kid p (kids_of h r))), h))
  ∧ (∀ fam gate,
       (fam, gate) ∈ registry PRUNE_CHILD -> has_tag (qualify tm fam) e = true ->
       child_missing (qualify tm gate) e ∨ child_null (qualify tm gate) e ->
       ∃ h', prune_elements r tm h = Ok (r, h')
             ∧ p ∈ kids_of h' r ∧ h' !! p = h !! p)
  ∧ (∀ fam key src name,
       (fam, key) ∈ registry EXTRACT_CHILD -> has_tag (qualify tm fam) e = true ->
       child_missing (qualify tm key) e ∨ child_null (qualify tm key) e ->
       doc_ok h src = true ->
       ∃ h', extract_elements src r name tm h = Ok (Some (List.length h), h')
             ∧ (e ∉ children_of h' (List.length h)) ∧ h' !! p = h !! p).
Proof.
  intros Hok Hp He. split; [|split; [|split]].
  - intros R strategy fam c me Hin Hskip%field_text_None.
    assert (plain c = true) as Hc.
    { destruct Hin as [Hin|Hin].
      - by destruct (registry_entry _ _ registry_fetch_ok Hin) as (_ & _ & Hc).
      - by destruct (registry_entry _ _ registry_prune_ok Hin) as (_ & _ & Hc). }
    rewrite (do_step_elem _ tm c me h p e Hc He). by rewrite Hskip.
  - intros fam key Hin Hskip%field_text_None.
    pose proof (registry_entry _ _ registry_fetch_ok Hin) as Hent.
    rewrite (fetch_elements_spec tm fam key r h Hent (doc_ok_is_root _ _ Hok)).
    do 2 f_equal. apply set_eq. intros x. rewrite !elem_of_names_of.
    unfold children_of. split.
    + intros (e' & (k & Hk & Hke)%list_elem_of_omap & Hx). exists e'. split; [|done].
      apply list_elem_of_omap. exists k. split; [|done].
      apply elem_of_filter. split; [done|].
      apply negb_true_iff, Nat.eqb_neq. intros ->.
      rewrite He in Hke. injection Hke as <-.
      apply keyed_spec in Hx as [_ Hx]. congruence.
    + intros (e' & (k & [Hk _]%elem_of_filter & Hke)%list_elem_of_omap & Hx).
      exists e'. split; [|done]. apply list_elem_of_omap. eauto.
  - intros fam gate Hin Ht Hskip%field_text_None.
    destruct (prune_child_fate tm h r fam gate p e Hok Hin Hp He Ht)
      as (h' & Hrun & Hfate).
    unfold gate_closed in Hfate. rewrite Hskip in Hfate.
    exists h'. tauto.
  - intros fam key src name Hin Ht Hskip%field_text_None Hs.
    destruct (extract_elements_result tm name src r h Hs Hok)
      as (h' & Hrun & _ & Hsame & _ & _ & Hout).
    exists h'. split; [done|]. split.
    + rewrite Hout. intros Hmem.
      destruct (delta_children_family _ _ _ _ e fam registry_extract_keys Hmem Ht)
        as (key' & Hin' & _ & Hsel).
      assert (key' = key) as ->
        by (by eapply registry_key_unique; [apply registry_extract_keys| |]).
      apply selected_spec in Hsel as (_ & s & Hs1 & _). congruence.
    + apply Hsame. apply elem_at_Some in He as [par He]. by eapply lookup_lt_Some.
Qed.

(** ** The command-line flow *)

Lemma load_spec d h :
  ∃ h', load d h = Ok (List.length h, h')
        ∧ doc_ok h' (List.length h) = true
        ∧ children_of h' (List.length h) = children d
        ∧ (∀ r, doc_ok h r = true ->
                doc_ok h' r = true ∧ children_of h' r = children_of h r).
Proof.
  set (r := List.length h).
  set (h' := h ++ Root (hd d) (seq (S r) (List.length (children d)))
               :: map (fun e => Elem e (Some r)) (children d)).
  assert (h' !! r = Some (Root (hd d) (seq (S r) (List.length (children d))))) as Hr.
  { unfold h', r. by rewrite list_lookup_middle. }
  assert (∀ i e, children d !! i = Some e -> h' !! (S r + i) = Some (Elem e (Some r))) as Hk.
  { intros i e Hi. unfold h'. rewrite lookup_app_r by (unfold r; lia).
    replace (S r + i - List.length h) with (S i) by (unfold r; lia).
    rewrite lookup_cons. rewrite list_lookup_fmap, Hi. reflexivity. }
  exists h'. split; [reflexivity|]. split; [|split].
  - eapply doc_ok_intro; [exact Hr|apply NoDup_ListNoDup, seq_NoDup|].
    intros k Hin. apply list_elem_of_In, in_seq in Hin.
    destruct (lookup_lt_is_Some_2 (children d) (k - S r) ltac:(lia)) as [e He].
    exists e. specialize (Hk _ _ He).
    by replace (S r + (k - S r)) with k in Hk by lia.
  - unfold children_of, kids_of. rewrite Hr. apply omap_elem_at_seq.
    intros i e Hi. eauto.
  - intros r1 Hok. by apply children_of_app.
Qed.

(** The children of a pruned document, as values. *)
Lemma pruned_children_of r P h h' :
  doc_ok h r = true ->
  pruned_to r (fun l => bool_decide (l ∈ kids_of h r) && at_elem P h l) h h' ->
  children_of h' r = List.filter (fun e => negb (P e)) (children_of h r).
Proof.
  intros Hok H. pose proof Hok as (a & ks & Hr & Hnd & Hall)%doc_ok_inv.
  unfold children_of. rewrite (pruned_to_kids _ _ _ _ H).
  rewrite omap_filter. unfold kids_of. rewrite Hr.
  rewrite (omap_same (elem_at h') (elem_at h))
    by (intros k _; by apply (pruned_to_elem_at _ _ _ _ k H)).
  f_equal. apply filter_same. intros k Hk.
  rewrite bool_decide_eq_true_2 by done. cbn [andb].
  destruct (Hall k Hk) as [e He]. unfold at_elem, elem_at. by rewrite He.
Qed.

(** Pruning one document leaves the other documents as they are. *)
Lemma pruned_to_other r D h h' r1 :
  doc_ok h r = true -> doc_ok h r1 = true -> r1 ≠ r ->
  (∀ l, D l = true -> l ∈ kids_of h r) ->
  pruned_to r D h h' ->
  doc_ok h' r1 = true ∧ children_of h' r1 = children_of h r1.
Proof.
  intros (a & ks & Hr & Hnd & Hall)%doc_ok_inv
         (a1 & ks1 & Hr1 & Hnd1 & Hall1)%doc_ok_inv Hne HD (_ & _ & Hl).
  assert (h' !! r1 = Some (Root a1 ks1)) as Hr1'.
  { rewrite (Hl r1 Hne), Hr1. by destruct (D r1). }
  assert (∀ k, k ∈ ks1 -> h' !! k = h !! k) as Hk.
  { intros k Hk. destruct (Hall1 k Hk) as [e He].
    rewrite Hl by congruence. destruct (D k) eqn:HDk; [|done].
    apply HD in HDk. unfold kids_of in HDk. rewrite Hr in HDk.
    destruct (Hall k HDk) as [e' He']. congruence. }
  split.
  - eapply doc_ok_intro; [exact Hr1'|done|].
    intros k Hin. rewrite (Hk k Hin). auto.
  - unfold children_of, kids_of. rewrite Hr1, Hr1'. apply omap_same.
    intros k Hin. unfold elem_at. by rewrite (Hk k Hin).
Qed.

(** [prune_tree] on a well-formed file: a new sound document whose
    children are the pruned children of the file's document; the
    documents already in the store stay as they are. *)
Lemma prune_tree_ok w path d :
  w_files w !! path = Some (WellFormed d) ->
  ∃ h', prune_tree path w
        = (Ok (List.length (w_heap w)), World h' (w_files w) (w_stdout w))
        ∧ doc_ok h' (List.length (w_heap w)) = true
        ∧ children_of h' (List.length (w_heap w)) = pruned_children false d
        ∧ (∀ r, doc_ok (w_heap w) r = true ->
                doc_ok h' r = true ∧ children_of h' r = children_of (w_heap w) r).
Proof.
  intros Hfile. set (h := w_heap w). set (r := List.length h).
  destruct (load_spec d h) as (h1 & Hload & Hok1 & Hc1 & Hold1). fold r in Hload, Hok1, Hc1.
  destruct (prune_elements_spec false r h1 Hok1) as (h2 & Hrun & H2).
  exists h2. split; [|split; [|split]].
  - unfold prune_tree, io_bind, etree_parse. rewrite Hfile.
    unfold lift at 1. fold h. rewrite Hload.
    unfold lift. cbn [w_heap w_files w_stdout]. rewrite Hrun. reflexivity.
  - by eapply pruned_to_doc_ok.
  - rewrite (pruned_children_of _ _ _ _ Hok1 H2), Hc1. reflexivity.
  - intros r1 Hok. destruct (Hold1 r1 Hok) as [Hok' Hc'].
    assert (r1 ≠ r) as Hne.
    { apply doc_ok_is_root, is_root_inv in Hok as (a & ks & Hr1).
      apply lookup_lt_Some in Hr1. unfold r. lia. }
    assert (∀ l, bool_decide (l ∈ kids_of h1 r) && at_elem (pruned false) h1 l = true
                 -> l ∈ kids_of h1 r) as HD.
    { intros l [Hl _]%andb_prop. by apply bool_decide_eq_true in Hl. }
    destruct (pruned_to_other r _ h1 h2 r1 Hok1 Hok' Hne HD H2) as [Hok2 Hc2].
    split; [done|]. by rewrite Hc2.
Qed.

Lemma document_of_root h r a ks :
  h !! r = Some (Root a ks) ->
  document_of h r = Some (Element a (children_of h r)).
Proof.
  intros Hr. unfold document_of, children_of, kids_of. by rewrite Hr.
Qed.

Lemma drop_kid_last c ks :
  (∀ k, k ∈ ks -> k < c) -> drop_kid c (ks ++ [c]) = ks.
Proof.
  intros Hlt. unfold drop_kid. rewrite List.filter_app. cbn [List.filter].
  rewrite Nat.eqb_refl. cbn [negb]. rewrite app_nil_r.
  apply filter_all. intros k Hk. apply negb_true_iff, Nat.eqb_neq.
  specialize (Hlt k Hk). lia.
Qed.

(** The three statements of [main] that add the label: the element that
    [SubElement] made the last child is moved by [append], not added a
    second time. *)
Lemma label_step h out a ks :
  h !! out = Some (Root a ks) -> (∀ k, k ∈ ks -> k < List.length h) ->
  ∃ h', (my_element <- SubElement out "label" ;;
         set_text my_element "Community Hub Guest" ;;;
         append out my_element) h = Ok (tt, h')
        ∧ h' !! out = Some (Root a (ks ++ [List.length h]))
        ∧ h' !! List.length h = Some (Elem label_element (Some out))
        ∧ (∀ l, l ≠ out -> l < List.length h -> h' !! l = h !! l).
Proof.
  intros Ho Hks. set (c := List.length h).
  pose proof (lookup_lt_Some _ _ _ Ho) as Holt. fold c in Holt.
  set (h1 := <[out := Root a (ks ++ [c])]> h
             ++ [Elem (Element (Header "label" [] None None) []) (Some out)]).
  assert (List.length h1 = S c) as Hlen1.
  { unfold h1. rewrite length_app, length_insert. simpl. unfold c. lia. }
  assert (h1 !! c = Some (Elem (Element (Header "label" [] None None) []) (Some out)))
    as Hc1.
  { unfold h1. apply list_lookup_middle. by rewrite length_insert. }
  assert (h1 !! out = Some (Root a (ks ++ [c]))) as Ho1.
  { unfold h1. rewrite lookup_app_l by (rewrite length_insert; done).
    by rewrite list_lookup_insert_eq. }
  set (h2 := <[c := Elem label_element (Some out)]> h1).
  assert (h2 !! c = Some (Elem label_element (Some out))) as Hc2.
  { unfold h2. rewrite list_lookup_insert_eq; [done|lia]. }
  assert (h2 !! out = Some (Root a (ks ++ [c]))) as Ho2.
  { unfold h2. rewrite list_lookup_insert_ne by lia. done. }
  set (h3 := <[c := Elem label_element None]>
               (<[out := Root a (drop_kid c (ks ++ [c]))]> h2)).
  assert (unlink c h2 = h3) as Hun.
  { unfold unlink. rewrite Hc2, Ho2. reflexivity. }
  assert (List.length h2 = S c) as Hlen2.
  { unfold h2. by rewrite length_insert. }
  assert (h3 !! out = Some (Root a ks)) as Ho3.
  { unfold h3. rewrite list_lookup_insert_ne by lia.
    rewrite list_lookup_insert_eq by lia. by rewrite drop_kid_last. }
  assert (List.length h3 = S c) as Hlen3.
  { unfold h3. by rewrite !length_insert. }
  exists (<[c := Elem label_element (Some out)]> (<[out := Root a (ks ++ [c])]> h3)).
  split; [|split; [|split]].
  - unfold bind at 1. unfold SubElement. rewrite Ho. fold c h1.
    unfold bind at 1. unfold set_text. rewrite Hc1. cbn [h_tag h_attrib h_tail].
    fold label_element. fold h2.
    unfold append. rewrite Hc2, Hun, Ho3. reflexivity.
  - rewrite list_lookup_insert_ne by lia.
    rewrite list_lookup_insert_eq by lia. reflexivity.
  - rewrite list_lookup_insert_eq; [done|]. rewrite length_insert. lia.
  - intros l Hne Hl. fold c in Hl.
    rewrite !list_lookup_insert_ne by lia.
    unfold h3. rewrite !list_lookup_insert_ne by lia.
    unfold h2. rewrite !list_lookup_insert_ne by lia.
    unfold h1. rewrite lookup_app_l by (rewrite length_insert; done).
    by rewrite list_lookup_insert_ne.
Qed.

Lemma main_prune_source_ok w path r w' :
  prune_tree path w = (Ok r, w') -> main_prune_source path w = (Ok r, w').
Proof. intros H. unfold main_prune_source, try_except_IOError. by rewrite H. Qed.

Lemma main_prune_target_ok w path r w' :
  prune_tree path w = (Ok r, w') -> main_prune_target path w = (Ok r, w').
Proof. intros H. unfold main_prune_target, try_except_IOError. by rewrite H. Qed.

(** [main] on two well-formed files: it prints nothing and hands the
    tree [main_document] to [save_tree]; when the output path can be
    opened for writing it returns 0 and has written one file, the output
    path, with the serialisation of that tree; otherwise the [IOError] of
    [save_tree] escapes and nothing is written.  The store at the end
    holds every cell that the two [prune_tree] calls left, as they left
    it. *)
Lemma main_spec w ps pt po ds dt :
  w_files w !! ps = Some (WellFormed ds) ->
  w_files w !! pt = Some (WellFormed dt) ->
  ∃ source_root target_root hp root h',
    (s <~ main_prune_source ps ;; t <~ main_prune_target pt ;; io_ret (s, t)) w
    = (Ok (source_root, target_root), World hp (w_files w) (w_stdout w))
    ∧ doc_ok hp source_root = true ∧ doc_ok hp target_root = true
    ∧ document_of h' root = Some (main_document po ds dt)
    ∧ main (Some ps) (Some pt) (Some po) w
      = (if fs_writable (w_files w) po
         then (Ok 0%Z, World h' (<[po := Written (main_document po ds dt)]> (w_files w))
                         (w_stdout w))
         else (Raise IOError, World h' (w_files w) (w_stdout w)))
    ∧ ∀ l, l < List.length hp -> h' !! l = hp !! l.
Proof.
  intros Hs Ht.
  destruct (prune_tree_ok w ps ds Hs) as (h2 & Hrun1 & Hok1 & Hc1 & _).
  set (r1 := List.length (w_heap w)) in *.
  set (w1 := World h2 (w_files w) (w_stdout w)) in *.
  destruct (prune_tree_ok w1 pt dt Ht) as (h4 & Hrun2 & Hok2 & Hc2 & Hold2).
  cbn [w_heap w_files w_stdout w1] in Hrun2, Hok2, Hc2, Hold2.
  set (r2 := List.length h2) in *.
  destruct (Hold2 r1 Hok1) as [Hok1' Hc1']. rewrite Hc1 in Hc1'.
  destruct (extract_elements_result false (root_name po) r1 r2 h4 Hok1' Hok2)
    as (h5 & Hrun3 & Hlen5 & Hsame5 & Hroot5 & Hnew5 & Hout5).
  cbv zeta in Hrun3, Hlen5, Hsame5, Hroot5, Hnew5, Hout5.
  rewrite Hc1', Hc2 in Hlen5, Hroot5, Hnew5, Hout5.
  set (out := List.length h4) in *.
  set (es := delta_children false (registry EXTRACT_CHILD)
               (pruned_children false ds) (pruned_children false dt)) in *.
  set (a := Header (clark SF_URI (root_name po)) [] None None) in *.
  exists r1, r2, h4, out.
  assert ((s <~ main_prune_source ps ;; t <~ main_prune_target pt ;; io_ret (s, t)) w
          = (Ok (r1, r2), World h4 (w_files w) (w_stdout w))) as Hstage.
  { unfold io_bind at 1. rewrite (main_prune_source_ok _ _ _ _ Hrun1).
    unfold io_bind at 1. rewrite (main_prune_target_ok _ _ _ _ Hrun2). reflexivity. }
  assert (∃ h', document_of h' out = Some (main_document po ds dt)
                ∧ main (Some ps) (Some pt) (Some po) w
                  = (if fs_writable (w_files w) po
                     then (Ok 0%Z, World h' (<[po := Written (main_document po ds dt)]>
                                               (w_files w)) (w_stdout w))
                     else (Raise IOError, World h' (w_files w) (w_stdout w)))
                ∧ ∀ l, l < out -> h' !! l = h4 !! l) as (h' & Hdoc & Hmain & Hframe);
    [|exists h'; done].
  unfold main. unfold io_bind at 1. cbn [main_check_values io_ret].
  unfold io_bind at 1. rewrite (main_prune_source_ok _ _ _ _ Hrun1).
  unfold io_bind at 1. rewrite (main_prune_target_ok _ _ _ _ Hrun2).
  unfold io_bind at 1. unfold lift at 1. cbn [w_heap w_files w_stdout].
  rewrite Hrun3. unfold main_document. fold es a.
  destruct (is_profile po) eqn:Hprof; cbn [negb].
  - exists h5.
    assert (document_of h5 out = Some (Element a (es ++ []))) as Hdoc.
    { rewrite (document_of_root _ _ _ _ Hroot5), Hout5, app_nil_r. reflexivity. }
    split; [exact Hdoc|]. split; [|exact Hsame5].
    unfold io_bind, io_ret, save_tree. cbn [w_heap w_files w_stdout].
    rewrite Hdoc. by destruct (fs_writable (w_files w) po).
  - destruct (label_step h5 out a (seq (S out) (List.length es)) Hroot5)
      as (h6 & Hrun4 & Hroot6 & Hlab6 & Hsame6).
    { intros k Hk%list_elem_of_In%in_seq. lia. }
    exists h6.
    assert (document_of h6 out = Some (Element a (es ++ [label_element]))) as Hdoc.
    { rewrite (document_of_root _ _ _ _ Hroot6).
      assert (children_of h6 out = es ++ [label_element]) as ->; [|reflexivity].
      unfold children_of at 1, kids_of. rewrite Hroot6, omap_app.
      f_equal.
      + transitivity (omap (elem_at h5) (seq (S out) (List.length es))).
        * apply omap_same. intros k Hk%list_elem_of_In%in_seq.
          unfold elem_at. rewrite Hsame6; [done|lia|lia].
        * pose proof Hout5 as Hout5'. unfold children_of, kids_of in Hout5'.
          by rewrite Hroot5 in Hout5'.
      + csimpl. unfold elem_at. by rewrite Hlab6. }
    split; [exact Hdoc|]. split.
    2:{ intros l Hl. rewrite Hsame6 by lia. by apply Hsame5. }
    unfold io_bind at 1. unfold lift. cbn [w_heap w_files w_stdout].
    rewrite Hrun4. unfold io_bind, io_ret, save_tree. cbn [w_heap w_files w_stdout].
    rewrite Hdoc. by destruct (fs_writable (w_files w) po).
Qed.

(** Writing one path leaves what every other path holds. *)
Lemma files_lookup_insert (fs : filesystem) path f :
  (<[path := f]> fs) !! path = Some f.
Proof. unfold lookup, insert, filesystem_lookup, filesystem_insert. simpl. apply lookup_insert_eq. Qed.

Lemma files_lookup_insert_ne (fs : filesystem) path path' f :
  path ≠ path' -> (<[path := f]> fs) !! path' = fs !! path'.
Proof.
  intros Hne. unfold lookup, insert, filesystem_lookup, filesystem_insert. simpl.
  by apply lookup_insert_ne.
Qed.

(** When the target file is not well-formed XML, the exception escapes
    in the same way, after the source was read; nothing was printed or
    written. *)
Lemma malformed_target_escapes w ps pt po ds :
  w_files w !! ps = Some (WellFormed ds) ->
  w_files w !! pt = Some Malformed ->
  ∃ h', main (Some ps) (Some pt) (Some po) w
        = (Raise XMLSyntaxError, World h' (w_files w) (w_stdout w)).
Proof.
  intros Hs Ht.
  destruct (prune_tree_ok w ps ds Hs) as (h2 & Hrun1 & _).
  exists h2. unfold main. unfold io_bind at 1. cbn [main_check_values io_ret].
  unfold io_bind at 1. rewrite (main_prune_source_ok _ _ _ _ Hrun1).
  unfold io_bind at 1, main_prune_target, try_except_IOError, prune_tree.
  unfold io_bind at 1, etree_parse. cbn [w_files]. rewrite Ht. reflexivity.
Qed.

(** ** Paths *)

Lemma prefix_refl s : String.prefix s s = true.
Proof.
  induction s as [|c s IH]; [reflexivity|]. simpl.
  destruct (Ascii.ascii_dec c c); [done|congruence].
Qed.

Lemma ends_with_str_in suffix s :
  ends_with suffix s = true -> str_in suffix s = true.
Proof.
  induction s as [|c s IH]; cbn [ends_with str_in].
  - rewrite !orb_false_r. intros <-%String.eqb_eq. reflexivity.
  - intros [<-%String.eqb_eq|H]%orb_prop.
    + by rewrite prefix_refl.
    + rewrite (IH H). apply orb_true_r.
Qed.

(** No element that an extraction copies in production mode is a bare
    [label]: their tags are in the Salesforce namespace. *)
Lemma delta_children_no_label fg S T :
  List.filter (has_tag "label") (delta_children false fg S T) = [].
Proof.
  apply filter_none. intros e (fam & key & _ & _ & Hsel)%elem_of_delta_children.
  apply selected_spec in Hsel as [Ht%has_tag_eq _].
  unfold has_tag. rewrite Ht. reflexivity.
Qed.

(** ** The frame of the extraction, and what [main] writes *)

(** C8. On sound (pruned or not) source and target documents,
    [fetch_elements] and [diff_elements] return the store they were
    given, and [extract_elements] changes no cell of it: the output root
    is a new object, its children are new objects, and the source and the
    target keep their children, with their contents.  At the end of a
    run of [main] the store holds every cell that pruning left, as
    pruning left it; when the output path can be opened for writing
    [main] returns 0 and has written one file, the output path, leaving
    every other path as it was, and when it cannot the [IOError] of
    [save_tree] leaves [main] and no file is written. *)
Theorem extraction_frame tm name h src tgt :
  doc_ok h src = true -> doc_ok h tgt = true ->
  (∀ fam key, (fam, key) ∈ registry FETCH_CHILD ->
     (∃ S, fetch_elements src fam tm h = Ok (S, h))
     ∧ (∃ T, fetch_elements tgt fam tm h = Ok (T, h))
     ∧ (∃ D, diff_elements src tgt fam tm h = Ok (D, h)))
  ∧ ∃ h', extract_elements src tgt name tm h = Ok (Some (List.length h), h')
          ∧ h !! List.length h = None
          ∧ (∀ l, l < List.length h -> h' !! l = h !! l)
          ∧ (∀ k, k ∈ kids_of h' (List.length h) ->
                  List.length h < k ∧ parent_of h' k = Some (List.length h))
          ∧ kids_of h' src = kids_of h src ∧ children_of h' src = children_of h src
          ∧ kids_of h' tgt = kids_of h tgt ∧ children_of h' tgt = children_of h tgt
          ∧ doc_ok h' src = true ∧ doc_ok h' tgt = true
          ∧ ∀ w ps pt po ds dt,
              w_files w !! ps = Some (WellFormed ds) ->
              w_files w !! pt = Some (WellFormed dt) ->
              ∃ source_root target_root hp hw root d,
                (s <~ main_prune_source ps ;; t <~ main_prune_target pt ;; io_ret (s, t)) w
                = (Ok (source_root, target_root), World hp (w_files w) (w_stdout w))
                ∧ doc_ok hp source_root = true ∧ doc_ok hp target_root = true
                ∧ (∀ l, l < List.length hp -> hw !! l = hp !! l)
                ∧ document_of hw root = Some d
                ∧ (fs_writable (w_files w) po = true ->
                   main (Some ps) (Some pt) (Some po) w
                   = (Ok 0%Z, World hw (<[po := Written d]> (w_files w)) (w_stdout w))
                   ∧ ∀ path, path ≠ po ->
                       (<[po := Written d]> (w_files w)) !! path = w_files w !! path)
                ∧ (fs_writable (w_files w) po = false ->
                   main (Some ps) (Some pt) (Some po) w
                   = (Raise IOError, World hw (w_files w) (w_stdout w))).
Proof.
  intros Hs Ht. split.
  - intros fam key Hin.
    pose proof (registry_entry _ _ registry_fetch_ok Hin) as Hent.
    pose proof (doc_ok_is_root _ _ Hs) as Hrs.
    pose proof (doc_ok_is_root _ _ Ht) as Hrt.
    split; [|split]; eexists.
    + by apply fetch_elements_spec.
    + by apply fetch_elements_spec.
    + by apply diff_elements_spec.
  - destruct (extract_elements_result tm name src tgt h Hs Ht)
      as (h' & Hrun & _ & Hsame & Hroot & Hnew & _).
    destruct (doc_ok_same h h' src Hsame Hs) as (Hs' & Hcs & Hks).
    destruct (doc_ok_same h h' tgt Hsame Ht) as (Ht' & Hct & Hkt).
    exists h'. split; [done|]. split; [by apply lookup_ge_None|].
    split; [done|]. split; [|split_and!; try done].
    2:{ intros w ps pt po ds dt Hfs Hft.
        destruct (main_spec w ps pt po ds dt Hfs Hft)
          as (sr & tr & hp & root & hw & Hstage & Hoks & Hokt & Hdoc & Hmain & Hkeep).
        exists sr, tr, hp, hw, root, (main_document po ds dt).
        split_and!; try done.
        - intros Hw. rewrite Hw in Hmain. split; [done|].
          intros path Hne. by apply files_lookup_insert_ne.
        - intros Hw. by rewrite Hw in Hmain. }
    intros k Hk. unfold kids_of in Hk. rewrite Hroot in Hk.
    apply list_elem_of_In, in_seq in Hk. split; [lia|].
    set (es := delta_children tm (registry EXTRACT_CHILD)
                 (children_of h src) (children_of h tgt)) in *.
    destruct (lookup_lt_is_Some_2 es (k - S (List.length h)) ltac:(lia)) as [e He].
    specialize (Hnew _ _ He).
    replace (S (List.length h) + (k - S (List.length h))) with k in Hnew by lia.
    unfold parent_of. by rewrite Hnew.
Qed.

(** C6, as the code has it. On two well-formed inputs the output
    document, the tree that [main] builds and hands to [save_tree], has
    the root [Profile] and no [label] child when the output path contains
    ".profile" (as every path that ends in ".profile" does), and the root
    [PermissionSet] with exactly one [label] child reading "Community Hub
    Guest" when the output path does not contain ".profile".  When the
    output path can be opened for writing [main] returns 0 and the file
    holds the serialisation of that tree; when it cannot, the [IOError]
    of [save_tree] leaves [main] and no file is written. *)
Theorem output_root_and_label w ps pt po ds dt :
  w_files w !! ps = Some (WellFormed ds) ->
  w_files w !! pt = Some (WellFormed dt) ->
  ∃ h' root d,
    document_of h' root = Some d
    ∧ (fs_writable (w_files w) po = true ->
       main (Some ps) (Some pt) (Some po) w
       = (Ok 0%Z, World h' (<[po := Written d]> (w_files w)) (w_stdout w)))
    ∧ (fs_writable (w_files w) po = false ->
       main (Some ps) (Some pt) (Some po) w
       = (Raise IOError, World h' (w_files w) (w_stdout w)))
    ∧ (is_profile po = true ->
       tag d = clark SF_URI "Profile"
       ∧ List.filter (has_tag "label") (children d) = [])
    ∧ (is_profile po = false ->
       tag d = clark SF_URI "PermissionSet"
       ∧ List.filter (has_tag "label") (children d) = [label_element])
    ∧ (ends_with ".profile" po = true -> is_profile po = true).
Proof.
  intros Hs Ht.
  destruct (main_spec w ps pt po ds dt Hs Ht)
    as (_ & _ & _ & root & h' & _ & _ & _ & Hdoc & Hmain & _).
  exists h', root, (main_document po ds dt). split; [exact Hdoc|].
  split; [by intros Hw; rewrite Hw in Hmain|].
  split; [by intros Hw; rewrite Hw in Hmain|].
  unfold main_document, root_name, tag. cbn [hd children h_tag].
  split; [|split].
  - intros ->. split; [reflexivity|].
    by rewrite app_nil_r, delta_children_no_label.
  - intros ->. split; [reflexivity|].
    by rewrite List.filter_app, delta_children_no_label.
  - apply ends_with_str_in.
Qed.

(** When the source file is missing, [main] prints the path and exits
    with status 1, having written nothing. *)
Lemma missing_source_exits w ps pt po :
  w_files w !! ps = None ->
  main (Some ps) (Some pt) (Some po) w
  = (Raise (SystemExit 1),
     World (w_heap w) (w_files w) (w_stdout w ++ [ps +:+ " is not available."])).
Proof.
  intros Hfile. unfold main. unfold io_bind at 1. cbn [main_check_values io_ret].
  unfold io_bind at 1, main_prune_source, try_except_IOError, prune_tree.
  unfold io_bind at 1, etree_parse. rewrite Hfile. reflexivity.
Qed.

(** C9, on the code. When the source file exists and is not well-formed
    XML, the [XMLSyntaxError] that the parser raises is not an [IOError]:
    the handler of [main_prune_source] does not catch it, no path is
    printed, and the exception leaves [main] and reaches the interpreter.
    Nothing is written and the status is 1. *)
Theorem malformed_document_escapes w ps pt po :
  w_files w !! ps = Some Malformed ->
  main (Some ps) (Some pt) (Some po) w = (Raise XMLSyntaxError, w)
  ∧ unhandled (fst (main (Some ps) (Some pt) (Some po) w)) = true
  ∧ exit_status (fst (main (Some ps) (Some pt) (Some po) w)) = 1%Z.
Proof.
  intros Hfile.
  assert (main (Some ps) (Some pt) (Some po) w = (Raise XMLSyntaxError, w)) as ->.
  { unfold main. unfold io_bind at 1. cbn [main_check_values io_ret].
    unfold io_bind at 1, main_prune_source, try_except_IOError, prune_tree.
    unfold io_bind at 1, etree_parse. rewrite Hfile. reflexivity. }
  done.
Qed.

(** ** The theorems at concrete documents *)

(** The run of the specification's scenario: the delta of the two
    profiles of the doctests holds the one class that the target adds
    and grants. *)
Example main_writes_the_delta :
  w_files (snd (main (Some "8/Admin.profile") (Some "9/Admin.profile")
                  (Some "out/Admin.profile") example_world)) !! "out/Admin.profile"
  = Some (Written (profile_of [ns_class_access "AccountHierarchyBuilder" "true"])).
Proof. vm_compute. reflexivity. Qed.

(** The same run with an output path in a directory that does not
    exist: [open] raises [IOError], nothing handles it, and no file is
    written. *)
Example main_cannot_write_the_delta :
  fst (main (Some "8/Admin.profile") (Some "9/Admin.profile")
         (Some "missing/Admin.profile") example_world) = Raise IOError
  ∧ w_stdout (snd (main (Some "8/Admin.profile") (Some "9/Admin.profile")
                     (Some "missing/Admin.profile") example_world)) = []
  ∧ w_files (snd (main (Some "8/Admin.profile") (Some "9/Admin.profile")
                    (Some "missing/Admin.profile") example_world))
    = w_files example_world.
Proof. vm_compute. done. Qed.

Lemma prune_exact_string_policy_witness :
  ∃ h', prune_elements 0 true example_store = Ok (0, h')
        ∧ (reads_false_or_None (qualify true "enabled")
             (class_access "ARTransactionsTest" "false")
           -> (1 ∉ kids_of h' 0) ∧ parent_of h' 1 = None)
        ∧ (¬ reads_false_or_None (qualify true "enabled")
               (class_access "ARTransactionsTest" "false")
           -> 1 ∈ kids_of h' 0 ∧ parent_of h' 1 = Some 0
              ∧ h' !! 1 = example_store !! 1)
        ∧ (1 ∉ kids_of h' 0
           <-> reads_false_or_None (qualify true "enabled")
                 (class_access "ARTransactionsTest" "false")).
Proof.
  apply (prune_exact_string_policy true example_store 0 "classAccesses" "enabled" 1
           (class_access "ARTransactionsTest" "false")).
  - vm_compute. reflexivity.
  - by_computation.
  - by_computation.
  - vm_compute. reflexivity.
  - vm_compute. reflexivity.
Defined.

Lemma prune_idempotent_witness :
  ∃ h', prune_elements 0 true example_store = Ok (0, h')
        ∧ prune_elements 0 true h' = Ok (0, h').
Proof.
  apply (prune_idempotent true example_store 0). vm_compute. reflexivity.
Defined.

Lemma layout_assignments_survive_witness :
  ∃ h', prune_elements 0 false layout_store = Ok (0, h')
        ∧ (¬ reads_false_or_None (qualify false "None")
               (Element (Header (clark SF_URI "layoutAssignments") [] None None)
                  [ns_leaf "layout" "Account-Account Layout";
                   ns_leaf "recordType" "Account.Business_Account"]) ->
           1 ∈ kids_of h' 0 ∧ parent_of h' 1 = Some 0 ∧ h' !! 1 = layout_store !! 1)
        ∧ (reads_false_or_None (qualify false "None")
             (Element (Header (clark SF_URI "layoutAssignments") [] None None)
                [ns_leaf "layout" "Account-Account Layout";
                 ns_leaf "recordType" "Account.Business_Account"]) ->
           (1 ∉ kids_of h' 0) ∧ parent_of h' 1 = None).
Proof.
  apply (layout_assignments_survive false layout_store 0 1
           (Element (Header (clark SF_URI "layoutAssignments") [] None None)
              [ns_leaf "layout" "Account-Account Layout";
               ns_leaf "recordType" "Account.Business_Account"])).
  - vm_compute. reflexivity.
  - by_computation.
  - vm_compute. reflexivity.
  - vm_compute. reflexivity.
Defined.

(** C7, as stated, fails: a [layoutAssignments] element with a child
    named [None] whose text is not "false" can still be removed, when
    that text is "None". *)
Lemma layout_assignments_removed :
  ¬ (∀ tm h r p e,
       doc_ok h r = true -> p ∈ kids_of h r -> elem_at h p = Some e ->
       has_tag (qualify tm "layoutAssignments") e = true ->
       field_text (qualify tm "None") e ≠ Some "false" ->
       ∃ h', prune_elements r tm h = Ok (r, h') ∧ p ∈ kids_of h' r).
Proof.
  intros H.
  destruct (H false layout_store 0 2
              (Element (Header (clark SF_URI "layoutAssignments") [] None None)
                 [ns_leaf "layout" "Case-Case Layout"; ns_leaf "None" "None"]))
    as (h' & Hrun & Hin).
  - vm_compute. reflexivity.
  - by_computation.
  - vm_compute. reflexivity.
  - vm_compute. reflexivity.
  - vm_compute. discriminate.
  - vm_compute in Hrun. injection Hrun as <-.
    apply (bool_decide_pack _) in Hin. vm_compute in Hin. exact Hin.
Qed.

(** The document that this pruning leaves. *)
Example layout_document_pruned :
  printed (r <- load layout_document ;; prune_elements r false)
  = Some (Element (Header (clark SF_URI "Profile") [] None None)
            [ Element (Header (clark SF_URI "layoutAssignments") [] None None)
                [ns_leaf "layout" "Account-Account Layout";
                 ns_leaf "recordType" "Account.Business_Account"] ]).
Proof. vm_compute. reflexivity. Qed.

Lemma diff_is_set_difference_witness :
  ∃ S T : gset string,
    fetch_elements 0 "classAccesses" true example_store = Ok (S, example_store)
    ∧ fetch_elements 3 "classAccesses" true example_store = Ok (T, example_store)
    ∧ diff_elements 0 3 "classAccesses" true example_store = Ok (T ∖ S, example_store)
    ∧ (∀ x, x ∈ T ∖ S
            <-> (∃ e, e ∈ children_of example_store 3
                      ∧ keyed true "classAccesses" "apexClass" x e = true)
                ∧ ¬ (∃ e, e ∈ children_of example_store 0
                          ∧ keyed true "classAccesses" "apexClass" x e = true))
    ∧ (S ⊆ T -> S ∪ (T ∖ S) = T ∧ S ## T ∖ S).
Proof.
  apply (diff_is_set_difference true example_store 0 3 "classAccesses" "apexClass").
  - by_computation.
  - vm_compute. reflexivity.
  - vm_compute. reflexivity.
Defined.

Lemma extract_exclusivity_witness :
  ∃ h' (S : gset string),
    extract_elements 0 3 "Profile" true example_store
    = Ok (Some (List.length example_store), h')
    ∧ fetch_elements 0 "classAccesses" true example_store = Ok (S, example_store)
    ∧ fetch_elements 0 "classAccesses" true h' = Ok (S, h')
    ∧ ∀ e x, e ∈ children_of h' (List.length example_store) ->
             keyed true "classAccesses" "apexClass" x e = true -> x ∉ S.
Proof.
  apply (extract_exclusivity true "Profile" example_store 0 3 "classAccesses" "apexClass").
  - vm_compute. reflexivity.
  - vm_compute. reflexivity.
  - by_computation.
Defined.

Lemma extract_completeness_witness :
  ∃ h' (delta : gset string),
    diff_elements 0 3 "classAccesses" true example_store = Ok (delta, example_store)
    ∧ extract_elements 0 3 "Profile" true example_store
      = Ok (Some (List.length example_store), h')
    ∧ (∀ x, x ∈ delta ->
         List.filter (keyed true "classAccesses" "apexClass" x)
           (children_of h' (List.length example_store))
         = List.filter (keyed true "classAccesses" "apexClass" x)
             (children_of example_store 3)
         ∧ (1 ≤ List.length (List.filter (keyed true "classAccesses" "apexClass" x)
                               (children_of example_store 3)))%nat)
    ∧ (∀ k, k ∈ kids_of h' (List.length example_store) -> List.length example_store < k)
    ∧ kids_of h' 3 = kids_of example_store 3
    ∧ children_of h' 3 = children_of example_store 3.
Proof.
  apply (extract_completeness true "Profile" example_store 0 3 "classAccesses" "apexClass").
  - vm_compute. reflexivity.
  - vm_compute. reflexivity.
  - by_computation.
Defined.

(** C1, as stated, fails: when the target assigns one layout to two
    record types, the output holds two elements keyed by that layout,
    not one. *)
Lemma extract_copies_duplicates :
  ¬ (∀ tm name h src tgt fam key x h' (delta : gset string),
       doc_ok h src = true -> doc_ok h tgt = true ->
       (fam, key) ∈ registry EXTRACT_CHILD ->
       diff_elements src tgt fam tm h = Ok (delta, h) -> x ∈ delta ->
       extract_elements src tgt name tm h = Ok (Some (List.length h), h') ->
       List.length (List.filter (keyed tm fam key x) (children_of h' (List.length h))) = 1).
Proof.
  intros H.
  specialize (H true "Profile" duplicate_store 0 1 "layoutAssignments" "layout"
                "Account-Account Layout"
                (store_of (fun _ => extract_elements 0 1 "Profile" true duplicate_store))
                {[ "Account-Account Layout" ]}).
  assert (2 = 1) as Habs; [|discriminate Habs].
  apply H.
  - vm_compute. reflexivity.
  - vm_compute. reflexivity.
  - by_computation.
  - vm_compute. reflexivity.
  - by_computation.
  - vm_compute. reflexivity.
Qed.

(** Both copies are whole: the output of that run. *)
Example duplicate_layouts_are_both_copied :
  printed (fun _ => match extract_elements 0 1 "Profile" true duplicate_store with
                    | Ok (Some out, h') => Ok (out, h')
                    | _ => Raise OutOfModel
                    end)
  = Some (profile_of
            [layout_assignment "Account-Account Layout" "Account.Business_Account";
             layout_assignment "Account-Account Layout" "Account.Person_Account"]).
Proof. vm_compute. reflexivity. Qed.

Lemma extraction_frame_witness :
  (∀ fam key, (fam, key) ∈ registry FETCH_CHILD ->
     (∃ S, fetch_elements 0 fam true example_store = Ok (S, example_store))
     ∧ (∃ T, fetch_elements 3 fam true example_store = Ok (T, example_store))
     ∧ (∃ D, diff_elements 0 3 fam true example_store = Ok (D, example_store)))
  ∧ ∃ h', extract_elements 0 3 "Profile" true example_store
          = Ok (Some (List.length example_store), h')
          ∧ example_store !! List.length example_store = None
          ∧ (∀ l, l < List.length example_store -> h' !! l = example_store !! l)
          ∧ (∀ k, k ∈ kids_of h' (List.length example_store) ->
                  List.length example_store < k
                  ∧ parent_of h' k = Some (List.length example_store))
          ∧ kids_of h' 0 = kids_of example_store 0
          ∧ children_of h' 0 = children_of example_store 0
          ∧ kids_of h' 3 = kids_of example_store 3
          ∧ children_of h' 3 = children_of example_store 3
          ∧ doc_ok h' 0 = true ∧ doc_ok h' 3 = true
          ∧ ∀ w ps pt po ds dt,
              w_files w !! ps = Some (WellFormed ds) ->
              w_files w !! pt = Some (WellFormed dt) ->
              ∃ source_root target_root hp hw root d,
                (s <~ main_prune_source ps ;; t <~ main_prune_target pt ;; io_ret (s, t)) w
                = (Ok (source_root, target_root), World hp (w_files w) (w_stdout w))
                ∧ doc_ok hp source_root = true ∧ doc_ok hp target_root = true
                ∧ (∀ l, l < List.length hp -> hw !! l = hp !! l)
                ∧ document_of hw root = Some d
                ∧ (fs_writable (w_files w) po = true ->
                   main (Some ps) (Some pt) (Some po) w
                   = (Ok 0%Z, World hw (<[po := Written d]> (w_files w)) (w_stdout w))
                   ∧ ∀ path, path ≠ po ->
                       (<[po := Written d]> (w_files w)) !! path = w_files w !! path)
                ∧ (fs_writable (w_files w) po = false ->
                   main (Some ps) (Some pt) (Some po) w
                   = (Raise IOError, World hw (w_files w) (w_stdout w))).
Proof.
  apply (extraction_frame true "Profile" example_store 0 3).
  - vm_compute. reflexivity.
  - vm_compute. reflexivity.
Defined.

Lemma traversal_skips_witness :
  (∀ R (strategy : FindElements R) fam c me,
     (fam, c) ∈ registry FETCH_CHILD ∨ (fam, c) ∈ registry PRUNE_CHILD ->
     child_missing (qualify true c)
       (Element (Header "classAccesses" [] None None)
          [Element (Header "enabled" [] None None) []])
     ∨ child_null (qualify true c)
         (Element (Header "classAccesses" [] None None)
            [Element (Header "enabled" [] None None) []]) ->
     do_step strategy (namespace_prepend c true) (namespace_declare true) me 1 keyless_store
     = Ok (me, keyless_store))
  ∧ (∀ fam key,
       (fam, key) ∈ registry FETCH_CHILD ->
       child_missing (qualify true key)
         (Element (Header "classAccesses" [] None None)
            [Element (Header "enabled" [] None None) []])
       ∨ child_null (qualify true key)
           (Element (Header "classAccesses" [] None None)
              [Element (Header "enabled" [] None None) []]) ->
       fetch_elements 0 fam true keyless_store
       = Ok (names_of true fam key
               (omap (elem_at keyless_store) (drop_kid 1 (kids_of keyless_store 0))),
             keyless_store))
  ∧ (∀ fam gate,
       (fam, gate) ∈ registry PRUNE_CHILD ->
       has_tag (qualify true fam)
         (Element (Header "classAccesses" [] None None)
            [Element (Header "enabled" [] None None) []]) = true ->
       child_missing (qualify true gate)
         (Element (Header "classAccesses" [] None None)
            [Element (Header "enabled" [] None None) []])
       ∨ child_null (qualify true gate)
           (Element (Header "classAccesses" [] None None)
              [Element (Header "enabled" [] None None) []]) ->
       ∃ h', prune_elements 0 true keyless_store = Ok (0, h')
             ∧ 1 ∈ kids_of h' 0 ∧ h' !! 1 = keyless_store !! 1)
  ∧ (∀ fam key src name,
       (fam, key) ∈ registry EXTRACT_CHILD ->
       has_tag (qualify true fam)
         (Element (Header "classAccesses" [] None None)
            [Element (Header "enabled" [] None None) []]) = true ->
       child_missing (qualify true key)
         (Element (Header "classAccesses" [] None None)
            [Element (Header "enabled" [] None None) []])
       ∨ child_null (qualify true key)
           (Element (Header "classAccesses" [] None None)
              [Element (Header "enabled" [] None None) []]) ->
       doc_ok keyless_store src = true ->
       ∃ h', extract_elements src 0 name true keyless_store
             = Ok (Some (List.length keyless_store), h')
             ∧ (Element (Header "classAccesses" [] None None)
                  [Element (Header "enabled" [] None None) []]
                ∉ children_of h' (List.length keyless_store))
             ∧ h' !! 1 = keyless_store !! 1).
Proof.
  apply (traversal_skips true keyless_store 0 1
           (Element (Header "classAccesses" [] None None)
              [Element (Header "enabled" [] None None) []])).
  - vm_compute. reflexivity.
  - by_computation.
  - vm_compute. reflexivity.
Defined.

(** The element of [keyless_store] without a key and without a gate
    text, under the three operations. *)
Example keyless_element_is_skipped :
  value_of (load (profile_of
              [ Element (Header "classAccesses" [] None None)
                  [Element (Header "enabled" [] None None) []];
                class_access "AccountAddressManager" "true" ]) ;;;
            fetch_elements 0 "classAccesses" true)
  = Some {[ "AccountAddressManager" ]}
  ∧ (∃ h', prune_elements 0 true keyless_store = Ok (0, h') ∧ kids_of h' 0 = [1; 2])
  ∧ (∃ h', extract_elements 0 0 "Profile" true keyless_store = Ok (Some 3, h')
           ∧ children_of h' 3 = []).
Proof.
  split; [vm_compute; reflexivity|]. split; eexists; split; vm_compute; reflexivity.
Qed.

Lemma output_root_and_label_witness :
  ∃ h' root d,
    document_of h' root = Some d
    ∧ (fs_writable (w_files example_world) "out/Guest.permissionset" = true ->
       main (Some "8/Admin.profile") (Some "9/Admin.profile")
         (Some "out/Guest.permissionset") example_world
       = (Ok 0%Z, World h' (<[ "out/Guest.permissionset" := Written d]>
                              (w_files example_world))
                    (w_stdout example_world)))
    ∧ (fs_writable (w_files example_world) "out/Guest.permissionset" = false ->
       main (Some "8/Admin.profile") (Some "9/Admin.profile")
         (Some "out/Guest.permissionset") example_world
       = (Raise IOError, World h' (w_files example_world) (w_stdout example_world)))
    ∧ (is_profile "out/Guest.permissionset" = true ->
       tag d = clark SF_URI "Profile"
       ∧ List.filter (has_tag "label") (children d) = [])
    ∧ (is_profile "out/Guest.permissionset" = false ->
       tag d = clark SF_URI "PermissionSet"
       ∧ List.filter (has_tag "label") (children d) = [label_element])
    ∧ (ends_with ".profile" "out/Guest.permissionset" = true ->
       is_profile "out/Guest.permissionset" = true).
Proof.
  apply (output_root_and_label example_world "8/Admin.profile" "9/Admin.profile"
           "out/Guest.permissionset"
           (profile_of [ns_class_access "ARTransactionsTest" "false";
                        ns_class_access "AccountAddressManager" "true"])
           (profile_of [ns_class_access "ARTransactionsTest" "false";
                        ns_class_access "AccountAddressManager" "true";
                        ns_class_access "AccountHierarchyBuilder" "true";
                        ns_class_access "TransactionTestData" "false"])).
  - vm_compute. reflexivity.
  - vm_compute. reflexivity.
Defined.

(** C6, as stated, fails: an output path that ends in ".permissionset"
    and contains ".profile" gets a [Profile] root and no label, in the
    tree that is serialised to the file. *)
Lemma permissionset_path_with_profile_inside :
  ¬ (∀ w ps pt po ds dt h' d,
       w_files w !! ps = Some (WellFormed ds) ->
       w_files w !! pt = Some (WellFormed dt) ->
       main (Some ps) (Some pt) (Some po) w
       = (Ok 0%Z, World h' (<[po := Written d]> (w_files w)) (w_stdout w)) ->
       (ends_with ".profile" po = true ->
        tag d = clark SF_URI "Profile"
        ∧ List.filter (has_tag "label") (children d) = [])
       ∧ (ends_with ".permissionset" po = true ∨ is_profile po = false ->
          tag d = clark SF_URI "PermissionSet"
          ∧ List.filter (has_tag "label") (children d) = [label_element])).
Proof.
  intros H.
  set (ds := profile_of [ns_class_access "ARTransactionsTest" "false";
                         ns_class_access "AccountAddressManager" "true"]).
  set (dt := profile_of [ns_class_access "ARTransactionsTest" "false";
                         ns_class_access "AccountAddressManager" "true";
                         ns_class_access "AccountHierarchyBuilder" "true";
                         ns_class_access "TransactionTestData" "false"]).
  assert (w_files example_world !! "8/Admin.profile" = Some (WellFormed ds)) as Hs
    by (vm_compute; reflexivity).
  assert (w_files example_world !! "9/Admin.profile" = Some (WellFormed dt)) as Ht
    by (vm_compute; reflexivity).
  destruct (main_spec example_world "8/Admin.profile" "9/Admin.profile"
              "delta.profiles/Guest.permissionset" ds dt Hs Ht)
    as (_ & _ & _ & _ & h' & _ & _ & _ & _ & Hmain & _).
  change (fs_writable (w_files example_world) "delta.profiles/Guest.permissionset")
    with true in Hmain.
  destruct (H example_world "8/Admin.profile" "9/Admin.profile"
              "delta.profiles/Guest.permissionset" ds dt h'
              (main_document "delta.profiles/Guest.permissionset" ds dt) Hs Ht Hmain)
    as [_ Hset].
  destruct Hset as [Htag _]; [left; vm_compute; reflexivity|].
  vm_compute in Htag. discriminate Htag.
Qed.

Lemma malformed_document_escapes_witness :
  main (Some "broken/Admin.profile") (Some "9/Admin.profile") (Some "out/Admin.profile")
    example_world = (Raise XMLSyntaxError, example_world)
  ∧ unhandled (fst (main (Some "broken/Admin.profile") (Some "9/Admin.profile")
                      (Some "out/Admin.profile") example_world)) = true
  ∧ exit_status (fst (main (Some "broken/Admin.profile") (Some "9/Admin.profile")
                        (Some "out/Admin.profile") example_world)) = 1%Z.
Proof.
  apply (malformed_document_escapes example_world "broken/Admin.profile"
           "9/Admin.profile" "out/Admin.profile").
  vm_compute. reflexivity.
Defined.

(** * More of the code *)

(** ** Pruning, in full *)

Lemma pruned_to_unique r D h h1 h2 :
  pruned_to r D h h1 -> pruned_to r D h h2 -> h1 = h2.
Proof.
  intros (_ & Hr1 & Hl1) (_ & Hr2 & Hl2). apply list_eq. intros i.
  destruct (decide (i = r)) as [->|Hne].
  - by rewrite Hr1, Hr2.
  - by rewrite (Hl1 i Hne), (Hl2 i Hne).
Qed.

Lemma existsb_Permutation {A} (f : A -> bool) l l' :
  Permutation l l' -> existsb f l = existsb f l'.
Proof.
  intros HP. apply eq_true_iff_eq. rewrite !existsb_exists.
  split; intros (x & Hin & Hx); exists x; split; try done.
  - by eapply Permutation_in.
  - eapply Permutation_in; [symmetry; exact HP|done].
Qed.

Lemma registry_families i fam c :
  (fam, c) ∈ registry i -> fam ∈ dict_keys PARENTS.
Proof.
  unfold registry, dict_keys. intros ([f cs] & Hin & Hsome)%list_elem_of_omap.
  destruct (cs !! i) as [c'|]; [|discriminate]. injection Hsome as -> ->.
  apply list_elem_of_fmap. by exists (fam, cs).
Qed.

(** X1. [prune_elements] on a sound document returns the same root
    with the children that are not [pruned], in their order and with
    their contents; it changes the content of no element, allocates
    nothing, and leaves every other document of the store with the
    children it had. *)
Theorem prune_elements_children tm h r :
  doc_ok h r = true ->
  ∃ h', prune_elements r tm h = Ok (r, h')
        ∧ children_of h' r = List.filter (fun e => negb (pruned tm e)) (children_of h r)
        ∧ doc_ok h' r = true
        ∧ List.length h' = List.length h
        ∧ (∀ l, elem_at h' l = elem_at h l)
        ∧ (∀ r1, r1 ≠ r -> doc_ok h r1 = true ->
             doc_ok h' r1 = true ∧ kids_of h' r1 = kids_of h r1
             ∧ children_of h' r1 = children_of h r1).
Proof.
  intros Hok. destruct (prune_elements_spec tm r h Hok) as (h' & Hrun & H).
  exists h'. split; [done|]. split; [by apply pruned_children_of|].
  split; [by eapply pruned_to_doc_ok|]. split; [by destruct H|].
  split; [intros l; by eapply pruned_to_elem_at|].
  intros r1 Hne Hok1.
  assert (∀ l, bool_decide (l ∈ kids_of h r) && at_elem (pruned tm) h l = true
               -> l ∈ kids_of h r) as HD.
  { intros l [Hl _]%andb_prop. by apply bool_decide_eq_true in Hl. }
  destruct (pruned_to_other r _ h h' r1 Hok Hok1 Hne HD H) as [Hok1' Hc1].
  split; [done|]. split; [|done].
  destruct H as (_ & _ & Hl). unfold kids_of. rewrite (Hl r1 Hne).
  apply doc_ok_is_root, is_root_inv in Hok1 as (a & ks & ->).
  by destruct (_ && _).
Qed.

(** X2. An element whose tag is not that of a registry family (a
    [userPermissions], which the sample output shows and [PARENTS] does
    not list) is never pruned, whatever its children say, and is never
    copied by an extraction from its document. *)
Theorem outside_registry_untouched tm h r p e :
  doc_ok h r = true -> p ∈ kids_of h r -> elem_at h p = Some e ->
  (∀ fam, fam ∈ dict_keys PARENTS -> has_tag (qualify tm fam) e = false) ->
  (∃ h', prune_elements r tm h = Ok (r, h') ∧ p ∈ kids_of h' r ∧ h' !! p = h !! p)
  ∧ (∀ src name, doc_ok h src = true ->
       ∃ h', extract_elements src r name tm h = Ok (Some (List.length h), h')
             ∧ e ∉ children_of h' (List.length h)).
Proof.
  intros Hok Hp He Hout. split.
  - destruct (prune_elements_spec tm r h Hok) as (h' & Hrun & H).
    destruct (pruned_to_child _ _ _ _ p e Hok H Hp He) as [_ Hfate].
    cbn beta in Hfate. unfold at_elem in Hfate. rewrite He in Hfate.
    assert (pruned tm e = false) as Hnot.
    { apply not_true_is_false. intros ([fam gate] & Hin & Hby)%existsb_exists.
      apply andb_prop in Hby as [Ht _].
      rewrite (Hout fam) in Ht; [discriminate|].
      eapply registry_families. apply list_elem_of_In. exact Hin. }
    rewrite Hnot, andb_false_r in Hfate. exists h'. tauto.
  - intros src name Hs.
    destruct (extract_elements_result tm name src r h Hs Hok)
      as (h' & Hrun & _ & _ & _ & _ & Hch).
    exists h'. split; [done|]. rewrite Hch.
    intros (fam & key & Hin & _ & Hsel)%elem_of_delta_children.
    apply selected_spec in Hsel as [Ht _].
    rewrite (Hout fam) in Ht; [discriminate|]. by eapply registry_families.
Qed.

(** X3. The order in which the families are visited does not matter to
    pruning: for every order of the keys of [PARENTS], the loop of
    [prune_elements] ends in the same store. *)
Theorem prune_order_irrelevant keys tm h r :
  Permutation keys (dict_keys PARENTS) -> doc_ok h r = true ->
  prune_elements_over keys r tm h = prune_elements r tm h.
Proof.
  intros HP Hok.
  change (dict_keys PARENTS) with (map fst (registry PRUNE_CHILD)) in HP.
  apply Permutation_map_inv in HP as (fg & -> & HP).
  assert (Forall (entry_ok PRUNE_CHILD) fg) as Hfg.
  { apply Forall_forall. intros x Hx.
    apply (proj1 (Forall_forall _ _) registry_prune_ok).
    by rewrite HP. }
  destruct (prune_passes tm r fg h Hfg Hok) as (h1 & Hrun1 & H1).
  destruct (prune_elements_spec tm r h Hok) as (h2 & Hrun2 & H2).
  unfold prune_elements_over. rewrite Hrun1, Hrun2. do 2 f_equal.
  refine (pruned_to_unique r _ h h1 h2 _ H2).
  eapply pruned_to_ext; [|exact H1].
  intros l. cbn beta. f_equal. unfold at_elem.
  destruct (elem_at h l) as [e|]; [|reflexivity].
  unfold pruned_in, pruned. apply existsb_Permutation. by symmetry.
Qed.

(** ** Fetching, diffing and extracting, in full *)

(** X4. A family that [PARENTS] does not list has no children entry:
    [fetch_elements] and [diff_elements] raise [TypeError] on the
    subscript of None, before they look at any document. *)
Theorem unknown_family_raises name tm s t h :
  dict_get PARENTS name = None ->
  fetch_elements s name tm h = Raise TypeError
  ∧ diff_elements s t name tm h = Raise TypeError.
Proof.
  intros Hget.
  assert (fetch_elements s name tm h = Raise TypeError) as Hs.
  { unfold fetch_elements, bind, subscript. by rewrite Hget. }
  split; [exact Hs|]. unfold diff_elements, bind. by rewrite Hs.
Qed.

(** X5. Pruning then fetching: the names fetched from a pruned document
    are the key texts of the elements of the family that pruning kept;
    a name stays as long as one element that carries it is granted. *)
Theorem fetch_after_prune tm h r fam key :
  doc_ok h r = true -> (fam, key) ∈ registry FETCH_CHILD ->
  ∃ h' (names : gset string),
    prune_elements r tm h = Ok (r, h')
    ∧ fetch_elements r fam tm h' = Ok (names, h')
    ∧ ∀ x, x ∈ names
           <-> ∃ e, e ∈ children_of h r ∧ keyed tm fam key x e = true
                    ∧ pruned tm e = false.
Proof.
  intros Hok Hin.
  pose proof (registry_entry _ _ registry_fetch_ok Hin) as Hent.
  destruct (prune_elements_spec tm r h Hok) as (h' & Hrun & H).
  pose proof (pruned_to_doc_ok _ _ _ _ Hok H) as Hok'.
  exists h', (names_of tm fam key (children_of h' r)).
  split; [done|]. split; [by apply fetch_elements_spec, doc_ok_is_root|].
  intros x. rewrite elem_of_names_of, (pruned_children_of _ _ _ _ Hok H).
  split.
  - intros (e & [He Hp]%elem_of_filter & Hk). exists e.
    by apply negb_true_iff in Hp.
  - intros (e & He & Hk & Hp). exists e. split; [|done].
    apply elem_of_filter. by rewrite Hp.
Qed.

(** X6. When the diff of every family is empty (as it is between a
    document and itself), [extract_elements] returns a bare root: the
    named root in the Salesforce namespace, without children. *)
Theorem empty_delta_bare_root tm name h src tgt :
  doc_ok h src = true -> doc_ok h tgt = true ->
  (∀ fam key, (fam, key) ∈ registry EXTRACT_CHILD ->
              diff_elements src tgt fam tm h = Ok (∅, h)) ->
  ∃ h', extract_elements src tgt name tm h = Ok (Some (List.length h), h')
        ∧ document_of h' (List.length h)
          = Some (Element (Header (clark SF_URI name) [] None None) []).
Proof.
  intros Hs Ht Hempty.
  destruct (extract_elements_result tm name src tgt h Hs Ht)
    as (h' & Hrun & _ & _ & Hroot & _ & Hch).
  exists h'. split; [done|].
  rewrite (document_of_root _ _ _ _ Hroot), Hch. do 2 f_equal.
  destruct (delta_children _ _ _ _) as [|e es] eqn:Hd; [reflexivity|].
  assert (e ∈ delta_children tm (registry EXTRACT_CHILD)
                (children_of h src) (children_of h tgt)) as He
    by (rewrite Hd; constructor).
  apply elem_of_delta_children in He as (fam & key & Hin & _ & Hsel).
  pose proof (registry_entry _ _ registry_extract_ok Hin) as Hent.
  specialize (Hempty fam key Hin).
  rewrite (diff_elements_spec tm fam key src tgt h Hent) in Hempty
    by (by apply doc_ok_is_root).
  injection Hempty as Hempty. rewrite Hempty in Hsel.
  apply selected_spec in Hsel as (_ & s & _ & Hs'). by apply not_elem_of_empty in Hs'.
Qed.

(** X7. What the output holds, exactly: an element is a child of the
    output of [extract_elements] if and only if it is a child of the
    target, of a registry family, whose key child has a text that no
    element of that family in the source has. *)
Theorem extract_membership tm name h src tgt :
  doc_ok h src = true -> doc_ok h tgt = true ->
  ∃ h', extract_elements src tgt name tm h = Ok (Some (List.length h), h')
        ∧ ∀ e, e ∈ children_of h' (List.length h)
               <-> e ∈ children_of h tgt
                   ∧ ∃ fam key x,
                       (fam, key) ∈ registry EXTRACT_CHILD
                       ∧ keyed tm fam key x e = true
                       ∧ ¬ (∃ e', e' ∈ children_of h src ∧ keyed tm fam key x e' = true).
Proof.
  intros Hs Ht.
  destruct (extract_elements_result tm name src tgt h Hs Ht)
    as (h' & Hrun & _ & _ & _ & _ & Hch).
  exists h'. split; [done|]. intros e. rewrite Hch, elem_of_delta_children.
  split.
  - intros (fam & key & Hin & He & (Htag & x & Hx & Hd)%selected_spec).
    split; [done|]. exists fam, key, x. split; [done|].
    split; [by apply keyed_spec|].
    apply elem_of_difference in Hd as [_ Hd]. by rewrite elem_of_names_of in Hd.
  - intros (He & fam & key & x & Hin & Hk & Hnot).
    exists fam, key. split; [done|]. split; [done|].
    pose proof Hk as [Htag Hx]%keyed_spec.
    apply selected_spec. split; [done|]. exists x. split; [done|].
    apply elem_of_difference. rewrite !elem_of_names_of. eauto.
Qed.

Lemma filter_family_delta tm S T fam key :
  ∀ fg, NoDup (map fst fg) -> (fam, key) ∈ fg ->
        List.filter (has_tag (qualify tm fam)) (delta_children tm fg S T)
        = List.filter (selected tm fam key
                         (names_of tm fam key T ∖ names_of tm fam key S)) T.
Proof.
  induction fg as [|[f k] fg IH]; intros Hnd Hin.
  - by apply elem_of_nil in Hin.
  - pose proof Hnd as Hnd0.
    cbn [map fst] in Hnd. apply NoDup_cons in Hnd as [Hf Hnd].
    cbn [delta_children flat_map]. rewrite List.filter_app, filter_and.
    fold (delta_children tm fg S T).
    destruct (decide (f = fam)) as [->|Hne].
    + assert (k = key) as ->.
      { eapply (registry_key_unique _ fam); [exact Hnd0|by left|done]. }
      rewrite (filter_none _ (delta_children tm fg S T)).
      * rewrite app_nil_r. apply filter_same. intros e _.
        unfold selected. destruct (has_tag (qualify tm fam) e); cbn [andb];
          [apply andb_true_r|reflexivity].
      * intros e He. apply not_true_is_false. intros Ht.
        destruct (delta_children_family tm fg S T e fam Hnd He Ht) as (k' & Hk' & _).
        apply Hf. apply list_elem_of_fmap. by exists (fam, k').
    + apply elem_of_cons in Hin as [[= -> ->]|Hin]; [done|].
      rewrite (filter_none _ T).
      * by apply IH.
      * intros e _. apply not_true_is_false.
        intros [[Ht _]%selected_spec Ht']%andb_prop.
        apply has_tag_eq in Ht, Ht'. rewrite Ht in Ht'.
        by apply qualify_inj in Ht'.
Qed.

(** [extract_elements] for any order of the registry entries. *)
Lemma extract_over_result tm name src tgt h fg :
  Forall (entry_ok EXTRACT_CHILD) fg ->
  doc_ok h src = true -> doc_ok h tgt = true ->
  ∃ h', extract_elements_over (map fst fg) src tgt name tm h
        = Ok (Some (List.length h), h')
        ∧ (∀ l, l < List.length h -> h' !! l = h !! l)
        ∧ children_of h' (List.length h)
          = delta_children tm fg (children_of h src) (children_of h tgt).
Proof.
  intros Hfg Hs Ht.
  set (a := Header (clark SF_URI name) [] None None).
  set (h0 := h ++ [Root a []]).
  destruct (children_of_app h [Root a []] src Hs) as [Hs0 Hcs].
  destruct (children_of_app h [Root a []] tgt Ht) as [Ht0 Hct].
  fold h0 in Hs0, Ht0, Hcs, Hct.
  assert (src ≠ List.length h) as Hso.
  { apply doc_ok_is_root, is_root_inv in Hs as (a' & ks & Hr).
    apply lookup_lt_Some in Hr. lia. }
  assert (tgt ≠ List.length h) as Hto.
  { apply doc_ok_is_root, is_root_inv in Ht as (a' & ks & Hr).
    apply lookup_lt_Some in Hr. lia. }
  assert (h0 !! List.length h = Some (Root a [])) as Hroot0.
  { unfold h0. by rewrite list_lookup_middle. }
  assert (is_root h0 (List.length h) = true) as Hout.
  { unfold is_root. by rewrite Hroot0. }
  destruct (extract_passes tm src tgt (List.length h) Hso Hto fg h0 Hfg Hs0 Ht0 Hout)
    as (h' & Hrun & Hlen & Hl & Ho & Hn).
  rewrite Hcs, Hct in Hlen, Ho, Hn.
  set (es := delta_children tm fg (children_of h src) (children_of h tgt)) in *.
  assert (List.length h0 = S (List.length h)) as Hlen0.
  { unfold h0. rewrite length_app. simpl. lia. }
  exists h'. split; [|split].
  - unfold extract_elements_over, bind, sforce_root. fold a h0. exact Hrun.
  - intros l Hlt. rewrite Hl by lia. unfold h0. by rewrite lookup_app_l.
  - unfold children_of, kids_of. rewrite Ho, Hroot0. cbn [app].
    apply omap_elem_at_seq. intros i e Hi. eauto.
Qed.

(** X8. The order in which the families are visited only decides the
    order of the families in the output: for every order of the keys of
    [PARENTS], the loop of [extract_elements] yields the same elements,
    and for each family the same elements in the same order; the cells
    of the store it was given stay as they are. *)
Theorem extract_order_irrelevant keys tm name h src tgt :
  Permutation keys (dict_keys PARENTS) ->
  doc_ok h src = true -> doc_ok h tgt = true ->
  ∃ h1 h2,
    extract_elements_over keys src tgt name tm h = Ok (Some (List.length h), h1)
    ∧ extract_elements src tgt name tm h = Ok (Some (List.length h), h2)
    ∧ Permutation (children_of h1 (List.length h)) (children_of h2 (List.length h))
    ∧ (∀ fam, fam ∈ dict_keys PARENTS ->
         List.filter (has_tag (qualify tm fam)) (children_of h1 (List.length h))
         = List.filter (has_tag (qualify tm fam)) (children_of h2 (List.length h)))
    ∧ (∀ l, l < List.length h -> h1 !! l = h !! l).
Proof.
  intros HP Hs Ht.
  change (dict_keys PARENTS) with (map fst (registry EXTRACT_CHILD)) in HP.
  apply Permutation_map_inv in HP as (fg & -> & HP).
  assert (Forall (entry_ok EXTRACT_CHILD) fg) as Hfg.
  { apply Forall_forall. intros x Hx.
    apply (proj1 (Forall_forall _ _) registry_extract_ok). by rewrite HP. }
  assert (NoDup (map fst fg)) as Hnd.
  { rewrite <- HP. apply registry_extract_keys. }
  destruct (extract_over_result tm name src tgt h fg Hfg Hs Ht)
    as (h1 & Hrun1 & Hsame1 & Hch1).
  destruct (extract_elements_result tm name src tgt h Hs Ht)
    as (h2 & Hrun2 & _ & _ & _ & _ & Hch2).
  exists h1, h2. split; [done|]. split; [done|]. rewrite Hch1, Hch2.
  split; [|split; [|done]].
  - unfold delta_children. symmetry. by apply Permutation_flat_map.
  - intros fam Hfam.
    change (dict_keys PARENTS) with (map fst (registry EXTRACT_CHILD)) in Hfam.
    apply list_elem_of_fmap in Hfam as ([f key] & -> & Hin). cbn [fst].
    rewrite (filter_family_delta tm _ _ f key fg Hnd) by (by rewrite <- HP).
    by rewrite (filter_family_delta tm _ _ f key _ registry_extract_keys Hin).
Qed.

(** ** The command line, in full *)

(** X9. [main] checks its three paths first: when one of them is None
    it raises [ValueError] and has read, printed and written nothing. *)
Theorem main_requires_three_paths ps pt po w :
  ps = None ∨ pt = None ∨ po = None ->
  main ps pt po w = (Raise ValueError, w).
Proof.
  intros H. unfold main, io_bind, main_check_values.
  destruct ps, pt, po; try reflexivity. destruct H as [H|[H|H]]; discriminate.
Qed.

(** X10. A missing input ends the run with status 1 after one line that
    names the path: the source path when the source is missing, the
    target path when the source was read and the target is missing.
    No file is written. *)
Theorem missing_input_exits w ps pt po :
  (w_files w !! ps = None ->
   main (Some ps) (Some pt) (Some po) w
   = (Raise (SystemExit 1),
      World (w_heap w) (w_files w) (w_stdout w ++ [ps +:+ " is not available."])))
  ∧ (∀ ds, w_files w !! ps = Some (WellFormed ds) -> w_files w !! pt = None ->
       ∃ h', main (Some ps) (Some pt) (Some po) w
             = (Raise (SystemExit 1),
                World h' (w_files w) (w_stdout w ++ [pt +:+ " is not available."])))
  ∧ exit_status (Raise (SystemExit 1) : result Z) = 1%Z.
Proof.
  split; [apply missing_source_exits|]. split; [|reflexivity].
  intros ds Hs Ht.
  destruct (prune_tree_ok w ps ds Hs) as (h2 & Hrun1 & _).
  exists h2. unfold main. unfold io_bind at 1. cbn [main_check_values io_ret].
  unfold io_bind at 1. rewrite (main_prune_source_ok _ _ _ _ Hrun1).
  unfold io_bind at 1, main_prune_target, try_except_IOError, prune_tree.
  unfold io_bind at 1, etree_parse. cbn [w_files]. rewrite Ht. reflexivity.
Qed.

Lemma prefix_spec n : ∀ s, String.prefix n s = true <-> ∃ b, s = n +:+ b.
Proof.
  induction n as [|c n IH]; intros s.
  - split; [intros _; by exists s|intros _; by destruct s].
  - destruct s as [|c' s]; cbn [String.prefix].
    + split; [discriminate|]. intros [b Hb]. discriminate Hb.
    + destruct (Ascii.ascii_dec c c') as [<-|Hne].
      * rewrite IH. split; intros [b Hb]; exists b.
        -- by rewrite Hb.
        -- by injection Hb.
      * split; [discriminate|]. intros [b Hb]. injection Hb as Hc _. done.
Qed.

Lemma str_in_spec n : ∀ s, str_in n s = true <-> ∃ a b, s = a +:+ n +:+ b.
Proof.
  induction s as [|c s IH]; cbn [str_in]; rewrite orb_true_iff, prefix_spec.
  - split.
    + intros [[b Hb]|H]; [|discriminate]. by exists "", b.
    + intros (a & b & Hab). left. destruct a; [by exists b|discriminate].
  - rewrite IH. split.
    + intros [[b Hb]|(a & b & Hab)]; [by exists "", b|].
      exists (String c a), b. by rewrite Hab.
    + intros ([|c' a] & b & Hab); [left; by exists b|].
      right. exists a, b. by injection Hab.
Qed.

(** X13. The output is a profile exactly when ".profile" occurs
    somewhere in the output path, as a directory name or as part of a
    longer extension too; the root is named [Profile] in that case and
    [PermissionSet] in every other. *)
Theorem is_profile_iff_contains path :
  (is_profile path = true <-> ∃ a b, path = a +:+ ".profile" +:+ b)
  ∧ (root_name path = "Profile" <-> is_profile path = true)
  ∧ (root_name path = "PermissionSet" <-> is_profile path = false).
Proof.
  split; [apply str_in_spec|]. unfold root_name.
  destruct (is_profile path); split; split; (done || discriminate).
Qed.


(** ** profile_prune.py and the scripts *)

(** [prune_tree] on a well-formed file, with the document under the root
    it returns. *)
Lemma prune_tree_document w path d :
  w_files w !! path = Some (WellFormed d) ->
  ∃ h', prune_tree path w
        = (Ok (List.length (w_heap w)), World h' (w_files w) (w_stdout w))
        ∧ document_of h' (List.length (w_heap w)) = Some (pruned_document false d).
Proof.
  intros Hfile. set (h := w_heap w). set (r := List.length h).
  set (h1 := h ++ Root (hd d) (seq (S r) (List.length (children d)))
               :: map (fun e => Elem e (Some r)) (children d)).
  assert (load d h = Ok (r, h1)) as Hload by reflexivity.
  destruct (load_spec d h) as (h1' & Hload' & Hok1 & Hc1 & _).
  rewrite Hload in Hload'. injection Hload' as <-. fold r in Hok1, Hc1.
  assert (h1 !! r = Some (Root (hd d) (seq (S r) (List.length (children d))))) as Hr1.
  { unfold h1, r. by rewrite list_lookup_middle. }
  destruct (prune_elements_spec false r h1 Hok1) as (h2 & Hrun & H2).
  exists h2. split.
  - unfold prune_tree, io_bind, etree_parse. rewrite Hfile.
    unfold lift at 1. fold h. rewrite Hload.
    unfold lift. cbn [w_heap w_files w_stdout]. rewrite Hrun. reflexivity.
  - pose proof (pruned_children_of _ _ _ _ Hok1 H2) as Hc2. rewrite Hc1 in Hc2.
    destruct H2 as (_ & Hr2 & _). rewrite Hr1 in Hr2.
    rewrite (document_of_root _ _ _ _ Hr2), Hc2. reflexivity.
Qed.

(** [profile_prune.main] on a well-formed source. *)
Lemma prune_main_ok w ps pt d :
  w_files w !! ps = Some (WellFormed d) ->
  ∃ h', document_of h' (List.length (w_heap w)) = Some (pruned_document false d)
        ∧ profile_prune.main ps pt w
          = (if fs_writable (w_files w) pt
             then (Ok 0%Z, World h' (<[pt := Written (pruned_document false d)]> (w_files w))
                             (w_stdout w))
             else (Raise IOError, World h' (w_files w) (w_stdout w))).
Proof.
  intros Hfile. destruct (prune_tree_document w ps d Hfile) as (h' & Hrun & Hdoc).
  exists h'. split; [exact Hdoc|].
  unfold profile_prune.main. unfold io_bind at 1.
  unfold try_except_IOError, io_bind at 1. rewrite Hrun. cbn [io_ret].
  unfold io_bind, save_tree, io_ret. cbn [w_heap w_files w_stdout].
  rewrite Hdoc. by destruct (fs_writable (w_files w) pt).
Qed.

(** X14. [profile_prune.main] on a well-formed source prints nothing
    and hands to [save_tree] the tree with the root of the source and
    those of its children that are not pruned, in order.  When the target
    path can be opened for writing it returns 0 and has written one file,
    the target path, with the serialisation of that tree; when it cannot,
    the [IOError] of [save_tree], which is called outside the [try],
    leaves [main] and no file is written. *)
Theorem prune_main_writes_pruned_document w ps pt d :
  w_files w !! ps = Some (WellFormed d) ->
  ∃ h', document_of h' (List.length (w_heap w))
        = Some (Element (hd d) (List.filter (fun e => negb (pruned false e)) (children d)))
        ∧ (fs_writable (w_files w) pt = true ->
           profile_prune.main ps pt w
           = (Ok 0%Z,
              World h' (<[pt := Written (Element (hd d)
                                           (List.filter (fun e => negb (pruned false e))
                                              (children d)))]> (w_files w))
                (w_stdout w)))
        ∧ (fs_writable (w_files w) pt = false ->
           profile_prune.main ps pt w
           = (Raise IOError, World h' (w_files w) (w_stdout w))).
Proof.
  intros Hfile. destruct (prune_main_ok w ps pt d Hfile) as (h' & Hdoc & Hmain).
  exists h'. split; [exact Hdoc|].
  split; intros Hw; by rewrite Hw in Hmain.
Qed.

(** X15. [profile_prune.main] on a missing source prints the path and
    returns 1; on a source that is not well-formed XML the
    [XMLSyntaxError] passes its [except IOError] and leaves [main].  In
    both cases no file is written. *)
Theorem prune_main_without_document w ps pt :
  (w_files w !! ps = None ->
   profile_prune.main ps pt w
   = (Ok 1%Z, World (w_heap w) (w_files w) (w_stdout w ++ [ps +:+ " is not available."])))
  ∧ (w_files w !! ps = Some Malformed ->
     profile_prune.main ps pt w = (Raise XMLSyntaxError, w)).
Proof.
  split; intros Hfile; unfold profile_prune.main; unfold io_bind at 1;
    unfold try_except_IOError, io_bind at 1, prune_tree;
    unfold io_bind at 1, etree_parse; rewrite Hfile; reflexivity.
Qed.

(** X17. Run with another number of arguments than three and without
    one of the three variables in the environment, the script of
    profile_delta prints its usage message and exits with status 1; it
    reads no file and writes none. *)
Theorem script_prints_usage argv environ w :
  List.length argv ≠ 4 ->
  environ !! "profile_path_source" = None
  ∨ environ !! "profile_path_target" = None
  ∨ environ !! "profile_path_output" = None ->
  script argv environ w
  = (Raise (SystemExit 1), World (w_heap w) (w_files w) (w_stdout w ++ [USAGE])).
Proof.
  intros Hlen Henv. unfold script.
  apply Nat.eqb_neq in Hlen. rewrite Hlen.
  unfold io_bind at 1. unfold try_except_KeyError.
  unfold io_bind at 1, environ_get.
  destruct (environ !! "profile_path_source") as [s|]; [|reflexivity].
  cbn [io_ret]. unfold io_bind at 1.
  destruct (environ !! "profile_path_target") as [t|]; [|reflexivity].
  cbn [io_ret]. unfold io_bind at 1.
  destruct (environ !! "profile_path_output") as [o|]; [|reflexivity].
  destruct Henv as [H|[H|H]]; discriminate.
Qed.

(** X18. The scripts drop the value that [main] returns.  With a
    missing source, the script of profile_prune prints the path and ends
    with status 0, although its [main] returned 1; the script of
    profile_delta, whose handler calls [exit(1)], ends with status 1. *)
Theorem missing_source_exit_statuses a0 ps pt po environ w :
  w_files w !! ps = None ->
  profile_prune.script [a0; ps; pt] environ w
  = (Ok tt, World (w_heap w) (w_files w) (w_stdout w ++ [ps +:+ " is not available."]))
  ∧ exit_status (fst (profile_prune.script [a0; ps; pt] environ w)) = 0%Z
  ∧ script [a0; ps; pt; po] environ w
    = (Raise (SystemExit 1),
       World (w_heap w) (w_files w) (w_stdout w ++ [ps +:+ " is not available."]))
  ∧ exit_status (fst (script [a0; ps; pt; po] environ w)) = 1%Z.
Proof.
  intros Hfile.
  assert (profile_prune.main ps pt w
          = (Ok 1%Z, World (w_heap w) (w_files w)
                       (w_stdout w ++ [ps +:+ " is not available."]))) as Hprune.
  { unfold profile_prune.main. unfold io_bind at 1.
    unfold try_except_IOError, io_bind at 1, prune_tree.
    unfold io_bind at 1, etree_parse. rewrite Hfile. reflexivity. }
  assert (profile_prune.script [a0; ps; pt] environ w
          = (Ok tt, World (w_heap w) (w_files w)
                      (w_stdout w ++ [ps +:+ " is not available."]))) as Hs1.
  { unfold profile_prune.script. cbn [List.length Nat.eqb lookup list_lookup].
    unfold io_bind. rewrite Hprune. reflexivity. }
  assert (script [a0; ps; pt; po] environ w
          = (Raise (SystemExit 1), World (w_heap w) (w_files w)
                                     (w_stdout w ++ [ps +:+ " is not available."]))) as Hs2.
  { unfold script. cbn [List.length Nat.eqb lookup list_lookup].
    unfold io_bind. rewrite (missing_source_exits w ps pt po Hfile). reflexivity. }
  rewrite Hs1, Hs2. done.
Qed.

(** ** These theorems at concrete documents *)

Lemma prune_elements_children_witness :
  ∃ h', prune_elements 0 true example_store = Ok (0, h')
        ∧ children_of h' 0
          = List.filter (fun e => negb (pruned true e)) (children_of example_store 0)
        ∧ doc_ok h' 0 = true
        ∧ List.length h' = List.length example_store
        ∧ (∀ l, elem_at h' l = elem_at example_store l)
        ∧ (∀ r1, r1 ≠ 0 -> doc_ok example_store r1 = true ->
             doc_ok h' r1 = true ∧ kids_of h' r1 = kids_of example_store r1
             ∧ children_of h' r1 = children_of example_store r1).
Proof.
  apply (prune_elements_children true example_store 0). vm_compute. reflexivity.
Defined.

Lemma outside_registry_untouched_witness :
  (∃ h', prune_elements 0 true user_permission_store = Ok (0, h')
         ∧ 1 ∈ kids_of h' 0 ∧ h' !! 1 = user_permission_store !! 1)
  ∧ (∀ src name, doc_ok user_permission_store src = true ->
       ∃ h', extract_elements src 0 name true user_permission_store
             = Ok (Some (List.length user_permission_store), h')
             ∧ user_permission ∉ children_of h' (List.length user_permission_store)).
Proof.
  apply (outside_registry_untouched true user_permission_store 0 1 user_permission).
  - vm_compute. reflexivity.
  - by_computation.
  - vm_compute. reflexivity.
  - intros fam Hfam. unfold dict_keys, PARENTS in Hfam. cbn [map fst] in Hfam.
    repeat (apply elem_of_cons in Hfam as [->|Hfam]; [reflexivity|]).
    by apply elem_of_nil in Hfam.
Defined.

Lemma prune_order_irrelevant_witness :
  prune_elements_over (rev (dict_keys PARENTS)) 0 true example_store
  = prune_elements 0 true example_store.
Proof.
  apply (prune_order_irrelevant (rev (dict_keys PARENTS)) true example_store 0).
  - symmetry. apply Permutation_rev.
  - vm_compute. reflexivity.
Defined.

Lemma unknown_family_raises_witness :
  fetch_elements 0 "userPermissions" true user_permission_store = Raise TypeError
  ∧ diff_elements 0 0 "userPermissions" true user_permission_store = Raise TypeError.
Proof.
  apply (unknown_family_raises "userPermissions" true 0 0 user_permission_store).
  vm_compute. reflexivity.
Defined.

Lemma fetch_after_prune_witness :
  ∃ h' (names : gset string),
    prune_elements 3 true example_store = Ok (3, h')
    ∧ fetch_elements 3 "classAccesses" true h' = Ok (names, h')
    ∧ ∀ x, x ∈ names
           <-> ∃ e, e ∈ children_of example_store 3
                    ∧ keyed true "classAccesses" "apexClass" x e = true
                    ∧ pruned true e = false.
Proof.
  apply (fetch_after_prune true example_store 3 "classAccesses" "apexClass").
  - vm_compute. reflexivity.
  - by_computation.
Defined.

Lemma empty_delta_bare_root_witness :
  ∃ h', extract_elements 0 0 "Profile" true example_store
        = Ok (Some (List.length example_store), h')
        ∧ document_of h' (List.length example_store)
          = Some (Element (Header (clark SF_URI "Profile") [] None None) []).
Proof.
  apply (empty_delta_bare_root true "Profile" example_store 0 0).
  - vm_compute. reflexivity.
  - vm_compute. reflexivity.
  - intros fam key Hin. unfold registry, PARENTS in Hin. cbn in Hin.
    repeat (apply elem_of_cons in Hin as [Hin|Hin];
            [injection Hin as -> ->; vm_compute; reflexivity|]).
    by apply elem_of_nil in Hin.
Defined.

Lemma extract_membership_witness :
  ∃ h', extract_elements 0 3 "Profile" true example_store
        = Ok (Some (List.length example_store), h')
        ∧ ∀ e, e ∈ children_of h' (List.length example_store)
               <-> e ∈ children_of example_store 3
                   ∧ ∃ fam key x,
                       (fam, key) ∈ registry EXTRACT_CHILD
                       ∧ keyed true fam key x e = true
                       ∧ ¬ (∃ e', e' ∈ children_of example_store 0
                                  ∧ keyed true fam key x e' = true).
Proof.
  apply (extract_membership true "Profile" example_store 0 3).
  - vm_compute. reflexivity.
  - vm_compute. reflexivity.
Defined.

Lemma extract_order_irrelevant_witness :
  ∃ h1 h2,
    extract_elements_over (rev (dict_keys PARENTS)) 0 3 "Profile" true example_store
    = Ok (Some (List.length example_store), h1)
    ∧ extract_elements 0 3 "Profile" true example_store
      = Ok (Some (List.length example_store), h2)
    ∧ Permutation (children_of h1 (List.length example_store))
        (children_of h2 (List.length example_store))
    ∧ (∀ fam, fam ∈ dict_keys PARENTS ->
         List.filter (has_tag (qualify true fam)) (children_of h1 (List.length example_store))
         = List.filter (has_tag (qualify true fam))
             (children_of h2 (List.length example_store)))
    ∧ (∀ l, l < List.length example_store -> h1 !! l = example_store !! l).
Proof.
  apply (extract_order_irrelevant (rev (dict_keys PARENTS)) true "Profile"
           example_store 0 3).
  - symmetry. apply Permutation_rev.
  - vm_compute. reflexivity.
  - vm_compute. reflexivity.
Defined.

Lemma main_requires_three_paths_witness :
  main None (Some "9/Admin.profile") (Some "out/Admin.profile") example_world
  = (Raise ValueError, example_world).
Proof.
  apply (main_requires_three_paths None (Some "9/Admin.profile")
           (Some "out/Admin.profile") example_world).
  left. reflexivity.
Defined.

Lemma prune_main_writes_pruned_document_witness :
  ∃ h', document_of h' (List.length (w_heap example_world))
        = Some (Element (hd example_target_document)
                  (List.filter (fun e => negb (pruned false e))
                     (children example_target_document)))
        ∧ (fs_writable (w_files example_world) "out/pruned.profile" = true ->
           profile_prune.main "9/Admin.profile" "out/pruned.profile" example_world
           = (Ok 0%Z,
              World h'
                (<[ "out/pruned.profile" :=
                      Written (Element (hd example_target_document)
                                 (List.filter (fun e => negb (pruned false e))
                                    (children example_target_document)))]>
                   (w_files example_world))
                (w_stdout example_world)))
        ∧ (fs_writable (w_files example_world) "out/pruned.profile" = false ->
           profile_prune.main "9/Admin.profile" "out/pruned.profile" example_world
           = (Raise IOError,
              World h' (w_files example_world) (w_stdout example_world))).
Proof.
  apply (prune_main_writes_pruned_document example_world "9/Admin.profile"
           "out/pruned.profile" example_target_document).
  vm_compute. reflexivity.
Defined.

(** What that run writes, and the same run with a target path in a
    directory that does not exist. *)
Example prune_main_example :
  w_files (snd (profile_prune.main "9/Admin.profile" "out/pruned.profile" example_world))
    !! "out/pruned.profile"
  = Some (Written (profile_of [ns_class_access "AccountAddressManager" "true";
                               ns_class_access "AccountHierarchyBuilder" "true"]))
  ∧ fst (profile_prune.main "9/Admin.profile" "missing/pruned.profile" example_world)
    = Raise IOError
  ∧ w_files (snd (profile_prune.main "9/Admin.profile" "missing/pruned.profile"
                    example_world))
    = w_files example_world.
Proof. vm_compute. done. Qed.

Lemma script_prints_usage_witness :
  script ["profile_delta.py"] {[ "profile_path_source" := "8/Admin.profile" ]} example_world
  = (Raise (SystemExit 1),
     World (w_heap example_world) (w_files example_world)
       (w_stdout example_world ++ [USAGE])).
Proof.
  apply (script_prints_usage ["profile_delta.py"]
           {[ "profile_path_source" := "8/Admin.profile" ]} example_world).
  - vm_compute. discriminate.
  - right. left. vm_compute. reflexivity.
Defined.

Lemma missing_source_exit_statuses_witness :
  profile_prune.script ["profile_prune.py"; "7/Admin.profile"; "out/pruned.profile"]
    ∅ example_world
  = (Ok tt, World (w_heap example_world) (w_files example_world)
              (w_stdout example_world ++ ["7/Admin.profile" +:+ " is not available."]))
  ∧ exit_status (fst (profile_prune.script
                        ["profile_prune.py"; "7/Admin.profile"; "out/pruned.profile"]
                        ∅ example_world)) = 0%Z
  ∧ script ["profile_prune.py"; "7/Admin.profile"; "out/pruned.profile"; "out/Admin.profile"]
      ∅ example_world
    = (Raise (SystemExit 1),
       World (w_heap example_world) (w_files example_world)
         (w_stdout example_world ++ ["7/Admin.profile" +:+ " is not available."]))
  ∧ exit_status (fst (script ["profile_prune.py"; "7/Admin.profile"; "out/pruned.profile";
                              "out/Admin.profile"] ∅ example_world)) = 1%Z.
Proof.
  apply (missing_source_exit_statuses "profile_prune.py" "7/Admin.profile"
           "out/pruned.profile" "out/Admin.profile" ∅ example_world).
  vm_compute. reflexivity.
Defined.

(** ** The doctests of profile_delta.py *)

Example example_profile_metadata_source_doctest :
  printed example_profile_metadata_source
  = Some (profile_of [class_access "ARTransactionsTest" "false";
                      class_access "AccountAddressManager" "true"]).
Proof. vm_compute. reflexivity. Qed.

Example prune_elements_doctest :
  printed (root <- example_profile_metadata_source ;; prune_elements root true)
  = Some (profile_of [class_access "AccountAddressManager" "true"]).
Proof. vm_compute. reflexivity. Qed.

Example fetch_elements_doctest :
  value_of (root <- example_profile_metadata_target ;;
            root <- prune_elements root true ;;
            fetch_elements root "classAccesses" true)
  = Some {[ "AccountHierarchyBuilder"; "AccountAddressManager" ]}.
Proof. vm_compute. reflexivity. Qed.

Example diff_elements_doctest :
  value_of (source <- example_profile_metadata_source ;;
            source <- prune_elements source true ;;
            target <- example_profile_metadata_target ;;
            target <- prune_elements target true ;;
            diff_elements source target "classAccesses" true)
  = Some {[ "AccountHierarchyBuilder" ]}.
Proof. vm_compute. reflexivity. Qed.

Example extract_elements_doctest :
  printed (source <- example_profile_metadata_source ;;
           source_root <- prune_elements source true ;;
           target <- example_profile_metadata_target ;;
           target_root <- prune_elements target true ;;
           root <- extract_elements source_root target_root "Profile" true ;;
           ret (default 0 root))
  = Some (profile_of [class_access "AccountHierarchyBuilder" "true"]).
Proof. vm_compute. reflexivity. Qed.
